(** * Weatherman: a shallow embedding of [weatherman/runner.py] and
    [weatherman/helper.py], and the properties of its reader, calculator,
    report generator and pipeline driver.

    Python values are modelled as the code has them: a [dict] is an
    association list in insertion order, a [float] is an IEEE-754 binary64
    number ([spec_float] with [prec = 53], [emax = 1024]), an [int] is a [Z],
    an exception is a constructor of [exn] carried by the [result] monad, and
    [print] appends to the list of printed texts threaded by the [io] monad. *)

From Stdlib Require Import ZArith List String Ascii Bool Lia QArith Sorted.
From Stdlib Require Import Floats.SpecFloat Numbers.DecimalString Numbers.DecimalZ.
Import ListNotations.

#[local] Open Scope string_scope.
#[local] Open Scope Z_scope.

(* ===================================================================== *)
(** * Exceptions and the error monad *)
(* ===================================================================== *)

(** Where a [ValueError] comes from (Python tells them apart by message). *)
Inductive value_error : Type :=
| EmptySequence      (* max() / min() of an empty iterable *)
| NotADate           (* datetime.strptime: the text does not match *)
| NotAFloat          (* float(str): could not convert string to float *)
| NotAnInt           (* int(str): invalid literal for int() *)
| NaNToInteger.      (* int(nan) / round(nan) *)

Inductive exn : Type :=
| OSError            (* os.listdir / open failed *)
| IndexError         (* list index out of range *)
| KeyError (key : string)
| TypeError
| ValueError (why : value_error)
| ZeroDivisionError
| OverflowError.     (* int(inf) / round(inf) *)

Inductive result (A : Type) : Type :=
| Ok (a : A)
| Err (e : exn).
Arguments Ok {A} a.
Arguments Err {A} e.

Definition bind {A B : Type} (r : result A) (k : A -> result B) : result B :=
  match r with
  | Ok a => k a
  | Err e => Err e
  end.

Declare Scope py_scope.
Delimit Scope py_scope with py.
Notation "x <- e ;; k" := (bind e (fun x => k))
  (at level 61, e at next level, right associativity) : py_scope.
Notation "' p <- e ;; k" := (bind e (fun x => let p := x in k))
  (at level 61, p pattern, e at next level, right associativity) : py_scope.
#[local] Open Scope py_scope.

(** A [for] loop whose body may raise: the state is threaded left to right
    and the first exception ends the loop. *)
Fixpoint for_each {A S : Type} (body : S -> A -> result S) (l : list A) (s : S)
  : result S :=
  match l with
  | [] => Ok s
  | x :: rest => s' <- body s x ;; for_each body rest s'
  end.

(* ===================================================================== *)
(** * Dictionaries: association lists in insertion order *)
(* ===================================================================== *)

(** Keys are compared with a boolean equality, as [__eq__] does. *)
Class EqKey (K : Type) : Type := {
  key_eqb : K -> K -> bool;
  key_eqb_eq : forall a b, key_eqb a b = true <-> a = b
}.

#[export] Instance EqKey_string : EqKey string :=
  {| key_eqb := String.eqb; key_eqb_eq := String.eqb_eq |}.

#[export] Instance EqKey_Z : EqKey Z :=
  {| key_eqb := Z.eqb; key_eqb_eq := Z.eqb_eq |}.

Definition dict (K V : Type) : Type := list (K * V).

Section Dict.
Context {K V : Type} `{EqKey K}.

(** [d.get(k)] *)
Fixpoint dict_get (d : dict K V) (k : K) : option V :=
  match d with
  | [] => None
  | (k', v) :: rest => if key_eqb k' k then Some v else dict_get rest k
  end.

(** [d[k] = v]: an existing key keeps its place and takes the new value,
    a new key goes to the end. *)
Fixpoint dict_set (d : dict K V) (k : K) (v : V) : dict K V :=
  match d with
  | [] => [(k, v)]
  | (k', v') :: rest =>
      if key_eqb k' k then (k', v) :: rest else (k', v') :: dict_set rest k v
  end.

Definition keys (d : dict K V) : list K := map fst d.
Definition values (d : dict K V) : list V := map snd d.

(** A well-formed dictionary holds each key once. *)
Definition dict_wf (d : dict K V) : Prop := NoDup (keys d).
End Dict.

(** [d[k]] on a dictionary with string keys; a missing key raises. *)
Definition getitem {V : Type} (d : dict string V) (k : string) : result V :=
  match dict_get d k with
  | Some v => Ok v
  | None => Err (KeyError k)
  end.

(* ===================================================================== *)
(** * Strings *)
(* ===================================================================== *)

(** [str(n)] for an [int]. *)
Definition str_of_Z (n : Z) : string := NilEmpty.string_of_int (Z.to_int n).

(** ["%02d" % n]: zero padding to width two, the sign counting. *)
Definition pad2 (n : Z) : string :=
  if (0 <=? n) && (n <? 10) then "0" ++ str_of_Z n else str_of_Z n.

(** [s * n] for a one character string: no character when [n <= 0]. *)
Fixpoint repeat_char (c : ascii) (n : nat) : string :=
  match n with
  | O => ""
  | S n' => String c (repeat_char c n')
  end.

Definition str_mul (c : ascii) (n : Z) : string := repeat_char c (Z.to_nat n).

(** [sub in s] *)
Fixpoint contains (sub s : string) : bool :=
  prefix sub s ||
  match s with
  | EmptyString => false
  | String _ rest => contains sub rest
  end.

(** [s.endswith(suf)] *)
Definition endswith (s suf : string) : bool :=
  (String.length suf <=? String.length s)%nat &&
  String.eqb (substring (String.length s - String.length suf)
                        (String.length suf) s) suf.

(** [s.split(sep)] for a one character separator: never empty. *)
Fixpoint split_on (sep : ascii) (s : string) : list string :=
  match s with
  | EmptyString => [EmptyString]
  | String c rest =>
      if Ascii.eqb c sep then EmptyString :: split_on sep rest
      else match split_on sep rest with
           | [] => [String c EmptyString]
           | w :: ws => String c w :: ws
           end
  end.

(** ASCII white space, as [str.strip] removes it. *)
Definition is_space (c : ascii) : bool :=
  let n := nat_of_ascii c in
  ((9 <=? n) && (n <=? 13))%nat || (n =? 32)%nat || ((28 <=? n) && (n <=? 31))%nat.

Fixpoint lstrip (s : string) : string :=
  match s with
  | EmptyString => EmptyString
  | String c rest => if is_space c then lstrip rest else s
  end.

Fixpoint rstrip (s : string) : string :=
  match s with
  | EmptyString => EmptyString
  | String c rest =>
      match rstrip rest with
      | EmptyString => if is_space c then EmptyString else String c EmptyString
      | r => String c r
      end
  end.

Definition strip (s : string) : string := rstrip (lstrip s).

(** Number of occurrences of a character. *)
Fixpoint count_char (c : ascii) (s : string) : nat :=
  match s with
  | EmptyString => O
  | String c' rest => (if Ascii.eqb c' c then 1 else 0) + count_char c rest
  end.

(* ===================================================================== *)
(** * Numbers: [int] as [Z], [float] as binary64 *)
(* ===================================================================== *)

Definition float : Type := spec_float.
Definition prec : Z := 53.
Definition emax : Z := 1024.

Definition float_add : float -> float -> float := SFadd prec emax.
Definition float_div : float -> float -> float := SFdiv prec emax.

(** [float(n)] for an [int]: the nearest binary64 number, ties to even;
    an [int] beyond the range raises. *)
Definition float_of_int (n : Z) : result float :=
  match binary_normalize prec emax n 0 false with
  | S754_infinity _ => Err OverflowError
  | f => Ok f
  end.

(** [int(x)] for a [float]: truncation toward zero. *)
Definition int_of_float (x : float) : result Z :=
  match x with
  | S754_zero _ => Ok 0
  | S754_infinity _ => Err OverflowError
  | S754_nan => Err (ValueError NaNToInteger)
  | S754_finite s m e =>
      Ok (cond_Zopp s (if 0 <=? e then Z.pos m * 2 ^ e else Z.pos m / 2 ^ (- e)))
  end.

(** [m / d] rounded to the nearest integer, a tie going to the even one
    ([0 <= m], [0 < d]). *)
Definition div_half_even (m d : Z) : Z :=
  let q := m / d in
  match 2 * (m mod d) ?= d with
  | Lt => q
  | Gt => q + 1
  | Eq => if Z.even q then q else q + 1
  end.

(** [round(x)] for a [float], without [ndigits]: an [int]. *)
Definition round_float (x : float) : result Z :=
  match x with
  | S754_zero _ => Ok 0
  | S754_infinity _ => Err OverflowError
  | S754_nan => Err (ValueError NaNToInteger)
  | S754_finite s m e =>
      Ok (cond_Zopp s (if 0 <=? e then Z.pos m * 2 ^ e
                       else div_half_even (Z.pos m) (2 ^ (- e))))
  end.

(** The rational number a finite [float] stands for. *)
Definition float_to_Q (x : float) : Q :=
  match x with
  | S754_finite s m e =>
      if 0 <=? e then inject_Z (cond_Zopp s (Z.pos m * 2 ^ e))
      else Qmake (cond_Zopp s (Z.pos m)) (Z.to_pos (2 ^ (- e)))
  | _ => 0%Q
  end.


(** A running total: the [int] it starts as, or the [float] it becomes. *)
Inductive num : Type :=
| NInt (n : Z)
| NFloat (f : float).

Definition num_to_float (a : num) : result float :=
  match a with
  | NInt n => float_of_int n
  | NFloat f => Ok f
  end.

(** [a / n] for a total [a] and an [int] [n]: true division, of [float]s.
    (A total that still is an [int] is the 0 it started as, and its count
    is 0.) *)
Definition truediv (a : num) (n : Z) : result float :=
  if n =? 0 then Err ZeroDivisionError
  else x <- num_to_float a ;; y <- float_of_int n ;; Ok (float_div x y).

(* ===================================================================== *)
(** * Data model *)
(* ===================================================================== *)

(** A field of a Daily Reading: [str], [float], or the [None] that
    [csv.DictReader] pads a short row with. *)
Inductive value : Type :=
| VStr (s : string)
| VFloat (f : float)
| VNone.

(** One row as [csv.DictReader] yields it: the named fields, each a string or
    the pad [None], and the fields beyond the header, kept under the key
    [None] at the end of the dictionary. *)
Record raw_row : Type := {
  fields : dict string (option string);
  restkey : option (list string)
}.

(** A row whose fields are all strings: [dict[str, str]]. *)
Definition str_row (r : dict string string) : raw_row :=
  {| fields := map (fun kv => (fst kv, Some (snd kv))) r; restkey := None |}.

Definition daily : Type := dict string value.
Definition monthly : Type := dict Z daily.
Definition yearly : Type := dict string monthly.

(** What a [Calculator] holds. *)
Inductive readings : Type :=
| Yearly (y : yearly)
| Monthly (m : monthly).

(** [x != ''] *)
Definition ne_empty (v : value) : bool :=
  match v with
  | VStr s => negb (String.eqb s "")
  | _ => true
  end.

Inductive month_t : Type :=
| January | February | March | April | May | June
| July | August | September | October | November | December.

(** [%B] *)
Definition month_name (m : month_t) : string :=
  match m with
  | January => "January" | February => "February" | March => "March"
  | April => "April" | May => "May" | June => "June"
  | July => "July" | August => "August" | September => "September"
  | October => "October" | November => "November" | December => "December"
  end.

(** [%b] *)
Definition month_abbr (m : month_t) : string := substring 0 3 (month_name m).

Record datetime : Type := {
  year : Z;
  month : month_t;
  day : Z
}.

(** The Python run time and the file system the program runs against. *)
Record world : Type := {
  (** [os.listdir(path)] *)
  listdir : string -> result (list string);
  (** [open(path, 'r')]: the lines of the file, without their ends *)
  file_lines : string -> result (list string);
  (** the fields [csv.reader] finds in a line; none in a blank line *)
  csv_fields : string -> list string;
  (** [float(s)] for a [str] *)
  float_of_str : string -> option float;
  (** [int(s)] for a [str] *)
  int_of_str : string -> option Z;
  (** [datetime.strptime(s, format)] *)
  strptime : string -> string -> option datetime
}.

(** The Summary of each reduction. *)
Record extremes : Type := {
  max_temp : Z;
  max_date : string;
  min_temp : Z;
  min_date : string;
  max_humidity : Z;
  humidity_date : string
}.

Record averages : Type := {
  max_temp_avg : Z;
  min_temp_avg : Z;
  mean_humidity_avg : Z
}.

(** [{'max_temp': ..., 'min_temp': ...}] of one day. *)
Record day_pair : Type := {
  day_max_temp : Z;
  day_min_temp : Z
}.

Inductive summary : Type :=
| SExtremes (e : extremes)
| SAverages (a : averages)
| SMinMax (d : dict Z day_pair).

(** The Rendered Report of each render. *)
Inductive report : Type :=
| ExtremesReport (date : string)
    (highest_value highest_date lowest_value lowest_date : string)
    (humidity_value humidity_date_ : string)
| AveragesReport (date highest_avg_temp lowest_avg_temp avg_mean_humidity : string)
| EmptyReport.

(* ===================================================================== *)
(** * Printing: the [io] monad *)
(* ===================================================================== *)

(** A computation that may print and may raise: it takes the texts printed
    so far and returns its result with the texts printed by then. *)
Definition io (A : Type) : Type := list string -> result A * list string.

Definition io_ret {A : Type} (a : A) : io A := fun out => (Ok a, out).

Definition io_bind {A B : Type} (m : io A) (k : A -> io B) : io B :=
  fun out =>
    match m out with
    | (Ok a, out') => k a out'
    | (Err e, out') => (Err e, out')
    end.

(** A computation that does not print. *)
Definition lift {A : Type} (r : result A) : io A := fun out => (r, out).

(** [print(text)] *)
Definition print (text : string) : io unit := fun out => (Ok tt, (out ++ [text])%list).

Notation "x <~ e ;; k" := (io_bind e (fun x => k))
  (at level 61, e at next level, right associativity) : py_scope.
Notation "e ;;; k" := (io_bind e (fun _ => k))
  (at level 61, right associativity) : py_scope.

Fixpoint io_for_each {A : Type} (body : A -> io unit) (l : list A) : io unit :=
  match l with
  | [] => io_ret tt
  | x :: rest => body x ;;; io_for_each body rest
  end.

Definition RED : string := String (ascii_of_nat 27) "[91m".
Definition BLUE : string := String (ascii_of_nat 27) "[34m".
Definition RESET : string := String (ascii_of_nat 27) "[0m".
Definition newline : string := String (ascii_of_nat 10) "".

(* ===================================================================== *)
(** * helper.py *)
(* ===================================================================== *)

(** The row [csv.DictReader] makes of the fields of one line: the header
    names paired with the fields in order, a later duplicate name taking the
    place of the earlier one; a short row is padded with [None], the surplus
    of a long row goes under the key [None]. *)
Definition dict_row (fieldnames row : list string) : raw_row :=
  let d := fold_left (fun d kv => dict_set d (fst kv) (Some (snd kv)))
                     (combine fieldnames row) [] in
  let lf := List.length fieldnames in
  let lr := List.length row in
  if (lf <? lr)%nat then {| fields := d; restkey := Some (skipn lf row) |}
  else {| fields := fold_left (fun d k => dict_set d k None) (skipn lr fieldnames) d;
          restkey := None |}.

(** [csv.DictReader(lines, fieldnames=header)], read to the end: one row per
    line that has fields. *)
Definition DictReader (W : world) (lines : list string) (header : list string)
  : list raw_row :=
  flat_map (fun line =>
              match csv_fields W line with
              | [] => []
              | row => [dict_row header row]
              end) lines.

(** [header[0] = 'PKT'] *)
Definition set_first (header : list string) : result (list string) :=
  match header with
  | [] => Err IndexError
  | _ :: rest => Ok ("PKT" :: rest)
  end.

Definition read_csv (W : world) (file_path : string) : result (list raw_row) :=
  lines <- file_lines W file_path ;;
  let first_line := match lines with [] => "" | l :: _ => l end in
  let header := map strip (split_on "," first_line) in
  header <- set_first header ;;
  Ok (DictReader W (tl lines) header).

(* ===================================================================== *)
(** * runner.py: DataReader *)
(* ===================================================================== *)

Record DataReader : Type := {
  str_headers : list string;
  files_dir : string;
  report_date : string
}.

(** [DataReader.__init__] *)
Definition DataReader_init (files_dir report_date : string) : DataReader :=
  {| str_headers := ["PKT"; "Events"];
     files_dir := files_dir;
     report_date := report_date |}.

(** [x in l] for a list of strings. *)
Definition str_in (x : string) (l : list string) : bool :=
  existsb (String.eqb x) l.

Definition parse_date (W : world) (text format : string) : result datetime :=
  match strptime W text format with
  | Some d => Ok d
  | None => Err (ValueError NotADate)
  end.

(** [float(x)] for a field of a row. *)
Definition float_of_cell (W : world) (c : option string) : result float :=
  match c with
  | Some s =>
      match float_of_str W s with
      | Some f => Ok f
      | None => Err (ValueError NotAFloat)
      end
  | None => Err TypeError
  end.

Definition cell_ne_empty (c : option string) : bool :=
  match c with
  | Some s => negb (String.eqb s "")
  | None => true
  end.

Definition value_of_cell (c : option string) : value :=
  match c with
  | Some s => VStr s
  | None => VNone
  end.

Definition item0 {A : Type} (l : list A) : result A :=
  match l with
  | [] => Err IndexError
  | x :: _ => Ok x
  end.

Section Reader.
Variable W : world.

Definition _get_files (self : DataReader) (query_date : string)
  : result (list string) :=
  names <- listdir W (files_dir self) ;;
  Ok (map (fun f => files_dir self ++ "/" ++ f)
          (filter (fun f => contains query_date f && endswith f ".txt") names)).

(** The body of the loop over the headers of a row. *)
Definition daily_field (self : DataReader) (daily_readings : daily)
    (item : string * option string) : result daily :=
  let (header, cell) := item in
  if negb (str_in header (str_headers self)) && cell_ne_empty cell then
    f <- float_of_cell W cell ;;
    Ok (dict_set daily_readings header (VFloat f))
  else
    Ok (dict_set daily_readings header (value_of_cell cell)).

(** The surplus fields of a long row sit under the key [None], which is
    no string header and whose value, a list, [float] refuses. *)
Definition _get_daily_readings (self : DataReader) (daily_data : raw_row)
  : result daily :=
  daily_readings <- for_each (daily_field self) (fields daily_data) [] ;;
  match restkey daily_data with
  | Some _ => Err TypeError
  | None => Ok daily_readings
  end.

(** [daily_data['PKT']] parsed as a date. *)
Definition row_date (daily_data : raw_row) : result datetime :=
  match dict_get (fields daily_data) "PKT" with
  | Some (Some s) => parse_date W s "%Y-%m-%d"
  | Some None => Err TypeError
  | None => Err (KeyError "PKT")
  end.

Definition monthly_row (self : DataReader) (monthly_readings : monthly)
    (daily_data : raw_row) : result monthly :=
  d <- row_date daily_data ;;
  r <- _get_daily_readings self daily_data ;;
  Ok (dict_set monthly_readings (day d) r).

Definition get_monthly_readings (self : DataReader) (independent : bool)
    (monthly_data : option (list raw_row)) : result monthly :=
  monthly_data <-
    (if independent then
       d <- parse_date W (report_date self) "%Y/%m" ;;
       let report_year := str_of_Z (year d) in
       let report_month := month_abbr (month d) in
       files <- _get_files self (report_year ++ "_" ++ report_month) ;;
       file_name <- item0 files ;;
       rows <- read_csv W file_name ;;
       Ok (Some rows)
     else Ok monthly_data) ;;
  match monthly_data with
  | Some rows => for_each (monthly_row self) rows []
  | None => Err TypeError
  end.

Definition yearly_file (self : DataReader) (yearly_readings : yearly)
    (file_name : string) : result yearly :=
  monthly_data <- read_csv W file_name ;;
  first <- item0 monthly_data ;;
  d <- row_date first ;;
  let month := month_name (month d) in
  m <- get_monthly_readings self false (Some monthly_data) ;;
  Ok (dict_set yearly_readings month m).

Definition get_yearly_readings (self : DataReader) : result yearly :=
  file_list <- _get_files self (report_date self) ;;
  for_each (yearly_file self) file_list [].
End Reader.

(* ===================================================================== *)
(** * runner.py: Calculator and its strategies *)
(* ===================================================================== *)

(** [f'{day} {month}'] *)
Definition label (day : Z) (month : string) : string :=
  str_of_Z day ++ " " ++ month.

(** One step of [max(items, key=key)] ([better := >]) or of [min]
    ([better := <]): a later item replaces the best one only when its key is
    strictly better. *)
Fixpoint scan_extreme {K : Type} (better : Z -> Z -> bool) (key : K -> result Z)
    (best : K) (best_val : Z) (rest : list K) : result K :=
  match rest with
  | [] => Ok best
  | x :: rest' =>
      v <- key x ;;
      if better v best_val then scan_extreme better key x v rest'
      else scan_extreme better key best best_val rest'
  end.

Definition extreme_by {K : Type} (better : Z -> Z -> bool) (items : list K)
    (key : K -> result Z) : result K :=
  match items with
  | [] => Err (ValueError EmptySequence)
  | x :: rest => v <- key x ;; scan_extreme better key x v rest
  end.

(** [max(items, key=key)] and [min(items, key=key)] *)
Definition py_max {K : Type} := @extreme_by K Z.gtb.
Definition py_min {K : Type} := @extreme_by K Z.ltb.

(** The running totals and counts of [compute_monthly_average]. *)
Record avg_state : Type := {
  total_max_temp : num;
  max_temp_count : Z;
  total_min_temp : num;
  min_temp_count : Z;
  total_mean_humidity : num;
  mean_humidity_count : Z
}.

Section Calculator.
Variable W : world.

(** [int(x)] for a field of a reading. *)
Definition int_of_value (v : value) : result Z :=
  match v with
  | VStr s =>
      match int_of_str W s with
      | Some n => Ok n
      | None => Err (ValueError NotAnInt)
      end
  | VFloat f => int_of_float f
  | VNone => Err TypeError
  end.

(** [if daily_data[field] != '': readings[key] = int(daily_data[field])] *)
Definition note_reading (field : string) (daily_data : daily) (key : string)
    (d : dict string Z) : result (dict string Z) :=
  v <- getitem daily_data field ;;
  if ne_empty v then n <- int_of_value v ;; Ok (dict_set d key n)
  else Ok d.

Definition extremes_day (month : string)
    (st : dict string Z * dict string Z * dict string Z)
    (item : Z * daily) : result (dict string Z * dict string Z * dict string Z) :=
  let '(max_temps_readings, min_temps_readings, max_humidity_readings) := st in
  let (day, daily_data) := item in
  a <- note_reading "Max TemperatureC" daily_data (label day month)
         max_temps_readings ;;
  b <- note_reading "Min TemperatureC" daily_data (label day month)
         min_temps_readings ;;
  c <- note_reading "Max Humidity" daily_data (label day month)
         max_humidity_readings ;;
  Ok (a, b, c).

Definition extremes_month
    (st : dict string Z * dict string Z * dict string Z)
    (item : string * monthly) : result (dict string Z * dict string Z * dict string Z) :=
  let (month, monthly_readings) := item in
  for_each (extremes_day month) monthly_readings st.

(** [Calculator.compute] on readings of the yearly shape. *)
Definition compute_extremes (y : yearly) : result extremes :=
  st <- for_each extremes_month y ([], [], []) ;;
  let '(max_temps_readings, min_temps_readings, max_humidity_readings) := st in
  max_temp_date <- py_max (keys max_temps_readings) (getitem max_temps_readings) ;;
  min_temp_date <- py_min (keys min_temps_readings) (getitem min_temps_readings) ;;
  max_humidity_date <-
    py_max (keys max_humidity_readings) (getitem max_humidity_readings) ;;
  max_temp <- getitem max_temps_readings max_temp_date ;;
  min_temp <- getitem min_temps_readings min_temp_date ;;
  max_humidity <- getitem max_humidity_readings max_humidity_date ;;
  Ok {| max_temp := max_temp; max_date := max_temp_date;
        min_temp := min_temp; min_date := min_temp_date;
        max_humidity := max_humidity; humidity_date := max_humidity_date |}.

(** [Calculator.compute]. On readings of the monthly shape the outer loop
    runs over the days and the inner one over the fields of a day, whose
    values, a [str], a [float] or [None], cannot be indexed by a field
    name; with no field at all the three mappings stay empty. *)
Definition compute (r : readings) : result summary :=
  match r with
  | Yearly y => e <- compute_extremes y ;; Ok (SExtremes e)
  | Monthly m =>
      _ <- for_each (fun (_ : unit) (item : Z * daily) =>
                       match snd item with
                       | [] => Ok tt
                       | _ :: _ => Err TypeError
                       end) m tt ;;
      Err (ValueError EmptySequence)
  end.

(** [total += x] *)
Definition num_add (total : num) (x : value) : result num :=
  match x with
  | VFloat f => a <- num_to_float total ;; Ok (NFloat (float_add a f))
  | VStr _ => Err TypeError
  | VNone => Err TypeError
  end.

(** [if day[field] != '': total += day[field]; count += 1] *)
Definition accumulate (field : string) (day : daily) (total : num) (count : Z)
  : result (num * Z) :=
  v <- getitem day field ;;
  if ne_empty v then t <- num_add total v ;; Ok (t, count + 1)
  else Ok (total, count).

Definition average_day (st : avg_state) (day : daily) : result avg_state :=
  '(t1, c1) <- accumulate "Max TemperatureC" day
                 (total_max_temp st) (max_temp_count st) ;;
  '(t2, c2) <- accumulate "Min TemperatureC" day
                 (total_min_temp st) (min_temp_count st) ;;
  '(t3, c3) <- accumulate "Mean Humidity" day
                 (total_mean_humidity st) (mean_humidity_count st) ;;
  Ok {| total_max_temp := t1; max_temp_count := c1;
        total_min_temp := t2; min_temp_count := c2;
        total_mean_humidity := t3; mean_humidity_count := c3 |}.

Definition avg_init : avg_state :=
  {| total_max_temp := NInt 0; max_temp_count := 0;
     total_min_temp := NInt 0; min_temp_count := 0;
     total_mean_humidity := NInt 0; mean_humidity_count := 0 |}.

(** [round(total / count)] *)
Definition rounded_mean (total : num) (count : Z) : result Z :=
  q <- truediv total count ;; round_float q.

Definition averages_of (st : avg_state) : result averages :=
  a <- rounded_mean (total_max_temp st) (max_temp_count st) ;;
  b <- rounded_mean (total_min_temp st) (min_temp_count st) ;;
  c <- rounded_mean (total_mean_humidity st) (mean_humidity_count st) ;;
  Ok {| max_temp_avg := a; min_temp_avg := b; mean_humidity_avg := c |}.

Definition monthly_average (m : monthly) : result averages :=
  st <- for_each average_day (values m) avg_init ;;
  averages_of st.

(** [compute_monthly_average]. On readings of the yearly shape [day] is a
    month, a mapping keyed by day numbers, which has no field name. *)
Definition compute_monthly_average (r : readings) : result summary :=
  match r with
  | Monthly m => a <- monthly_average m ;; Ok (SAverages a)
  | Yearly [] => Err ZeroDivisionError
  | Yearly (_ :: _) => Err (KeyError "Max TemperatureC")
  end.

Definition min_max_day (computations : dict Z day_pair) (item : Z * daily)
  : result (dict Z day_pair) :=
  let (day, daily_reading) := item in
  max_temp <- getitem daily_reading "Max TemperatureC" ;;
  min_temp <- getitem daily_reading "Min TemperatureC" ;;
  if ne_empty max_temp && ne_empty min_temp then
    a <- int_of_value max_temp ;;
    b <- int_of_value min_temp ;;
    Ok (dict_set computations day {| day_max_temp := a; day_min_temp := b |})
  else Ok computations.

Definition min_max (m : monthly) : result (dict Z day_pair) :=
  for_each min_max_day m [].

(** [compute_min_max]. On readings of the yearly shape [daily_reading] is
    a month, which has no field name. *)
Definition compute_min_max (r : readings) : result summary :=
  match r with
  | Monthly m => d <- min_max m ;; Ok (SMinMax d)
  | Yearly [] => Ok (SMinMax [])
  | Yearly (_ :: _) => Err (KeyError "Max TemperatureC")
  end.

(** A [Calculator] whose [compute] is [func] when one is given. *)
Definition Calculator_compute (r : readings)
    (func : option (readings -> result summary)) : result summary :=
  match func with
  | Some f => f r
  | None => compute r
  end.
End Calculator.

(* ===================================================================== *)
(** * runner.py: ReportGenerator and its strategies *)
(* ===================================================================== *)

(** The two lines of a day in the dual-bar report. *)
Definition max_bar_line (day : Z) (readings : day_pair) : string :=
  pad2 day ++ " " ++ RED ++ str_mul "+" (day_max_temp readings) ++ " "
    ++ RESET ++ str_of_Z (day_max_temp readings) ++ "C".

Definition min_bar_line (day : Z) (readings : day_pair) : string :=
  pad2 day ++ " " ++ BLUE ++ str_mul "+" (day_min_temp readings) ++ " "
    ++ RESET ++ str_of_Z (day_min_temp readings) ++ "C".

(** The line of a day in the single-bar report. *)
Definition single_bar_line (day : Z) (readings : day_pair) : string :=
  pad2 day ++ " " ++ BLUE ++ str_mul "+" (day_min_temp readings) ++ RED
    ++ str_mul "+" (day_max_temp readings) ++ " " ++ RESET
    ++ str_of_Z (day_min_temp readings) ++ "C - "
    ++ str_of_Z (day_max_temp readings) ++ "C".

Section ReportGenerator.
Variable W : world.

(** [ReportGenerator.generate_report]: a Summary without the key
    ['max_temp'] raises before anything is printed. *)
Definition generate_report (results : summary) (report_date : string)
  : io report :=
  match results with
  | SExtremes r =>
      print ("Highest: " ++ str_of_Z (max_temp r) ++ "C on " ++ max_date r) ;;;
      print ("Lowest: " ++ str_of_Z (min_temp r) ++ "C on " ++ min_date r) ;;;
      print ("Humidity: " ++ str_of_Z (max_humidity r) ++ "% on "
               ++ humidity_date r) ;;;
      io_ret (ExtremesReport report_date
                (str_of_Z (max_temp r) ++ "C") (max_date r)
                (str_of_Z (min_temp r) ++ "C") (min_date r)
                (str_of_Z (max_humidity r) ++ "%") (humidity_date r))
  | SAverages _ | SMinMax _ => lift (Err (KeyError "max_temp"))
  end.

Definition generate_average_report (results : summary) (report_date : string)
  : io report :=
  match results with
  | SAverages r =>
      print ("Highest Average: " ++ str_of_Z (max_temp_avg r) ++ "C") ;;;
      print ("Lowest Average: " ++ str_of_Z (min_temp_avg r) ++ "C") ;;;
      print ("Average Mean Humidity: " ++ str_of_Z (mean_humidity_avg r) ++ "%") ;;;
      io_ret (AveragesReport report_date
                (str_of_Z (max_temp_avg r) ++ "C")
                (str_of_Z (min_temp_avg r) ++ "C")
                (str_of_Z (mean_humidity_avg r) ++ "%"))
  | SExtremes _ | SMinMax _ => lift (Err (KeyError "max_temp_avg"))
  end.

(** [datetime.strptime(report_date, '%Y/%m').strftime('%B %Y')] *)
Definition report_header (report_date : string) : result string :=
  d <- parse_date W report_date "%Y/%m" ;;
  Ok (month_name (month d) ++ " " ++ str_of_Z (year d)).

(** The loop of a bar report over [results.items()]. The other two
    Summaries are never empty and their keys are strings, which
    ["%02d" % day] refuses. *)
Definition bar_lines (lines : Z -> day_pair -> list string) (results : summary)
  : io unit :=
  match results with
  | SMinMax d =>
      io_for_each (fun item : Z * day_pair =>
                     io_for_each print (lines (fst item) (snd item))) d
  | SExtremes _ | SAverages _ => lift (Err TypeError)
  end.

Definition generate_multiple_bar_report (results : summary)
    (report_date : string) : io report :=
  h <~ lift (report_header report_date) ;;
  print h ;;;
  bar_lines (fun day readings =>
               [max_bar_line day readings; min_bar_line day readings]) results ;;;
  io_ret EmptyReport.

Definition generate_single_bar_report (results : summary)
    (report_date : string) : io report :=
  h <~ lift (report_header report_date) ;;
  print h ;;;
  bar_lines (fun day readings => [single_bar_line day readings]) results ;;;
  io_ret EmptyReport.

(** A [ReportGenerator] whose [generate_report] is [func] when one is
    given. *)
Definition ReportGenerator_generate (results : summary) (report_date : string)
    (func : option (summary -> string -> io report)) : io report :=
  match func with
  | Some f => f results report_date
  | None => generate_report results report_date
  end.
End ReportGenerator.

(* ===================================================================== *)
(** * runner.py: process_args *)
(* ===================================================================== *)

Record strategies : Type := {
  calc_strategy : option (readings -> result summary);
  report_strategy : option (summary -> string -> io report)
}.

Section Driver.
Variable W : world.

(** The body of the loop of [process_args], up to the report it appends. *)
Definition process_date (date : string) (report_num : Z) (path : string)
    (st : strategies) (yearly : bool) : io report :=
  print (newline ++ "Report # " ++ str_of_Z report_num) ;;;
  let data_reader := DataReader_init path date in
  readings <~ lift (if yearly
                    then y <- get_yearly_readings W data_reader ;; Ok (Yearly y)
                    else m <- get_monthly_readings W data_reader true None ;;
                         Ok (Monthly m)) ;;
  computations <~ lift (Calculator_compute W readings (calc_strategy st)) ;;
  ReportGenerator_generate computations date (report_strategy st).

Fixpoint process_dates (dates : list string) (report_num : Z) (path : string)
    (st : strategies) (yearly : bool) (reports : list report)
  : io (list report) :=
  match dates with
  | [] => io_ret reports
  | date :: rest =>
      r <~ process_date date report_num path st yearly ;;
      process_dates rest (report_num + 1) path st yearly (reports ++ [r])%list
  end.

Definition process_args (dates : list string) (report_num : Z) (path : string)
    (st : strategies) (yearly : bool) : io (list report) :=
  process_dates dates report_num path st yearly [].
End Driver.

(* ===================================================================== *)
(** * A small world to run the program in *)
(* ===================================================================== *)

Module Demo.

(** Decimal integers only: a part of what [int] and [float] read. *)
Definition read_int (s : string) : option Z :=
  match s with
  | EmptyString => None
  | _ => option_map Z.of_int (NilEmpty.int_of_string s)
  end.

Definition read_float (s : string) : option float :=
  option_map (fun n => binary_normalize prec emax n 0 false) (read_int s).

Definition month_of_Z (n : Z) : option month_t :=
  match n with
  | 1 => Some January | 2 => Some February | 3 => Some March
  | 4 => Some April | 5 => Some May | 6 => Some June
  | 7 => Some July | 8 => Some August | 9 => Some September
  | 10 => Some October | 11 => Some November | 12 => Some December
  | _ => None
  end.

(** The two formats of the program, on plain decimal fields. *)
Definition read_date (text format : string) : option datetime :=
  if String.eqb format "%Y/%m" then
    match map read_int (split_on "/" text) with
    | [Some y; Some m] =>
        option_map (fun mo => {| year := y; month := mo; day := 1 |}) (month_of_Z m)
    | _ => None
    end
  else if String.eqb format "%Y-%m-%d" then
    match map read_int (split_on "-" text) with
    | [Some y; Some m; Some d] =>
        option_map (fun mo => {| year := y; month := mo; day := d |}) (month_of_Z m)
    | _ => None
    end
  else None.

Definition line_fields (line : string) : list string :=
  match line with
  | EmptyString => []
  | _ => split_on "," line
  end.

Definition header_line : string :=
  "PKT,Max TemperatureC,Min TemperatureC,Max Humidity, Mean Humidity,Events".

(** The files of the directory ["weatherfiles"]. *)
Definition files : dict string (list string) :=
  [ ("weatherfiles/Murree_weather_2011_Jul.txt",
     [ header_line;
       "2011-7-1,45,20,80,60,Rain";
       "2011-7-2,45,18,90,70,";
       "2011-7-3,30,18,,50,Fog" ]);
    ("weatherfiles/Murree_weather_2011_Aug.txt",
     [ header_line;
       "2011-8-1,40,21,90,65," ]);
    ("weatherfiles/Murree_weather_2011_Oct.txt",
     [ header_line;
       "2011-10-2,3,1,70,50,";
       "2011-10-1,4,-2,60,40,Snow" ]);
    ("weatherfiles/Murree_weather_2012_Jan.txt",
     [ header_line ]);
    ("weatherfiles/Murree_weather_2012_Feb.txt",
     [ header_line;
       "2012-2-1,5,1,70,40,Snow" ]) ].

Definition W : world :=
  {| listdir := fun path =>
       if String.eqb path "weatherfiles"
       then Ok (map (fun kv => substring 13 100 (fst kv)) files)
       else Err OSError;
     file_lines := fun path =>
       match dict_get files path with
       | Some lines => Ok lines
       | None => Err OSError
       end;
     csv_fields := line_fields;
     float_of_str := read_float;
     int_of_str := read_int;
     strptime := read_date |}.

(** [float(n)] for a small [int]. *)
Definition fl (n : Z) : float := binary_normalize prec emax n 0 false.

(** [m / 4] as a [float]. *)
Definition quarters (m : Z) : float := binary_normalize prec emax m (-2) false.

Definition reading (max_t min_t max_h mean_h : value) : daily :=
  [ ("PKT", VStr ""); ("Max TemperatureC", max_t); ("Min TemperatureC", min_t);
    ("Max Humidity", max_h); ("Mean Humidity", mean_h); ("Events", VStr "") ].

(** A row of a file, as [read_csv] returns it. *)
Definition row : dict string string :=
  [ ("PKT", "2011-7-3"); ("Max TemperatureC", "30"); ("Min TemperatureC", "18");
    ("Max Humidity", ""); ("Mean Humidity", "50"); ("Events", "Fog") ].

(** A month with a day whose minimum is missing and one below zero. *)
Definition month : monthly :=
  [ (1, reading (VFloat (quarters 119)) (VFloat (quarters 70)) (VStr "") (VStr ""));
    (2, reading (VFloat (fl 31)) (VStr "") (VStr "") (VStr ""));
    (3, reading (VFloat (quarters 7)) (VFloat (quarters (-3))) (VStr "") (VStr "")) ].

(** Two months whose mean maximum temperature lies half way between two
    integers: 24.5 and 25.5. *)
Definition month_24_25 : monthly :=
  [ (1, reading (VFloat (fl 24)) (VFloat (fl 10)) (VStr "") (VFloat (fl 50)));
    (2, reading (VFloat (fl 25)) (VFloat (fl 13)) (VStr "") (VStr "")) ].

Definition month_25_26 : monthly :=
  [ (1, reading (VFloat (fl 25)) (VFloat (fl 10)) (VStr "") (VFloat (fl 50)));
    (2, reading (VStr "") (VStr "") (VStr "") (VStr ""));
    (3, reading (VFloat (fl 26)) (VFloat (fl 13)) (VStr "") (VStr "")) ].

(** A year in which two days of July tie for the highest temperature, two
    for the lowest, and a day of July and one of August for the humidity. *)
Definition year_tie : yearly :=
  [ ("July",
     [ (1, reading (VFloat (fl 45)) (VFloat (fl 20)) (VFloat (fl 80)) (VStr ""));
       (2, reading (VFloat (fl 45)) (VFloat (fl 18)) (VFloat (fl 90)) (VStr ""));
       (3, reading (VFloat (fl 30)) (VFloat (fl 18)) (VStr "") (VStr "")) ]);
    ("August",
     [ (1, reading (VFloat (fl 40)) (VFloat (fl 21)) (VFloat (fl 90)) (VStr "")) ]) ].

(** A year in which the second day is the hottest (45.75 against 45.25) and
    both temperatures truncate to 45. *)
Definition year_trunc : yearly :=
  [ ("July",
     [ (1, reading (VFloat (quarters 181)) (VFloat (fl 20)) (VFloat (fl 80)) (VStr ""));
       (2, reading (VFloat (quarters 183)) (VFloat (fl 18)) (VFloat (fl 90)) (VStr "")) ]) ].

(** A year without any humidity reading. *)
Definition year_dry : yearly :=
  [ ("July",
     [ (1, reading (VFloat (fl 45)) (VFloat (fl 20)) (VStr "") (VStr ""));
       (2, reading (VFloat (fl 44)) (VFloat (fl 18)) (VStr "") (VStr "")) ]) ].




(** The monthly-average strategy pair. *)
Definition average_strategies : strategies :=
  {| calc_strategy := Some compute_monthly_average;
     report_strategy := Some generate_average_report |}.

End Demo.

(* ===================================================================== *)
(** * Specifications *)
(* ===================================================================== *)

(** ** Field typing of the Data Reader *)

(** A field stays a string when its name is a string header or its raw
    value is empty. *)
Definition kept_as_string (self : DataReader) (header raw : string) : bool :=
  str_in header (str_headers self) || String.eqb raw "".

(** The typed value of a raw field. *)
Definition field_typed (W : world) (self : DataReader) (header raw : string)
    (v : value) : Prop :=
  if kept_as_string self header raw then v = VStr raw
  else exists f, float_of_str W raw = Some f /\ v = VFloat f.

(** ** Mappings built by a loop that keeps some entries *)

(** The entries of [d] on which [g] is defined, in the order of [d]. *)
Definition dict_filter_map {K A B : Type} (g : K -> A -> option B) (d : dict K A)
  : dict K B :=
  flat_map (fun ka => match g (fst ka) (snd ka) with
                      | Some b => [(fst ka, b)]
                      | None => []
                      end) d.

(** ** Integer truncation and rounding *)

(** [n] is [x] truncated toward zero. *)
Definition truncation (x : Q) (n : Z) : Prop :=
  ((0 <= x)%Q -> (inject_Z n <= x)%Q /\ (x < inject_Z n + 1)%Q) /\
  ((x <= 0)%Q -> (inject_Z n - 1 < x)%Q /\ (x <= inject_Z n)%Q).


(** ** The daily-min-max reduction *)

(** The pair a day contributes: none when a temperature is missing, empty
    or not convertible. *)
Definition day_entry (W : world) (day : Z) (reading : daily) : option day_pair :=
  match dict_get reading "Max TemperatureC", dict_get reading "Min TemperatureC" with
  | Some mx, Some mn =>
      if ne_empty mx && ne_empty mn then
        match int_of_value W mx, int_of_value W mn with
        | Ok a, Ok b => Some {| day_max_temp := a; day_min_temp := b |}
        | _, _ => None
        end
      else None
  | _, _ => None
  end.

(** Both temperatures of a day can be read and, when neither is empty,
    converted. *)
Definition day_readable (W : world) (reading : daily) : Prop :=
  exists mx mn,
    dict_get reading "Max TemperatureC" = Some mx /\
    dict_get reading "Min TemperatureC" = Some mn /\
    (ne_empty mx && ne_empty mn = true ->
     exists a b, int_of_value W mx = Ok a /\ int_of_value W mn = Ok b).

(** ** The monthly-average reduction *)

(** The non-empty values of a field in one day: none for the empty string,
    the number for a [float]; undefined when the field is missing or holds
    something that cannot be added. *)
Definition day_floats (field : string) (day : daily) : option (list float) :=
  match dict_get day field with
  | Some (VStr s) => if String.eqb s "" then Some [] else None
  | Some (VFloat f) => Some [f]
  | _ => None
  end.

(** The non-empty values of a field over the days, in order. *)
Fixpoint field_floats (field : string) (days : list daily) : option (list float) :=
  match days with
  | [] => Some []
  | d :: rest =>
      match day_floats field d, field_floats field rest with
      | Some a, Some b => Some (a ++ b)%list
      | _, _ => None
      end
  end.

(** The binary64 sum of the values, added one by one from zero. *)
Definition sum_floats (xs : list float) : float :=
  fold_left float_add xs (S754_zero false).


(** The total and the count after the values [xs]. *)
Definition tracks (xs : list float) (total : num) (count : Z) : Prop :=
  count = Z.of_nat (List.length xs) /\
  total = match xs with
          | [] => NInt 0
          | _ :: _ => NFloat (sum_floats xs)
          end.

(** The state of the loop follows the values of the three fields. *)
Definition avg_tracks (x1 x2 x3 : list float) (st : avg_state) : Prop :=
  tracks x1 (total_max_temp st) (max_temp_count st) /\
  tracks x2 (total_min_temp st) (min_temp_count st) /\
  tracks x3 (total_mean_humidity st) (mean_humidity_count st).

(** ** The yearly-extremes reduction *)

(** The days of a year in the order the reduction visits them, month by
    month and day by day within a month, each under its label. *)
Definition entries (y : yearly) : list (string * daily) :=
  flat_map (fun mm => map (fun dd => (label (fst dd) (fst mm), snd dd)) (snd mm)) y.

(** Yearly Readings are a mapping of mappings. *)
Definition wf_yearly (y : yearly) : Prop :=
  dict_wf y /\ Forall (fun mm => dict_wf (snd mm)) y.

(** The integer the reduction notes for a field of a day: none when the
    field is missing, empty or not convertible. *)
Definition field_int (W : world) (field : string) (d : daily) : option Z :=
  match dict_get d field with
  | Some v =>
      if ne_empty v then
        match int_of_value W v with
        | Ok n => Some n
        | Err _ => None
        end
      else None
  | None => None
  end.

(** [key] is the label of the first entry whose value [val] of [field] is
    extreme: every value before it is strictly worse ([R n val]) and no value
    after it is strictly better ([R val n] fails). [R] is [<] for a maximum
    and [>] for a minimum. *)
Definition first_extreme (W : world) (R : Z -> Z -> Prop) (field : string)
    (es : list (string * daily)) (key : string) (val : Z) : Prop :=
  exists before d after,
    es = (before ++ (key, d) :: after)%list /\
    field_int W field d = Some val /\
    (forall k' d' n, In (k', d') before -> field_int W field d' = Some n -> R n val) /\
    (forall k' d' n, In (k', d') after -> field_int W field d' = Some n -> ~ R val n).

(** The body of the loops of the reduction at one labelled day. *)
Definition extremes_entry (W : world)
    (st : dict string Z * dict string Z * dict string Z)
    (item : string * daily) : result (dict string Z * dict string Z * dict string Z) :=
  let '(a, b, c) := st in
  a' <- note_reading W "Max TemperatureC" (snd item) (fst item) a ;;
  b' <- note_reading W "Min TemperatureC" (snd item) (fst item) b ;;
  c' <- note_reading W "Max Humidity" (snd item) (fst item) c ;;
  Ok (a', b', c').

(** The part of [extremes_entry] that concerns one field. *)
Definition note_entry (W : world) (field : string) (acc : dict string Z)
    (item : string * daily) : result (dict string Z) :=
  note_reading W field (snd item) (fst item) acc.

(** The mapping the reduction builds for a field. *)
Definition noted (W : world) (field : string) (es : list (string * daily))
  : dict string Z :=
  dict_filter_map (fun _ d => field_int W field d) es.

(** [key] labels a day whose value [val] of [field] no other day beats:
    [R n val] fails for every value [n] ([R] is [>] for a maximum, [<] for a
    minimum). *)
Definition extreme_day (W : world) (R : Z -> Z -> Prop) (field : string)
    (es : list (string * daily)) (key : string) (val : Z) : Prop :=
  (exists d, In (key, d) es /\ field_int W field d = Some val) /\
  (forall k' d' n, In (k', d') es -> field_int W field d' = Some n -> ~ R n val).

(** ** Empty ranges *)

(** No day holds a non-empty value of [field]. *)
Definition no_value (field : string) (days : list daily) : Prop :=
  Forall (fun d => forall v, dict_get d field = Some v -> ne_empty v = false) days.

(** The fields whose extremes the yearly reduction takes, and those the
    monthly reduction averages, in the order of their lines. *)
Definition extremes_fields : list string :=
  ["Max TemperatureC"; "Min TemperatureC"; "Max Humidity"].

Definition average_fields : list string :=
  ["Max TemperatureC"; "Min TemperatureC"; "Mean Humidity"].

(** [round(total / count)] of a field after the loop of the monthly
    reduction. *)
Definition average_line (field : string) (st : avg_state) : result Z :=
  if String.eqb field "Max TemperatureC"
  then rounded_mean (total_max_temp st) (max_temp_count st)
  else if String.eqb field "Min TemperatureC"
  then rounded_mean (total_min_temp st) (min_temp_count st)
  else rounded_mean (total_mean_humidity st) (mean_humidity_count st).

(** The averaged fields whose line comes before that of [field]. *)
Definition lines_before (field : string) : list string :=
  if String.eqb field "Max TemperatureC" then []
  else if String.eqb field "Min TemperatureC" then ["Max TemperatureC"]
  else ["Max TemperatureC"; "Min TemperatureC"].

(** The failure of a reduction that finds no value: [max()] or [min()] of
    an empty mapping, or the division by a zero count. *)
Definition empty_range_error (e : exn) : Prop :=
  e = ValueError EmptySequence \/ e = ZeroDivisionError.

(** ** The bar reports *)







(** ** The pipeline driver *)

(** The dates are processed one after the other from the report number [n]
    and the printed texts [out], each returning a report: the reports come
    in the order of the dates, one per date. *)
Inductive each_date (W : world) (path : string) (st : strategies) (yearly : bool)
  : list string -> Z -> list string -> list report -> list string -> Prop :=
| each_nil (n : Z) (out : list string) :
    each_date W path st yearly [] n out [] out
| each_cons (date : string) (dates : list string) (n : Z) (out out1 out2 : list string)
    (r : report) (rs : list report) :
    process_date W date n path st yearly out = (Ok r, out1) ->
    each_date W path st yearly dates (n + 1) out1 rs out2 ->
    each_date W path st yearly (date :: dates) n out (r :: rs) out2.

(** ** Rows and files as the reader takes them in *)


(** The day and the reading a row contributes to its month. *)
Definition row_entry (W : world) (self : DataReader) (daily_data : raw_row)
  : result (Z * daily) :=
  d <- row_date W daily_data ;;
  r <- _get_daily_readings W self daily_data ;;
  Ok (day d, r).

(** The month name and the readings a file contributes to its year. *)
Definition file_entry (W : world) (self : DataReader) (file_name : string)
  : result (string * monthly) :=
  monthly_data <- read_csv W file_name ;;
  first <- item0 monthly_data ;;
  d <- row_date W first ;;
  m <- get_monthly_readings W self false (Some monthly_data) ;;
  Ok (month_name (month d), m).

(** Rows and files to run the reader on. *)
Module Demo2.

(** The header of the files of the small world, as [read_csv] makes it. *)
Definition header : list string :=
  ["PKT"; "Max TemperatureC"; "Min TemperatureC"; "Max Humidity"; "Mean Humidity";
   "Events"].

(** Three rows of which the first and the last carry the same date. *)
Definition rows_twice : list raw_row :=
  DictReader Demo.W
    [ "2011-7-1,45,20,80,60,Rain"; "2011-7-2,44,18,90,70,"; "2011-7-1,30,17,85,65,Fog" ]
    header.

(** A directory with two files of July 2011 and none of 2013. *)
Definition files : dict string (list string) :=
  [ ("data/lahore_2011_Jul.txt",
     [ Demo.header_line; "2011-7-1,40,30,50,45," ]);
    ("data/notes_2011_Jul.doc", [ "memo" ]);
    ("data/murree_2011_Jul.txt",
     [ Demo.header_line; "2011-7-1,25,15,95,85,Rain"; "2011-7-2,26,16,90,80," ]) ].

Definition W : world :=
  {| listdir := fun path =>
       if String.eqb path "data"
       then Ok (map (fun kv => substring 5 100 (fst kv)) files)
       else Err OSError;
     file_lines := fun path =>
       match dict_get files path with
       | Some lines => Ok lines
       | None => Err OSError
       end;
     csv_fields := Demo.line_fields;
     float_of_str := Demo.read_float;
     int_of_str := Demo.read_int;
     strptime := Demo.read_date |}.

End Demo2.


(** ** Readable days *)

(** [field] can be read from the day and, when it is not empty, converted
    by [int]. *)
Definition reading_ok (W : world) (field : string) (d : daily) : Prop :=
  exists v, dict_get d field = Some v /\
            (ne_empty v = true -> exists n, int_of_value W v = Ok n).

(** ** Reports and what is printed *)


(** The ['date'] of a Rendered Report, which the empty report lacks. *)
Definition report_date_of (r : report) : option string :=
  match r with
  | ExtremesReport date _ _ _ _ _ _ => Some date
  | AveragesReport date _ _ _ => Some date
  | EmptyReport => None
  end.

(** A render that only adds to what was printed. *)
Definition appending (render : option (summary -> string -> io report)) : Prop :=
  forall s date out,
  exists more, snd (ReportGenerator_generate s date render out) = (out ++ more)%list.

(** The four renders of [runner.py]; [None] stands for the default one. *)
Definition source_renders (W : world)
  : list (option (summary -> string -> io report)) :=
  [ None; Some generate_average_report;
    Some (generate_multiple_bar_report W); Some (generate_single_bar_report W) ].

(** The heading of the report of number [n]. *)
Definition heading (n : Z) : string := newline ++ "Report # " ++ str_of_Z n.

(** What a batch prints: for each date the heading of its number, counted
    from [n], and then the texts of its report. *)
Fixpoint numbered (n : Z) (texts : list (list string)) : list string :=
  match texts with
  | [] => []
  | t :: rest => (heading n :: t) ++ numbered (n + 1) rest
  end.

(* ===================================================================== *)
(** * runner.py: main *)
(* ===================================================================== *)

(** What [argparse] hands to [main]: the dates of a flag, [None] for a flag
    that was not given, and the directory of the weather files. *)
Record arguments : Type := {
  arg_e : option (list string);
  arg_a : option (list string);
  arg_c : option (list string);
  arg_b : option (list string);
  arg_path : string
}.

(** [report_num] in [main]: the number it starts as, or the list of reports
    that [report_num = process_args(...)] leaves in it. *)
Inductive counter : Type :=
| CNum (n : Z)
| CReports (reports : list report).

Section Main.
Variable W : world.
(** [str] of a list of reports, as an f-string formats it. *)
Variable str_of_reports : list report -> string.

(** [process_args] for either kind of [report_num]. With a list the heading
    of the first date shows the list, and [report_num += 1], reached once
    that date has its report, is refused: a list takes no [int]. *)
Definition process_args_counter (dates : list string) (report_num : counter)
    (path : string) (st : strategies) (yearly : bool) : io (list report) :=
  match report_num with
  | CNum n => process_args W dates n path st yearly
  | CReports l =>
      match dates with
      | [] => io_ret []
      | date :: _ =>
          print (newline ++ "Report # " ++ str_of_reports l) ;;;
          let data_reader := DataReader_init path date in
          readings <~ lift (if yearly
                            then y <- get_yearly_readings W data_reader ;;
                                 Ok (Yearly y)
                            else m <- get_monthly_readings W data_reader true None ;;
                                 Ok (Monthly m)) ;;
          computations <~ lift (Calculator_compute W readings (calc_strategy st)) ;;
          ReportGenerator_generate computations date (report_strategy st) ;;;
          lift (Err TypeError)
      end
  end.

(** [if args.x: report_num = process_args(args.x, report_num, ...)] *)
Definition flag_group (dates : option (list string)) (st : strategies)
    (yearly : bool) (path : string) (report_num : counter) : io counter :=
  match dates with
  | Some (d :: ds) =>
      reports <~ process_args_counter (d :: ds) report_num path st yearly ;;
      io_ret (CReports reports)
  | Some [] | None => io_ret report_num
  end.

Definition main (args : arguments) : io unit :=
  report_num <~ flag_group (arg_e args)
                  {| calc_strategy := None; report_strategy := None |}
                  true (arg_path args) (CNum 1) ;;
  report_num <~ flag_group (arg_a args)
                  {| calc_strategy := Some compute_monthly_average;
                     report_strategy := Some generate_average_report |}
                  false (arg_path args) report_num ;;
  report_num <~ flag_group (arg_c args)
                  {| calc_strategy := Some (compute_min_max W);
                     report_strategy := Some (generate_multiple_bar_report W) |}
                  false (arg_path args) report_num ;;
  flag_group (arg_b args)
    {| calc_strategy := Some (compute_min_max W);
       report_strategy := Some (generate_single_bar_report W) |}
    false (arg_path args) report_num ;;;
  io_ret tt.
End Main.

(* ===================================================================== *)
(** * app/exceptions.py and app/routes/api.py *)
(* ===================================================================== *)






Section Api.
Variable W : world.
(** [WEATHER_FILES_PATH] *)
Variable WEATHER_FILES_PATH : string.





End Api.

(** ** The flags of a run *)

(** A flag that was given with dates. *)
Definition given (dates : option (list string)) : bool :=
  match dates with
  | Some (_ :: _) => true
  | Some [] | None => false
  end.

Definition dates_of (dates : option (list string)) : list string :=
  match dates with
  | Some l => l
  | None => []
  end.

Definition groups_given (args : arguments) : nat :=
  ((if given (arg_e args) then 1 else 0) + (if given (arg_a args) then 1 else 0)
   + (if given (arg_c args) then 1 else 0) + (if given (arg_b args) then 1 else 0))%nat.

(** The first flag of a run that was given, in the order [main] looks at
    them, with its strategies. *)
Definition first_group (W : world) (args : arguments)
  : option (list string * strategies * bool) :=
  if given (arg_e args) then
    Some (dates_of (arg_e args),
          {| calc_strategy := None; report_strategy := None |}, true)
  else if given (arg_a args) then
    Some (dates_of (arg_a args),
          {| calc_strategy := Some compute_monthly_average;
             report_strategy := Some generate_average_report |}, false)
  else if given (arg_c args) then
    Some (dates_of (arg_c args),
          {| calc_strategy := Some (compute_min_max W);
             report_strategy := Some (generate_multiple_bar_report W) |}, false)
  else if given (arg_b args) then
    Some (dates_of (arg_b args),
          {| calc_strategy := Some (compute_min_max W);
             report_strategy := Some (generate_single_bar_report W) |}, false)
  else None.

(** The outcome of a run that ends with the outcome of a batch. *)
Definition ends_as {A : Type} (r : result A * list string)
  : result unit * list string :=
  (match fst r with Ok _ => Ok tt | Err e => Err e end, snd r).


(* ===================================================================== *)
(** * Lemmas on the error monad and on dictionaries *)
(* ===================================================================== *)

Lemma bind_ok {A B : Type} (r : result A) (k : A -> result B) (b : B) :
  bind r k = Ok b -> exists a, r = Ok a /\ k a = Ok b.
Proof.
  destruct r as [a|e]; simpl; intros Hk; [exists a; auto | discriminate].
Qed.

(** Inverts a chain of binds that returned [Ok]. *)
Ltac bind_inv H :=
  let a := fresh "a" in
  let Ha := fresh "Ha" in
  apply bind_ok in H; destruct H as (a & Ha & H).

Tactic Notation "bind_in" hyp(H) "as" ident(a) ident(Ha) :=
  apply bind_ok in H; destruct H as (a & Ha & H).

Lemma for_each_app {A S : Type} (body : S -> A -> result S) (l1 l2 : list A) (s : S) :
  for_each body (l1 ++ l2) s = bind (for_each body l1 s) (for_each body l2).
Proof.
  revert s; induction l1 as [|x l1 IH]; intros s; simpl; [reflexivity|].
  destruct (body s x); simpl; auto.
Qed.

Section DictLemmas.
Context {K V : Type} `{EqKey K}.

Lemma key_eqb_refl (k : K) : key_eqb k k = true.
Proof. apply key_eqb_eq; reflexivity. Qed.

Lemma key_eqb_neq (a b : K) : a <> b -> key_eqb a b = false.
Proof.
  intros Hab; destruct (key_eqb a b) eqn:E; [|reflexivity].
  apply key_eqb_eq in E; contradiction.
Qed.

Lemma dict_get_none (d : dict K V) (k : K) :
  dict_get d k = None <-> ~ In k (keys d).
Proof.
  induction d as [|[k' v] d IH]; simpl; [tauto|].
  destruct (key_eqb k' k) eqn:E.
  - apply key_eqb_eq in E; subst; split; [discriminate | intros Hn; tauto].
  - rewrite IH; split; [intros Hn [Hk|Hk]; [subst|]; auto| tauto].
    rewrite key_eqb_refl in E; discriminate.
Qed.

Lemma dict_set_fresh (d : dict K V) (k : K) (v : V) :
  ~ In k (keys d) -> dict_set d k v = (d ++ [(k, v)])%list.
Proof.
  induction d as [|[k' v'] d IH]; simpl; intros Hn; [reflexivity|].
  rewrite key_eqb_neq by tauto. rewrite IH by tauto. reflexivity.
Qed.

Lemma dict_get_app (d1 d2 : dict K V) (k : K) :
  dict_get (d1 ++ d2)%list k =
  match dict_get d1 k with Some v => Some v | None => dict_get d2 k end.
Proof.
  induction d1 as [|[k' v] d1 IH]; simpl; [reflexivity|].
  destruct (key_eqb k' k); auto.
Qed.

Lemma dict_get_in (d : dict K V) (k : K) (v : V) :
  dict_get d k = Some v -> In (k, v) d.
Proof.
  induction d as [|[k' v'] d IH]; simpl; [discriminate|].
  destruct (key_eqb k' k) eqn:E; intros Hg.
  - apply key_eqb_eq in E; inversion Hg; subst; auto.
  - auto.
Qed.

Lemma in_dict_get (d : dict K V) (k : K) (v : V) :
  NoDup (keys d) -> In (k, v) d -> dict_get d k = Some v.
Proof.
  induction d as [|[k' v'] d IH]; simpl; intros Hnd Hin; [contradiction|].
  inversion Hnd as [|? ? Hk Hnd']; subst.
  destruct Hin as [Heq|Hin].
  - inversion Heq; subst. rewrite key_eqb_refl; reflexivity.
  - destruct (key_eqb k' k) eqn:E.
    + apply key_eqb_eq in E; subst. exfalso; apply Hk.
      change k with (fst (k, v)); apply in_map; exact Hin.
    + auto.
Qed.
Lemma keys_app (d1 d2 : dict K V) : keys (d1 ++ d2)%list = (keys d1 ++ keys d2)%list.
Proof. apply map_app. Qed.
End DictLemmas.

Section FilterMap.
Context {K A B : Type} `{EqKey K}.
Variable g : K -> A -> option B.

Lemma filter_map_keys_incl (d : dict K A) (k : K) :
  In k (keys (dict_filter_map g d)) -> In k (keys d).
Proof.
  induction d as [|[k' a] d IH]; simpl; [tauto|].
  unfold keys in *; rewrite map_app, in_app_iff. intros [Hk|Hk]; [|auto].
  left. destruct (g k' a); simpl in Hk; tauto.
Qed.

Lemma filter_map_nodup (d : dict K A) :
  NoDup (keys d) -> NoDup (keys (dict_filter_map g d)).
Proof.
  induction d as [|[k a] d IH]; simpl; intros Hnd; [constructor|].
  inversion Hnd as [|? ? Hk Hnd']; subst.
  unfold keys; rewrite map_app. destruct (g k a); simpl; [|apply IH; auto].
  constructor; [|apply IH; auto].
  intros Hin; apply Hk. apply filter_map_keys_incl; exact Hin.
Qed.

Lemma filter_map_get (d : dict K A) (k : K) :
  NoDup (keys d) ->
  dict_get (dict_filter_map g d) k =
  match dict_get d k with Some a => g k a | None => None end.
Proof.
  induction d as [|[k' a] d IH]; simpl; intros Hnd; [reflexivity|].
  inversion Hnd as [|? ? Hk Hnd']; subst.
  rewrite dict_get_app. destruct (key_eqb k' k) eqn:E.
  - apply key_eqb_eq in E; subst k'.
    destruct (g k a) as [b|]; simpl.
    + rewrite key_eqb_refl; reflexivity.
    + assert (Hn : dict_get (dict_filter_map g d) k = None).
      { apply dict_get_none. intros Hin; apply Hk.
        apply filter_map_keys_incl; exact Hin. }
      rewrite Hn; reflexivity.
  - destruct (g k' a) as [b|]; simpl; [rewrite E|]; apply IH; auto.
Qed.

(** A loop that at each entry either keeps the mapping or sets the key of
    the entry builds the filtered mapping, when the keys are distinct. *)
Lemma loop_filter_map (body : dict K B -> K * A -> result (dict K B)) :
  (forall acc k a acc', body acc (k, a) = Ok acc' ->
     acc' = match g k a with Some b => dict_set acc k b | None => acc end) ->
  forall items acc r,
    NoDup (keys acc ++ keys items)%list ->
    for_each body items acc = Ok r ->
    r = (acc ++ dict_filter_map g items)%list.
Proof.
  intros Hbody. induction items as [|[k a] items IH]; simpl; intros acc r Hnd Hr.
  - inversion Hr; subst. rewrite app_nil_r; reflexivity.
  - bind_inv Hr. apply Hbody in Ha. subst a0.
    assert (Hfresh : ~ In k (keys acc)).
    { intros Hin. apply NoDup_remove_2 in Hnd. apply Hnd.
      apply in_or_app; left; exact Hin. }
    destruct (g k a) as [b|].
    + rewrite dict_set_fresh in Hr by exact Hfresh.
      apply IH in Hr.
      * rewrite Hr, <- app_assoc; reflexivity.
      * rewrite keys_app, <- app_assoc; exact Hnd.
    + simpl. apply IH; [|exact Hr].
      apply NoDup_remove_1 in Hnd; exact Hnd.
Qed.
End FilterMap.

(* ===================================================================== *)
(** * The Data Reader *)
(* ===================================================================== *)

Section ReaderLemmas.
Variable W : world.
Variable self : DataReader.

Lemma daily_field_str (acc : daily) (header raw : string) (r : daily) :
  daily_field W self acc (header, Some raw) = Ok r ->
  exists v, field_typed W self header raw v /\ r = dict_set acc header v.
Proof.
  unfold daily_field, field_typed, kept_as_string; simpl.
  destruct (str_in header (str_headers self)); simpl.
  - intros Hr; inversion Hr; eauto.
  - destruct (String.eqb raw ""); simpl.
    + intros Hr; inversion Hr; eauto.
    + destruct (float_of_str W raw) as [f|]; simpl; [|discriminate].
      intros Hr; inversion Hr; eauto.
Qed.

Lemma daily_field_total (acc : daily) (header raw : string) :
  (kept_as_string self header raw = false -> float_of_str W raw <> None) ->
  exists r, daily_field W self acc (header, Some raw) = Ok r.
Proof.
  unfold daily_field, kept_as_string; simpl.
  destruct (str_in header (str_headers self)); simpl; [eauto|].
  destruct (String.eqb raw ""); simpl; [eauto|].
  destruct (float_of_str W raw) as [f|]; simpl; [eauto|].
  intros Hn; exfalso; apply Hn; reflexivity.
Qed.

(** The loop over the headers of a row of strings adds the fields in
    order, each with its typed value. *)
Lemma daily_fields_ok (row : dict string string) :
  forall (acc r : daily),
    NoDup (keys acc ++ keys row)%list ->
    for_each (daily_field W self) (fields (str_row row)) acc = Ok r ->
    exists r', r = (acc ++ r')%list /\ keys r' = keys row /\
      Forall2 (fun kv kv' => field_typed W self (fst kv) (snd kv) (snd kv')) row r'.
Proof.
  induction row as [|[h raw] row IH]; simpl; intros acc r Hnd Hr.
  - inversion Hr; subst. exists []; rewrite app_nil_r; auto.
  - bind_inv Hr. apply daily_field_str in Ha. destruct Ha as (v & Hv & ->).
    assert (Hfresh : ~ In h (keys acc)).
    { intros Hin. apply NoDup_remove_2 in Hnd. apply Hnd.
      apply in_or_app; left; exact Hin. }
    rewrite dict_set_fresh in Hr by exact Hfresh.
    apply IH in Hr.
    + destruct Hr as (r' & -> & Hk & Hf). exists ((h, v) :: r').
      rewrite <- app_assoc; simpl. repeat split; auto.
      unfold keys in *; simpl; congruence.
    + unfold keys in *. rewrite map_app; simpl. rewrite <- app_assoc; simpl.
      exact Hnd.
Qed.

Lemma forall2_dict_get (row : dict string string) (r : daily) :
  NoDup (keys row) -> keys r = keys row ->
  Forall2 (fun kv kv' => field_typed W self (fst kv) (snd kv) (snd kv')) row r ->
  forall header raw, dict_get row header = Some raw ->
    exists v, dict_get r header = Some v /\ field_typed W self header raw v.
Proof.
  intros Hnd Hk Hf; revert Hnd Hk.
  induction Hf as [|[h raw0] [h' v] row r Hhd Hf IH]; simpl; intros Hnd Hk header raw Hg.
  - discriminate.
  - unfold keys in Hk; simpl in *. inversion Hk; subst h'.
    inversion Hnd; subst.
    destruct (String.eqb h header) eqn:E.
    + apply String.eqb_eq in E; subst. inversion Hg; subst. eauto.
    + apply IH; auto.
Qed.
End ReaderLemmas.

(** C5. For every Raw Row (a mapping from field names to raw strings), the
    Daily Reading the Data Reader returns holds each field of the row and no
    other; a field is the raw string exactly when its name is 'PKT' or
    'Events' or its raw value is empty, and is the [float] read from the raw
    value otherwise; so 'Max TemperatureC' is a [float] or the empty string.
    The reader returns a reading whenever [float] reads every such field. *)
Theorem get_daily_readings_field_types (W : world) (files_dir report_date : string)
    (row : dict string string) :
  dict_wf row ->
  let self := DataReader_init files_dir report_date in
  (forall header raw,
     kept_as_string self header raw = true <->
     header = "PKT" \/ header = "Events" \/ raw = "") /\
  (forall r, _get_daily_readings W self (str_row row) = Ok r ->
     (forall header raw, dict_get row header = Some raw ->
        exists v, dict_get r header = Some v /\
          (kept_as_string self header raw = true -> v = VStr raw) /\
          (kept_as_string self header raw = false ->
             exists f, float_of_str W raw = Some f /\ v = VFloat f)) /\
     (forall header, dict_get row header = None -> dict_get r header = None) /\
     (forall v, dict_get r "Max TemperatureC" = Some v ->
        v = VStr "" \/ exists f, v = VFloat f)) /\
  ((forall header raw, In (header, raw) row ->
      kept_as_string self header raw = false -> float_of_str W raw <> None) ->
   exists r, _get_daily_readings W self (str_row row) = Ok r).
Proof.
  intros Hwf self. split; [|split].
  - intros header raw. unfold kept_as_string. simpl.
    rewrite !orb_true_iff, !String.eqb_eq. intuition discriminate.
  - intros r Hr. unfold _get_daily_readings in Hr. bind_inv Hr.
    simpl in Hr. inversion Hr; subst a; clear Hr.
    apply daily_fields_ok in Ha; [|exact Hwf].
    destruct Ha as (r' & -> & Hk & Hf). simpl.
    assert (Hget := forall2_dict_get W self row r' Hwf Hk Hf).
    split; [|split].
    + intros header raw Hg. destruct (Hget _ _ Hg) as (v & Hv & Ht).
      exists v. split; [exact Hv|]. unfold field_typed in Ht.
      split; intros Hkept; rewrite Hkept in Ht; auto.
    + intros header Hn. apply dict_get_none. rewrite Hk.
      apply dict_get_none; exact Hn.
    + intros v Hv.
      destruct (dict_get row "Max TemperatureC") as [raw|] eqn:Hg.
      * destruct (Hget _ _ Hg) as (v' & Hv' & Ht).
        rewrite Hv in Hv'; inversion Hv'; subst v'.
        unfold field_typed, kept_as_string in Ht. simpl in Ht.
        destruct (String.eqb raw "") eqn:E.
        -- apply String.eqb_eq in E; subst; auto.
        -- destruct Ht as (f & _ & ->); eauto.
      * apply dict_get_none in Hg. rewrite <- Hk in Hg.
        apply dict_get_none in Hg. congruence.
  - intros Hall. unfold _get_daily_readings.
    assert (Hloop : forall acc, exists r,
               for_each (daily_field W self) (fields (str_row row)) acc = Ok r).
    { clear Hwf. induction row as [|[h raw] row IH]; intros acc; [simpl; eauto|].
      change (fields (str_row ((h, raw) :: row)))
        with ((h, Some raw) :: fields (str_row row)).
      cbn [for_each].
      destruct (daily_field_total W self acc h raw) as (r1 & Hr1).
      { apply Hall; left; reflexivity. }
      rewrite Hr1; cbn [bind]. apply IH.
      intros header raw' Hin; apply Hall; right; exact Hin. }
    destruct (Hloop []) as (r & Hr). rewrite Hr; simpl. eauto.
Qed.

(** Decides [NoDup] on a list of constants. *)
Ltac nodup_consts :=
  repeat (constructor; [simpl; intuition discriminate|]); constructor.

Lemma get_daily_readings_field_types_witness :
  exists r, _get_daily_readings Demo.W (DataReader_init "weatherfiles" "2011/7")
              (str_row Demo.row) = Ok r.
Proof.
  apply (get_daily_readings_field_types Demo.W "weatherfiles" "2011/7" Demo.row).
  - unfold dict_wf; simpl. nodup_consts.
  - intros header raw Hin Hk. simpl in Hin.
    repeat (destruct Hin as [Hin|Hin];
            [inversion Hin; subst; vm_compute in Hk |- *; congruence|]).
    contradiction.
Defined.

(* ===================================================================== *)
(** * Truncation and rounding of binary64 numbers *)
(* ===================================================================== *)

(** [int(x)] is [x] truncated toward zero. *)
Lemma int_of_float_truncation (x : float) (n : Z) :
  int_of_float x = Ok n -> truncation (float_to_Q x) n.
Proof.
  destruct x as [s| |  |s m e]; simpl; try discriminate.
  - intros Hn; inversion Hn; subst. unfold truncation, Qle, Qlt; simpl; lia.
  - intros Hn; inversion Hn; subst; clear Hn.
    destruct (0 <=? e) eqn:He.
    + unfold truncation, Qle, Qlt; simpl. lia.
    + apply Z.leb_gt in He.
      assert (Hd : 0 < 2 ^ (- e)) by (apply Z.pow_pos_nonneg; lia).
      pose proof (Z.div_mod (Z.pos m) (2 ^ (- e)) ltac:(lia)) as Hdm.
      pose proof (Z.mod_pos_bound (Z.pos m) (2 ^ (- e)) Hd) as Hb.
      unfold truncation, Qle, Qlt; simpl.
      rewrite !Z2Pos.id by exact Hd.
      destruct s; simpl; nia.
Qed.




(* ===================================================================== *)
(** * The daily-min-max reduction *)
(* ===================================================================== *)

Section MinMax.
Variable W : world.

Lemma getitem_ok {V : Type} (d : dict string V) (k : string) (v : V) :
  getitem d k = Ok v <-> dict_get d k = Some v.
Proof.
  unfold getitem; destruct (dict_get d k); split; intros Hg;
    inversion Hg; reflexivity.
Qed.

Lemma min_max_day_ok (acc acc' : dict Z day_pair) (day : Z) (reading : daily) :
  min_max_day W acc (day, reading) = Ok acc' ->
  acc' = match day_entry W day reading with
         | Some p => dict_set acc day p
         | None => acc
         end.
Proof.
  unfold min_max_day, day_entry. intros Hb.
  bind_in Hb as mx Hmx. bind_in Hb as mn Hmn.
  apply getitem_ok in Hmx, Hmn. rewrite Hmx, Hmn.
  destruct (ne_empty mx && ne_empty mn).
  - bind_in Hb as a Ea. bind_in Hb as b Eb. rewrite Ea, Eb.
    inversion Hb; reflexivity.
  - inversion Hb; reflexivity.
Qed.

Lemma min_max_ok (m : monthly) (r : dict Z day_pair) :
  dict_wf m -> min_max W m = Ok r -> r = dict_filter_map (day_entry W) m.
Proof.
  intros Hwf Hr.
  apply (loop_filter_map (day_entry W) (min_max_day W)) in Hr; [exact Hr| |exact Hwf].
  intros acc k a acc'; apply min_max_day_ok.
Qed.

Lemma min_max_total (m : monthly) :
  (forall day reading, In (day, reading) m -> day_readable W reading) ->
  forall acc, exists r, for_each (min_max_day W) m acc = Ok r.
Proof.
  induction m as [|[day reading] m IH]; intros Hall acc; [simpl; eauto|].
  cbn [for_each].
  destruct (Hall day reading (or_introl eq_refl)) as (mx & mn & Hmx & Hmn & Hc).
  assert (Hstep : exists acc', min_max_day W acc (day, reading) = Ok acc').
  { unfold min_max_day. apply getitem_ok in Hmx, Hmn. rewrite Hmx, Hmn; cbn [bind].
    destruct (ne_empty mx && ne_empty mn); [|eauto].
    destruct (Hc eq_refl) as (a & b & Ea & Eb). rewrite Ea, Eb; cbn [bind]. eauto. }
  destruct Hstep as (acc' & Hacc'). rewrite Hacc'; cbn [bind].
  apply IH. intros d rd Hin; apply (Hall d rd); right; exact Hin.
Qed.
End MinMax.

(** C8. The daily-min-max reduction maps each day whose 'Max TemperatureC'
    and 'Min TemperatureC' are both non-empty to the pair of their [int]
    values, which for a [float] is the truncation toward zero; a day with an
    empty temperature has no key in the result and raises nothing: the
    reduction returns whenever every day holds the two fields and the
    non-empty pairs convert. *)
Theorem compute_min_max_pairs (W : world) (m : monthly) :
  dict_wf m ->
  (forall s, compute_min_max W (Monthly m) = Ok s ->
     exists r, s = SMinMax r /\
       (forall day reading, dict_get m day = Some reading ->
          exists mx mn,
            dict_get reading "Max TemperatureC" = Some mx /\
            dict_get reading "Min TemperatureC" = Some mn /\
            if ne_empty mx && ne_empty mn
            then exists a b,
                int_of_value W mx = Ok a /\ int_of_value W mn = Ok b /\
                dict_get r day = Some {| day_max_temp := a; day_min_temp := b |}
            else dict_get r day = None) /\
       (forall day, dict_get m day = None -> dict_get r day = None)) /\
  (forall f n, int_of_value W (VFloat f) = Ok n -> truncation (float_to_Q f) n) /\
  ((forall day reading, In (day, reading) m -> day_readable W reading) ->
   exists r, compute_min_max W (Monthly m) = Ok (SMinMax r)).
Proof.
  intros Hwf. split; [|split].
  - intros s Hs. unfold compute_min_max in Hs. bind_in Hs as r Hr.
    inversion Hs; subst s; clear Hs. exists r. split; [reflexivity|].
    assert (Hloop := Hr).
    apply min_max_ok in Hr; [|exact Hwf]. subst r. split.
    + intros day reading Hd.
      rewrite (filter_map_get (day_entry W) m day Hwf), Hd.
      (* the loop read both fields of this day *)
      apply dict_get_in in Hd. apply in_split in Hd. destruct Hd as (m1 & m2 & ->).
      unfold min_max in Hloop. rewrite for_each_app in Hloop.
      bind_in Hloop as acc1 Hacc1.
      cbn [for_each] in Hloop. bind_in Hloop as acc2 Hday. clear Hloop Hacc1.
      unfold min_max_day in Hday.
      bind_in Hday as mx Hmx. bind_in Hday as mn Hmn.
      apply getitem_ok in Hmx, Hmn. exists mx, mn.
      split; [exact Hmx|]. split; [exact Hmn|].
      unfold day_entry. rewrite Hmx, Hmn.
      destruct (ne_empty mx && ne_empty mn); [|reflexivity].
      bind_in Hday as a Ea. bind_in Hday as b Eb. rewrite Ea, Eb. eauto.
    + intros day Hd.
      rewrite (filter_map_get (day_entry W) m day Hwf), Hd. reflexivity.
  - intros f n Hn. apply int_of_float_truncation; exact Hn.
  - intros Hall. unfold compute_min_max, min_max.
    destruct (min_max_total W m Hall []) as (r & Hr). rewrite Hr. simpl. eauto.
Qed.

Lemma compute_min_max_pairs_witness :
  exists r, compute_min_max Demo.W (Monthly Demo.month) = Ok (SMinMax r).
Proof.
  apply (compute_min_max_pairs Demo.W Demo.month).
  - unfold dict_wf; simpl. nodup_consts.
  - intros day reading Hin. simpl in Hin.
    repeat (destruct Hin as [Hin|Hin];
            [inversion Hin; subst; do 2 eexists;
             split; [reflexivity|]; split; [reflexivity|];
             intros Hne; try discriminate Hne;
             do 2 eexists; split; reflexivity|]).
    contradiction.
Defined.

(* ===================================================================== *)
(** * The monthly-average reduction *)
(* ===================================================================== *)

Lemma sum_floats_snoc (xs : list float) (f : float) :
  sum_floats (xs ++ [f]) = float_add (sum_floats xs) f.
Proof. unfold sum_floats. rewrite fold_left_app. reflexivity. Qed.

Lemma tracks_nil : tracks [] (NInt 0) 0.
Proof. split; reflexivity. Qed.

Lemma tracks_snoc (xs : list float) (total : num) (count : Z) (f a : float) :
  tracks xs total count -> num_to_float total = Ok a ->
  tracks (xs ++ [f]) (NFloat (float_add a f)) (count + 1).
Proof.
  intros [Hc Ht] Ha. split.
  - rewrite length_app; simpl. lia.
  - rewrite sum_floats_snoc. destruct xs as [|x xs]; subst total; simpl in Ha.
    + inversion Ha; subst a. reflexivity.
    + inversion Ha; subst a. reflexivity.
Qed.


(** One field of one day: the step succeeds exactly when the value of the
    field can be added, and then follows the values. *)
Lemma accumulate_ok (field : string) (day : daily) (total t' : num) (count c' : Z) :
  accumulate field day total count = Ok (t', c') ->
  exists ys, day_floats field day = Some ys /\
    forall xs, tracks xs total count -> tracks (xs ++ ys) t' c'.
Proof.
  unfold accumulate, day_floats. intros Hacc.
  bind_in Hacc as v Hv. apply getitem_ok in Hv. rewrite Hv.
  destruct v as [s|f|]; simpl in Hacc.
  - destruct (String.eqb s ""); simpl in Hacc; [|discriminate].
    inversion Hacc; subst. exists []. split; [reflexivity|].
    intros xs Hxs. rewrite app_nil_r; exact Hxs.
  - bind_in Hacc as t Ht. inversion Hacc; subst; clear Hacc.
    bind_in Ht as a Ha. inversion Ht; subst; clear Ht.
    exists [f]. split; [reflexivity|].
    intros xs Hxs. eapply tracks_snoc; eassumption.
  - discriminate.
Qed.


Lemma average_days_ok (days : list daily) :
  forall st st' x1 x2 x3,
    avg_tracks x1 x2 x3 st ->
    for_each average_day days st = Ok st' ->
    exists y1 y2 y3,
      field_floats "Max TemperatureC" days = Some y1 /\
      field_floats "Min TemperatureC" days = Some y2 /\
      field_floats "Mean Humidity" days = Some y3 /\
      avg_tracks (x1 ++ y1) (x2 ++ y2) (x3 ++ y3) st'.
Proof.
  induction days as [|d days IH]; intros st st' x1 x2 x3 Htr Hloop.
  - simpl in Hloop. inversion Hloop; subst. exists [], [], [].
    rewrite !app_nil_r. auto.
  - cbn [for_each] in Hloop. bind_in Hloop as st1 Hday.
    unfold average_day in Hday.
    bind_in Hday as p1 H1. destruct p1 as [t1 c1].
    bind_in Hday as p2 H2. destruct p2 as [t2 c2].
    bind_in Hday as p3 H3. destruct p3 as [t3 c3].
    inversion Hday; subst st1; clear Hday.
    apply accumulate_ok in H1, H2, H3.
    destruct H1 as (z1 & D1 & T1), H2 as (z2 & D2 & T2), H3 as (z3 & D3 & T3).
    destruct Htr as (Q1 & Q2 & Q3).
    eapply IH in Hloop.
    2:{ split; [|split]; cbn; [apply T1 | apply T2 | apply T3]; eassumption. }
    destruct Hloop as (y1 & y2 & y3 & F1 & F2 & F3 & Hst').
    exists (z1 ++ y1)%list, (z2 ++ y2)%list, (z3 ++ y3)%list.
    cbn [field_floats]. rewrite D1, D2, D3, F1, F2, F3.
    rewrite !app_assoc. auto.
Qed.








(* ===================================================================== *)
(** * Labels of days *)
(* ===================================================================== *)


(** A decimal numeral holds digits only. *)
Lemma string_of_uint_digits (c : ascii) (d : Decimal.uint) :
  (nat_of_ascii c < 48 \/ 57 < nat_of_ascii c)%nat ->
  count_char c (NilEmpty.string_of_uint d) = O.
Proof.
  intros Hc. induction d; cbn [NilEmpty.string_of_uint count_char];
    try reflexivity; rewrite IHd;
    match goal with
    | |- ((if Ascii.eqb ?a c then _ else _) + _)%nat = _ =>
        destruct (Ascii.eqb_spec a c) as [E|E]; [subst c; vm_compute in Hc; lia | reflexivity]
    end.
Qed.

Lemma str_of_Z_no_char (c : ascii) (n : Z) :
  (nat_of_ascii c < 45 \/ 57 < nat_of_ascii c)%nat ->
  count_char c (str_of_Z n) = O.
Proof.
  intros Hc. unfold str_of_Z.
  destruct (Z.to_int n) as [d|d]; cbn [NilEmpty.string_of_int count_char].
  - apply string_of_uint_digits; lia.
  - rewrite string_of_uint_digits by lia.
    destruct (Ascii.eqb_spec "-"%char c) as [E|E]; [subst c; vm_compute in Hc; lia | reflexivity].
Qed.

Lemma str_of_Z_inj (a b : Z) : str_of_Z a = str_of_Z b -> a = b.
Proof.
  unfold str_of_Z. intros Hs. apply DecimalZ.to_int_inj.
  assert (Hi : Some (Z.to_int a) = Some (Z.to_int b)).
  { rewrite <- !NilEmpty.isi. rewrite Hs. reflexivity. }
  inversion Hi; reflexivity.
Qed.

(** Two texts without the separator, each followed by it, that start the
    same text are equal, and so are the rests. *)
Lemma split_at_first (c : ascii) (s s' t t' : string) :
  count_char c s = O -> count_char c s' = O ->
  s ++ String c t = s' ++ String c t' -> s = s' /\ t = t'.
Proof.
  revert s'. induction s as [|a s IH]; intros [|a' s'] Hs Hs' Heq; simpl in *.
  - inversion Heq; auto.
  - inversion Heq; subst a'. rewrite Ascii.eqb_refl in Hs'. discriminate.
  - inversion Heq; subst a. rewrite Ascii.eqb_refl in Hs. discriminate.
  - inversion Heq; subst a'.
    destruct (Ascii.eqb a c); [discriminate|].
    destruct (IH s' Hs Hs' H1) as [-> ->]. auto.
Qed.

(** Distinct days, or the same day of distinct months, have distinct labels. *)
Lemma label_inj (d1 d2 : Z) (m1 m2 : string) :
  label d1 m1 = label d2 m2 -> d1 = d2 /\ m1 = m2.
Proof.
  unfold label. intros Hl.
  destruct (split_at_first " " (str_of_Z d1) (str_of_Z d2) m1 m2) as [Hd Hm].
  - apply str_of_Z_no_char; vm_compute; lia.
  - apply str_of_Z_no_char; vm_compute; lia.
  - exact Hl.
  - split; [apply str_of_Z_inj; exact Hd | exact Hm].
Qed.

Lemma entries_keys_in (y : yearly) (k : string) :
  In k (keys (entries y)) ->
  exists mo mr dy, In (mo, mr) y /\ In dy (keys mr) /\ k = label dy mo.
Proof.
  unfold keys, entries. rewrite in_map_iff. intros ((k' & d) & Hk & Hin).
  simpl in Hk; subst k'. apply in_flat_map in Hin. destruct Hin as ((mo & mr) & Hy & Hd).
  simpl in Hd. apply in_map_iff in Hd. destruct Hd as ((dy & dd) & Heq & Hdd).
  simpl in Heq. inversion Heq; subst. exists mo, mr, dy. repeat split; auto.
  change dy with (fst (dy, d)). apply in_map; exact Hdd.
Qed.

Lemma month_entries_nodup (mo : string) (mr : monthly) :
  dict_wf mr -> NoDup (keys (map (fun dd => (label (fst dd) mo, snd dd)) mr)).
Proof.
  unfold dict_wf, keys. induction mr as [|[dy dd] mr IH]; simpl; intros Hnd.
  - constructor.
  - inversion Hnd as [|? ? Hdy Hnd']; subst. constructor; [|apply IH; exact Hnd'].
    rewrite map_map; simpl. rewrite in_map_iff. intros ((dy' & dd') & Hl & Hin).
    simpl in Hl. apply label_inj in Hl. destruct Hl as [-> _].
    apply Hdy. change dy with (fst (dy, dd')). apply in_map; exact Hin.
Qed.

(** The labels of the days of well-formed Yearly Readings are distinct. *)
Lemma entries_nodup (y : yearly) : wf_yearly y -> NoDup (keys (entries y)).
Proof.
  intros [Hy Hm]. unfold dict_wf in Hy.
  induction y as [|[mo mr] y IH]; simpl; [constructor|].
  inversion Hy as [|? ? Hmo Hy']; subst. inversion Hm as [|? ? Hmr Hm']; subst.
  unfold keys. rewrite map_app.
  assert (Hdisj : forall k,
             In k (map fst (map (fun dd => (label (fst dd) mo, snd dd)) mr)) ->
             ~ In k (map fst (entries y))).
  { intros k Hk Hk'. apply entries_keys_in in Hk'.
    destruct Hk' as (mo' & mr' & dy' & Hin & _ & ->).
    rewrite map_map in Hk; simpl in Hk. apply in_map_iff in Hk.
    destruct Hk as ((dy & dd) & Hl & _). simpl in Hl.
    apply label_inj in Hl. destruct Hl as [_ ->].
    apply Hmo. change mo' with (fst (mo', mr')). apply in_map; exact Hin. }
  assert (H1 := month_entries_nodup mo mr Hmr). unfold keys in H1.
  assert (H2 := IH Hy' Hm'). unfold keys in H2.
  revert H1 Hdisj.
  generalize (map fst (map (fun dd => (label (fst dd) mo, snd dd)) mr)).
  intros l H1 Hdisj. induction l as [|x l IHl]; simpl; [exact H2|].
  inversion H1; subst. constructor.
  - rewrite in_app_iff. intros [Hx|Hx]; [contradiction|].
    exact (Hdisj x (or_introl eq_refl) Hx).
  - apply IHl; [assumption|]. intros k Hk. apply Hdisj; right; exact Hk.
Qed.

(* ===================================================================== *)
(** * [max] and [min] with a key: the first extreme item *)
(* ===================================================================== *)

Section Scan.
Context {K : Type}.
Variable better : Z -> Z -> bool.
Hypothesis better_trans :
  forall a b c, better a b = true -> better b c = true -> better a c = true.
Hypothesis better_neg :
  forall a b c, better a b = true -> better c b = false -> better a c = true.
Variable key : K -> result Z.
Variable f : K -> Z.

(** The scan keeps an item before which every item is strictly worse and
    after which none is strictly better. *)
Lemma scan_extreme_first (rest : list K) :
  forall pre best mid,
    (forall x, In x rest -> key x = Ok (f x)) ->
    (forall x, In x pre -> better (f best) (f x) = true) ->
    (forall x, In x mid -> better (f x) (f best) = false) ->
    exists k l1 l2,
      scan_extreme better key best (f best) rest = Ok k /\
      (pre ++ best :: mid ++ rest)%list = (l1 ++ k :: l2)%list /\
      (forall x, In x l1 -> better (f k) (f x) = true) /\
      (forall x, In x l2 -> better (f x) (f k) = false).
Proof.
  induction rest as [|x rest IH]; intros pre best mid Hkey Hpre Hmid.
  - exists best, pre, mid. rewrite app_nil_r. simpl. auto.
  - cbn [scan_extreme]. rewrite (Hkey x (or_introl eq_refl)); cbn [bind].
    assert (Hkey' : forall z, In z rest -> key z = Ok (f z))
      by (intros z Hz; apply Hkey; right; exact Hz).
    destruct (better (f x) (f best)) eqn:Hb.
    + destruct (IH (pre ++ best :: mid)%list x [] Hkey') as (k & l1 & l2 & Hs & Hl & H1 & H2).
      * intros z Hz. apply in_app_or in Hz. destruct Hz as [Hz|[Hz|Hz]].
        -- eapply better_trans; [exact Hb | apply Hpre; exact Hz].
        -- subst z; exact Hb.
        -- eapply better_neg; [exact Hb | apply Hmid; exact Hz].
      * intros z [].
      * exists k, l1, l2. split; [exact Hs|]. split; [|auto].
        rewrite <- Hl. rewrite <- !app_assoc. reflexivity.
    + destruct (IH pre best (mid ++ [x])%list Hkey' Hpre) as (k & l1 & l2 & Hs & Hl & H1 & H2).
      * intros z Hz. apply in_app_or in Hz. destruct Hz as [Hz|[Hz|[]]].
        -- apply Hmid; exact Hz.
        -- subst z; exact Hb.
      * exists k, l1, l2. split; [exact Hs|]. split; [|auto].
        rewrite <- Hl. rewrite <- !app_assoc. reflexivity.
Qed.

Lemma extreme_by_first (items : list K) :
  items <> [] ->
  (forall x, In x items -> key x = Ok (f x)) ->
  exists k l1 l2,
    extreme_by better items key = Ok k /\
    items = (l1 ++ k :: l2)%list /\
    (forall x, In x l1 -> better (f k) (f x) = true) /\
    (forall x, In x l2 -> better (f x) (f k) = false).
Proof.
  destruct items as [|x rest]; [congruence|]. intros _ Hkey.
  unfold extreme_by. rewrite (Hkey x (or_introl eq_refl)); cbn [bind].
  destruct (scan_extreme_first rest [] x []) as (k & l1 & l2 & Hs & Hl & H1 & H2).
  - intros z Hz; apply Hkey; right; exact Hz.
  - intros z [].
  - intros z [].
  - exists k, l1, l2. auto.
Qed.
End Scan.

(** A list of keys cut in three cuts the mapping in three. *)
Lemma keys_split {K V : Type} (d : dict K V) (l1 l2 : list K) (k : K) :
  keys d = (l1 ++ k :: l2)%list ->
  exists d1 v d2, d = (d1 ++ (k, v) :: d2)%list /\ keys d1 = l1 /\ keys d2 = l2.
Proof.
  unfold keys. revert l1. induction d as [|[k' v'] d IH]; intros l1 Hk.
  - destruct l1; discriminate.
  - destruct l1 as [|x l1]; simpl in Hk; injection Hk as Hx Hrest.
    + subst k'. exists [], v', d. auto.
    + subst x. destruct (IH l1 Hrest) as (d1 & v & d2 & -> & E1 & E2).
      exists ((k', v') :: d1), v, d2. simpl. rewrite E1. auto.
Qed.

Section ExtremeOfDict.
Variable better : Z -> Z -> bool.
Hypothesis better_trans :
  forall a b c, better a b = true -> better b c = true -> better a c = true.
Hypothesis better_neg :
  forall a b c, better a b = true -> better c b = false -> better a c = true.

(** [max(d, key=lambda k: d[k])] on a mapping: the first entry of extreme
    value; on the empty mapping it raises. *)
Lemma extreme_of_dict (d : dict string Z) (k : string) :
  NoDup (keys d) ->
  extreme_by better (keys d) (getitem d) = Ok k ->
  exists d1 n d2,
    d = (d1 ++ (k, n) :: d2)%list /\ getitem d k = Ok n /\
    (forall k' n', In (k', n') d1 -> better n n' = true) /\
    (forall k' n', In (k', n') d2 -> better n' n = false).
Proof.
  intros Hnd Hk.
  set (f := fun x => match dict_get d x with Some n => n | None => 0 end).
  assert (Hkey : forall x, In x (keys d) -> getitem d x = Ok (f x)).
  { intros x Hx. unfold getitem, f. destruct (dict_get d x) eqn:E; [reflexivity|].
    apply dict_get_none in E. contradiction. }
  assert (Hne : keys d <> []).
  { intros E. rewrite E in Hk. discriminate. }
  destruct (extreme_by_first better better_trans better_neg (getitem d) f (keys d) Hne Hkey)
    as (k0 & l1 & l2 & Hs & Hl & H1 & H2).
  rewrite Hk in Hs. inversion Hs; subst k0; clear Hs.
  destruct (keys_split d l1 l2 k Hl) as (d1 & n & d2 & Hd & E1 & E2).
  assert (Hfk : forall k' n', In (k', n') d -> f k' = n').
  { intros k' n' Hin. unfold f. rewrite (in_dict_get d k' n' Hnd Hin). reflexivity. }
  assert (Hn : f k = n).
  { apply Hfk. rewrite Hd. apply in_or_app; right; left; reflexivity. }
  exists d1, n, d2. split; [exact Hd|]. split.
  - rewrite Hkey, Hn; [reflexivity|]. rewrite Hl. apply in_or_app; right; left; reflexivity.
  - split; intros k' n' Hin.
    + rewrite <- Hn, <- (Hfk k' n').
      * apply H1. rewrite <- E1. change k' with (fst (k', n')). apply in_map; exact Hin.
      * rewrite Hd. apply in_or_app; left; exact Hin.
    + rewrite <- Hn, <- (Hfk k' n').
      * apply H2. rewrite <- E2. change k' with (fst (k', n')). apply in_map; exact Hin.
      * rewrite Hd. apply in_or_app; right; right; exact Hin.
Qed.
End ExtremeOfDict.

Lemma gtb_trans (a b c : Z) : (a >? b) = true -> (b >? c) = true -> (a >? c) = true.
Proof. rewrite !Z.gtb_ltb, !Z.ltb_lt. lia. Qed.

Lemma gtb_neg (a b c : Z) : (a >? b) = true -> (c >? b) = false -> (a >? c) = true.
Proof. rewrite !Z.gtb_ltb, Z.ltb_ge, !Z.ltb_lt. lia. Qed.

Lemma ltb_trans (a b c : Z) : (a <? b) = true -> (b <? c) = true -> (a <? c) = true.
Proof. rewrite !Z.ltb_lt. lia. Qed.

Lemma ltb_neg (a b c : Z) : (a <? b) = true -> (c <? b) = false -> (a <? c) = true.
Proof. rewrite Z.ltb_ge, !Z.ltb_lt. lia. Qed.

(** A filtered mapping cut in three cuts the mapping it comes from. *)
Lemma filter_map_split {A B : Type} (g : string -> A -> option B) (es : dict string A)
    (l1 l2 : dict string B) (k : string) (n : B) :
  dict_filter_map g es = (l1 ++ (k, n) :: l2)%list ->
  exists e1 d e2,
    es = (e1 ++ (k, d) :: e2)%list /\ g k d = Some n /\
    dict_filter_map g e1 = l1 /\ dict_filter_map g e2 = l2.
Proof.
  revert l1. induction es as [|[k' a] es IH]; intros l1 Hs.
  - destruct l1; discriminate.
  - simpl in Hs. destruct (g k' a) as [b|] eqn:Eg; simpl in Hs.
    + destruct l1 as [|x l1]; simpl in Hs.
      * injection Hs as -> -> Hrest. exists [], a, es. simpl. auto.
      * injection Hs as Hx Hrest.
        subst x. destruct (IH l1 Hrest) as (e1 & d & e2 & -> & Hg & E1 & E2).
        exists ((k', a) :: e1), d, e2. simpl. rewrite Eg, E1. simpl. auto.
    + destruct (IH l1 Hs) as (e1 & d & e2 & -> & Hg & E1 & E2).
      exists ((k', a) :: e1), d, e2. simpl. rewrite Eg, E1. simpl. auto.
Qed.

Lemma filter_map_in {A B : Type} (g : string -> A -> option B) (es : dict string A)
    (k : string) (a : A) (b : B) :
  In (k, a) es -> g k a = Some b -> In (k, b) (dict_filter_map g es).
Proof.
  intros Hin Hg. unfold dict_filter_map. apply in_flat_map.
  exists (k, a). split; [exact Hin|]. simpl. rewrite Hg. left; reflexivity.
Qed.

(* ===================================================================== *)
(** * The yearly-extremes reduction *)
(* ===================================================================== *)

Section Extremes.
Variable W : world.

Lemma note_reading_ok (field : string) (d : daily) (k : string)
    (acc acc' : dict string Z) :
  note_reading W field d k acc = Ok acc' ->
  acc' = match field_int W field d with
         | Some n => dict_set acc k n
         | None => acc
         end.
Proof.
  unfold note_reading, field_int. intros Hn. bind_in Hn as v Hv.
  apply getitem_ok in Hv. rewrite Hv. destruct (ne_empty v).
  - bind_in Hn as n En. rewrite En. inversion Hn; reflexivity.
  - inversion Hn; reflexivity.
Qed.

Lemma extremes_days_entries (mo : string) (mr : monthly) :
  forall st,
    for_each (extremes_day W mo) mr st =
    for_each (extremes_entry W) (map (fun dd => (label (fst dd) mo, snd dd)) mr) st.
Proof.
  induction mr as [|[dy dd] mr IH]; intros st; [reflexivity|].
  cbn [for_each map fst snd]. destruct st as [[a b] c].
  change (extremes_day W mo (a, b, c) (dy, dd))
    with (extremes_entry W (a, b, c) (label dy mo, dd)).
  destruct (extremes_entry W (a, b, c) (label dy mo, dd)); cbn [bind];
    [apply IH | reflexivity].
Qed.

(** The two loops visit the labelled days in order. *)
Lemma extremes_months_entries (y : yearly) :
  forall st,
    for_each (extremes_month W) y st = for_each (extremes_entry W) (entries y) st.
Proof.
  induction y as [|[mo mr] y IH]; intros st; [reflexivity|].
  cbn [for_each]. unfold entries; cbn [flat_map]. rewrite for_each_app.
  unfold extremes_month at 1. cbn [fst snd]. rewrite extremes_days_entries.
  destruct (for_each (extremes_entry W) _ st); cbn [bind]; [apply IH | reflexivity].
Qed.

Lemma extremes_entries_fields (es : list (string * daily)) :
  forall a b c a' b' c',
    for_each (extremes_entry W) es (a, b, c) = Ok (a', b', c') ->
    for_each (note_entry W "Max TemperatureC") es a = Ok a' /\
    for_each (note_entry W "Min TemperatureC") es b = Ok b' /\
    for_each (note_entry W "Max Humidity") es c = Ok c'.
Proof.
  induction es as [|[k d] es IH]; intros a b c a' b' c' Hl.
  - simpl in Hl. inversion Hl; subst. simpl. auto.
  - cbn [for_each] in Hl. bind_in Hl as st Hst. destruct st as [[a1 b1] c1].
    unfold extremes_entry in Hst. cbn [fst snd] in Hst.
    bind_in Hst as x1 H1. bind_in Hst as x2 H2. bind_in Hst as x3 H3.
    inversion Hst; subst x1 x2 x3; clear Hst.
    cbn [for_each]. unfold note_entry at 1 3 5. cbn [fst snd].
    rewrite H1, H2, H3; cbn [bind]. apply IH; exact Hl.
Qed.

Lemma note_entries_ok (field : string) (es : list (string * daily))
    (r : dict string Z) :
  NoDup (keys es) ->
  for_each (note_entry W field) es [] = Ok r -> r = noted W field es.
Proof.
  intros Hnd Hr.
  apply (loop_filter_map (fun _ d => field_int W field d)) in Hr; [exact Hr| |exact Hnd].
  intros acc k d acc'; apply note_reading_ok.
Qed.

(** The three mappings after the loops. *)
Lemma extremes_loop_ok (y : yearly) (a b c : dict string Z) :
  wf_yearly y ->
  for_each (extremes_month W) y ([], [], []) = Ok (a, b, c) ->
  a = noted W "Max TemperatureC" (entries y) /\
  b = noted W "Min TemperatureC" (entries y) /\
  c = noted W "Max Humidity" (entries y).
Proof.
  intros Hwf Hl. rewrite extremes_months_entries in Hl.
  apply extremes_entries_fields in Hl. destruct Hl as (Ha & Hb & Hc).
  assert (Hnd := entries_nodup y Hwf).
  repeat split; apply note_entries_ok; assumption.
Qed.

Lemma noted_nodup (field : string) (es : list (string * daily)) :
  NoDup (keys es) -> NoDup (keys (noted W field es)).
Proof. apply filter_map_nodup. Qed.

(** The first entry of extreme value in the mapping of a field is the
    first day of extreme value. *)
Lemma first_extreme_of_noted (better : Z -> Z -> bool) (R : Z -> Z -> Prop)
    (field : string) (es : list (string * daily)) (k : string) :
  (forall a b c, better a b = true -> better b c = true -> better a c = true) ->
  (forall a b c, better a b = true -> better c b = false -> better a c = true) ->
  (forall a b, better a b = true -> R b a) ->
  (forall a b, better a b = false -> ~ R b a) ->
  NoDup (keys es) ->
  extreme_by better (keys (noted W field es)) (getitem (noted W field es)) = Ok k ->
  exists n, getitem (noted W field es) k = Ok n /\ first_extreme W R field es k n.
Proof.
  intros Ht Hn Hyes Hno Hnd Hk.
  destruct (extreme_of_dict better Ht Hn _ k (noted_nodup field es Hnd) Hk)
    as (d1 & n & d2 & Hd & Hg & H1 & H2).
  exists n. split; [exact Hg|].
  destruct (filter_map_split (fun _ d => field_int W field d) es d1 d2 k n Hd)
    as (e1 & dd & e2 & -> & Hgd & E1 & E2).
  exists e1, dd, e2. split; [reflexivity|]. split; [exact Hgd|]. split.
  - intros k' d' n' Hin Hf. apply Hyes. apply (H1 k'). rewrite <- E1.
    apply (filter_map_in (fun _ d => field_int W field d) e1 k' d' n' Hin Hf).
  - intros k' d' n' Hin Hf. apply Hno. apply (H2 k'). rewrite <- E2.
    apply (filter_map_in (fun _ d => field_int W field d) e2 k' d' n' Hin Hf).
Qed.

(** The Summary of the yearly-extremes reduction names, for each field, the
    first day of extreme value. *)
Lemma compute_extremes_first (y : yearly) (e : extremes) :
  wf_yearly y -> compute_extremes W y = Ok e ->
  first_extreme W Z.lt "Max TemperatureC" (entries y) (max_date e) (max_temp e) /\
  first_extreme W Z.gt "Min TemperatureC" (entries y) (min_date e) (min_temp e) /\
  first_extreme W Z.lt "Max Humidity" (entries y) (humidity_date e) (max_humidity e).
Proof.
  intros Hwf He. unfold compute_extremes in He.
  bind_in He as st Hst. destruct st as [[a b] c].
  destruct (extremes_loop_ok y a b c Hwf Hst) as (-> & -> & ->).
  bind_in He as k1 K1. bind_in He as k2 K2. bind_in He as k3 K3.
  bind_in He as n1 N1. bind_in He as n2 N2. bind_in He as n3 N3.
  inversion He; subst e; clear He. cbn.
  assert (Hnd := entries_nodup y Hwf).
  assert (Hgt1 : forall a b, (a >? b) = true -> b < a)
    by (intros a b; rewrite Z.gtb_ltb, Z.ltb_lt; auto).
  assert (Hgt2 : forall a b, (a >? b) = false -> ~ b < a)
    by (intros a b; rewrite Z.gtb_ltb, Z.ltb_ge; lia).
  assert (Hlt1 : forall a b, (a <? b) = true -> b > a)
    by (intros a b; rewrite Z.ltb_lt; lia).
  assert (Hlt2 : forall a b, (a <? b) = false -> ~ b > a)
    by (intros a b; rewrite Z.ltb_ge; lia).
  destruct (first_extreme_of_noted Z.gtb Z.lt _ _ _ gtb_trans gtb_neg Hgt1 Hgt2 Hnd K1)
    as (m1 & G1 & F1).
  destruct (first_extreme_of_noted Z.ltb Z.gt _ _ _ ltb_trans ltb_neg Hlt1 Hlt2 Hnd K2)
    as (m2 & G2 & F2).
  destruct (first_extreme_of_noted Z.gtb Z.lt _ _ _ gtb_trans gtb_neg Hgt1 Hgt2 Hnd K3)
    as (m3 & G3 & F3).
  rewrite N1 in G1. rewrite N2 in G2. rewrite N3 in G3.
  inversion G1; inversion G2; inversion G3; subst. auto.
Qed.
End Extremes.

(** C1. In the yearly-extremes reduction, when several days tie for the
    extreme value of a field, the label returned is that of the first such
    day in the order of the readings, month by month and day by day: every
    day before the one named by [max_date] (and by [humidity_date]) has a
    strictly smaller value and no day after it a larger one; every day
    before the one named by [min_date] has a strictly larger value and no
    day after it a smaller one. *)
Theorem compute_first_occurrence_wins (W : world) (y : yearly) (e : extremes) :
  wf_yearly y ->
  compute W (Yearly y) = Ok (SExtremes e) ->
  first_extreme W Z.lt "Max TemperatureC" (entries y) (max_date e) (max_temp e) /\
  first_extreme W Z.gt "Min TemperatureC" (entries y) (min_date e) (min_temp e) /\
  first_extreme W Z.lt "Max Humidity" (entries y) (humidity_date e) (max_humidity e).
Proof.
  intros Hwf Hc. simpl in Hc. bind_in Hc as e' He. inversion Hc; subst e'.
  apply compute_extremes_first; assumption.
Qed.

Ltac wf_yearly_consts :=
  split; [unfold dict_wf; simpl; nodup_consts
         | repeat (constructor; [unfold dict_wf; simpl; nodup_consts|]); constructor].

Lemma compute_first_occurrence_wins_witness :
  first_extreme Demo.W Z.lt "Max TemperatureC" (entries Demo.year_tie) "1 July" 45 /\
  first_extreme Demo.W Z.gt "Min TemperatureC" (entries Demo.year_tie) "2 July" 18 /\
  first_extreme Demo.W Z.lt "Max Humidity" (entries Demo.year_tie) "2 July" 90.
Proof.
  apply (compute_first_occurrence_wins Demo.W Demo.year_tie
           {| max_temp := 45; max_date := "1 July";
              min_temp := 18; min_date := "2 July";
              max_humidity := 90; humidity_date := "2 July" |}).
  - wf_yearly_consts.
  - vm_compute. reflexivity.
Defined.

Lemma first_extreme_is_extreme (W : world) (field : string)
    (es : list (string * daily)) (k : string) (n : Z) :
  (first_extreme W Z.lt field es k n -> extreme_day W Z.gt field es k n) /\
  (first_extreme W Z.gt field es k n -> extreme_day W Z.lt field es k n).
Proof.
  split; intros (e1 & d & e2 & -> & Hd & H1 & H2); (split;
    [exists d; split; [apply in_or_app; right; left; reflexivity | exact Hd]|]);
    intros k' d' n' Hin Hf; apply in_app_or in Hin;
    destruct Hin as [Hin|[Hin|Hin]];
    try (specialize (H1 _ _ _ Hin Hf); lia);
    try (specialize (H2 _ _ _ Hin Hf); lia);
    inversion Hin; subst; rewrite Hd in Hf; inversion Hf; lia.
Qed.

(** C9. The yearly-extremes reduction compares the [int] of each value:
    [max_temp], [min_temp] and [max_humidity] are the [int] of a stored
    value, for a [float] its truncation toward zero, and the day named is one
    whose truncated value no other day beats. So a day of strictly larger
    [float] value loses to an earlier day whose value truncates to the same
    integer: with 45.25 on 1 July and 45.75 on 2 July the Summary reads 45 on
    "1 July". *)
Theorem compute_compares_truncations (W : world) :
  (forall y e, wf_yearly y -> compute W (Yearly y) = Ok (SExtremes e) ->
     extreme_day W Z.gt "Max TemperatureC" (entries y) (max_date e) (max_temp e) /\
     extreme_day W Z.lt "Min TemperatureC" (entries y) (min_date e) (min_temp e) /\
     extreme_day W Z.gt "Max Humidity" (entries y) (humidity_date e) (max_humidity e)) /\
  (forall field d f n,
     dict_get d field = Some (VFloat f) -> field_int W field d = Some n ->
     truncation (float_to_Q f) n) /\
  (exists e,
     compute W (Yearly Demo.year_trunc) = Ok (SExtremes e) /\
     max_date e = "1 July" /\ max_temp e = 45 /\
     In ("1 July", Demo.reading (VFloat (Demo.quarters 181)) (VFloat (Demo.fl 20))
                     (VFloat (Demo.fl 80)) (VStr "")) (entries Demo.year_trunc) /\
     In ("2 July", Demo.reading (VFloat (Demo.quarters 183)) (VFloat (Demo.fl 18))
                     (VFloat (Demo.fl 90)) (VStr "")) (entries Demo.year_trunc) /\
     (float_to_Q (Demo.quarters 181) < float_to_Q (Demo.quarters 183))%Q).
Proof.
  split; [|split].
  - intros y e Hwf Hc. simpl in Hc. bind_in Hc as e' He. inversion Hc; subst e'.
    destruct (compute_extremes_first W y e Hwf He) as (F1 & F2 & F3).
    split; [|split].
    + apply (proj1 (first_extreme_is_extreme W _ _ _ _)); exact F1.
    + apply (proj2 (first_extreme_is_extreme W _ _ _ _)); exact F2.
    + apply (proj1 (first_extreme_is_extreme W _ _ _ _)); exact F3.
  - intros field d f n Hd Hf. unfold field_int in Hf. rewrite Hd in Hf.
    simpl in Hf. destruct (int_of_float f) as [z|] eqn:E; [|discriminate].
    inversion Hf; subst z. apply int_of_float_truncation; exact E.
  - eexists. split; [vm_compute; reflexivity|]. cbn [max_date max_temp].
    split; [reflexivity|]. split; [reflexivity|].
    split; [left; reflexivity|]. split; [right; left; reflexivity|].
    vm_compute. reflexivity.
Qed.

Lemma compute_compares_truncations_witness :
  extreme_day Demo.W Z.gt "Max TemperatureC" (entries Demo.year_trunc) "1 July" 45 /\
  extreme_day Demo.W Z.lt "Min TemperatureC" (entries Demo.year_trunc) "2 July" 18 /\
  extreme_day Demo.W Z.gt "Max Humidity" (entries Demo.year_trunc) "2 July" 90.
Proof.
  apply (proj1 (compute_compares_truncations Demo.W) Demo.year_trunc
           {| max_temp := 45; max_date := "1 July";
              min_temp := 18; min_date := "2 July";
              max_humidity := 90; humidity_date := "2 July" |}).
  - wf_yearly_consts.
  - vm_compute. reflexivity.
Defined.

(* ===================================================================== *)
(** * Empty ranges *)
(* ===================================================================== *)

Section EmptyRange.
Variable W : world.

Lemma no_value_field_int (field : string) (d : daily) :
  (forall v, dict_get d field = Some v -> ne_empty v = false) ->
  field_int W field d = None.
Proof.
  intros Hd. unfold field_int. destruct (dict_get d field) as [v|]; [|reflexivity].
  rewrite (Hd v eq_refl). reflexivity.
Qed.

(** A field without value leaves its mapping as it was. *)
Lemma note_entries_no_value (field : string) (es : list (string * daily)) :
  no_value field (map snd es) ->
  forall acc r, for_each (note_entry W field) es acc = Ok r -> r = acc.
Proof.
  induction es as [|[k d] es IH]; intros Hno acc r Hr.
  - simpl in Hr. inversion Hr; reflexivity.
  - inversion Hno as [|? ? Hd Hno']; subst.
    cbn [for_each] in Hr. bind_in Hr as acc1 H1.
    unfold note_entry in H1. apply note_reading_ok in H1. cbn [fst snd] in H1.
    rewrite (no_value_field_int field d Hd) in H1. subst acc1.
    apply IH; assumption.
Qed.

Lemma scan_extreme_total {K : Type} (better : Z -> Z -> bool)
    (key : K -> result Z) (rest : list K) :
  (forall x, In x rest -> exists m, key x = Ok m) ->
  forall best bv, exists k, scan_extreme better key best bv rest = Ok k.
Proof.
  induction rest as [|x rest IH]; intros Hrest best bv; [simpl; eauto|].
  cbn [scan_extreme]. destruct (Hrest x (or_introl eq_refl)) as (m & Hm).
  rewrite Hm; cbn [bind].
  assert (Hrest' : forall z, In z rest -> exists m, key z = Ok m)
    by (intros z Hz; apply Hrest; right; exact Hz).
  destruct (better m bv); apply IH; exact Hrest'.
Qed.

(** [max] and [min] of a mapping that is not empty return a key. *)
Lemma extreme_by_dict_total (better : Z -> Z -> bool) (d : dict string Z) :
  d <> [] -> exists k, extreme_by better (keys d) (getitem d) = Ok k.
Proof.
  intros Hne. unfold extreme_by.
  assert (Hkey : forall x, In x (keys d) -> exists n, getitem d x = Ok n).
  { intros x Hx. unfold getitem. destruct (dict_get d x) eqn:E; [eauto|].
    apply dict_get_none in E. contradiction. }
  destruct (keys d) as [|k rest] eqn:Ek.
  - destruct d; [congruence | discriminate].
  - destruct (Hkey k (or_introl eq_refl)) as (n0 & Hn0).
    rewrite Hn0; cbn [bind]. apply scan_extreme_total.
    intros x Hx. apply Hkey. right; exact Hx.
Qed.

(** After the loops, an empty mapping makes the reduction raise the
    [ValueError] of [max()] or [min()]. *)
Lemma compute_extremes_empty (y : yearly) (a b c : dict string Z) :
  for_each (extremes_month W) y ([], [], []) = Ok (a, b, c) ->
  a = [] \/ b = [] \/ c = [] ->
  compute_extremes W y = Err (ValueError EmptySequence).
Proof.
  intros Hl Hempty. unfold compute_extremes. rewrite Hl; cbn [bind].
  destruct a as [|xa a]; [reflexivity|].
  destruct (extreme_by_dict_total Z.gtb (xa :: a)) as (k1 & K1); [discriminate|].
  unfold py_max at 1. rewrite K1; cbn [bind].
  destruct b as [|xb b]; [reflexivity|].
  destruct (extreme_by_dict_total Z.ltb (xb :: b)) as (k2 & K2); [discriminate|].
  unfold py_min. rewrite K2; cbn [bind].
  destruct c as [|xc c]; [reflexivity|].
  destruct Hempty as [H|[H|H]]; discriminate.
Qed.

Lemma extremes_no_value (y : yearly) (field : string) (a b c : dict string Z) :
  In field extremes_fields ->
  no_value field (map snd (entries y)) ->
  for_each (extremes_month W) y ([], [], []) = Ok (a, b, c) ->
  a = [] \/ b = [] \/ c = [].
Proof.
  intros Hf Hno Hl. rewrite extremes_months_entries in Hl.
  apply extremes_entries_fields in Hl. destruct Hl as (Ha & Hb & Hc).
  destruct Hf as [<-|[<-|[<-|[]]]].
  - left. eapply note_entries_no_value; eassumption.
  - right; left. eapply note_entries_no_value; eassumption.
  - right; right. eapply note_entries_no_value; eassumption.
Qed.
End EmptyRange.

Lemma no_value_field_floats (field : string) (days : list daily) (xs : list float) :
  no_value field days -> field_floats field days = Some xs -> xs = [].
Proof.
  revert xs. induction days as [|d days IH]; intros xs Hno Hf.
  - simpl in Hf. inversion Hf; reflexivity.
  - inversion Hno as [|? ? Hd Hno']; subst. cbn [field_floats] in Hf.
    destruct (day_floats field d) as [a|] eqn:Da; [|discriminate].
    destruct (field_floats field days) as [b|] eqn:Db; [|discriminate].
    inversion Hf; subst xs. rewrite (IH b Hno' eq_refl), app_nil_r.
    unfold day_floats in Da. destruct (dict_get d field) as [[s|f|]|] eqn:E;
      try discriminate.
    + destruct (String.eqb s ""); inversion Da; reflexivity.
    + specialize (Hd _ eq_refl). discriminate.
Qed.

(** After the loop of the monthly reduction, the line of a field without
    value divides by zero. *)
Lemma average_line_no_value (m : monthly) (field : string) (st : avg_state) :
  In field average_fields ->
  no_value field (values m) ->
  for_each average_day (values m) avg_init = Ok st ->
  average_line field st = Err ZeroDivisionError.
Proof.
  intros Hf Hno Hl.
  assert (H0 : avg_tracks [] [] [] avg_init) by (repeat split; reflexivity).
  destruct (average_days_ok _ _ _ _ _ _ H0 Hl)
    as (y1 & y2 & y3 & F1 & F2 & F3 & T1 & T2 & T3).
  simpl in T1, T2, T3.
  destruct Hf as [<-|[<-|[<-|[]]]]; unfold average_line; simpl.
  - rewrite (no_value_field_floats _ _ _ Hno F1) in T1.
    destruct T1 as [-> ->]. reflexivity.
  - rewrite (no_value_field_floats _ _ _ Hno F2) in T2.
    destruct T2 as [-> ->]. reflexivity.
  - rewrite (no_value_field_floats _ _ _ Hno F3) in T3.
    destruct T3 as [-> ->]. reflexivity.
Qed.

Lemma averages_of_lines (st : avg_state) :
  averages_of st =
  (a <- average_line "Max TemperatureC" st ;;
   b <- average_line "Min TemperatureC" st ;;
   c <- average_line "Mean Humidity" st ;;
   Ok {| max_temp_avg := a; min_temp_avg := b; mean_humidity_avg := c |}).
Proof. reflexivity. Qed.

(** C7, as the code has it. If 'Max TemperatureC', 'Min TemperatureC' or
    'Max Humidity' has no non-empty value in the year, the yearly-extremes
    reduction returns no Summary, and once its loops are through it raises
    the [ValueError] of [max()] or [min()] of an empty mapping. If
    'Max TemperatureC', 'Min TemperatureC' or 'Mean Humidity' has no
    non-empty value in the month, the monthly-average reduction returns no
    Summary: once its loop is through, the line of that field divides by a
    zero count, and [ZeroDivisionError] is what the reduction raises when
    the lines before it return or divide by zero too. The monthly-average
    reduction does not read 'Max Humidity'. *)
Theorem empty_range_fails (W : world) :
  (forall y field,
     In field extremes_fields -> no_value field (map snd (entries y)) ->
     (exists e, compute W (Yearly y) = Err e) /\
     (forall st, for_each (extremes_month W) y ([], [], []) = Ok st ->
        compute W (Yearly y) = Err (ValueError EmptySequence))) /\
  (forall m field,
     In field average_fields -> no_value field (values m) ->
     (exists e, compute_monthly_average (Monthly m) = Err e) /\
     (forall st, for_each average_day (values m) avg_init = Ok st ->
        average_line field st = Err ZeroDivisionError /\
        ((forall f, In f (lines_before field) ->
            average_line f st = Err ZeroDivisionError \/
            exists n, average_line f st = Ok n) ->
         compute_monthly_average (Monthly m) = Err ZeroDivisionError))).
Proof.
  split.
  - intros y field Hf Hno.
    assert (Hst : forall st, for_each (extremes_month W) y ([], [], []) = Ok st ->
                    compute W (Yearly y) = Err (ValueError EmptySequence)).
    { intros [[a b] c] Hl. cbn [compute].
      rewrite (compute_extremes_empty W y a b c Hl); [reflexivity|].
      eapply extremes_no_value; eassumption. }
    split; [|exact Hst].
    destruct (for_each (extremes_month W) y ([], [], [])) as [st|e] eqn:Hl.
    + exists (ValueError EmptySequence). apply (Hst st). reflexivity.
    + exists e. cbn [compute]. unfold compute_extremes. rewrite Hl. reflexivity.
  - intros m field Hf Hno.
    assert (Hline : forall st, for_each average_day (values m) avg_init = Ok st ->
                      average_line field st = Err ZeroDivisionError).
    { intros st Hl. eapply average_line_no_value; eassumption. }
    split.
    + cbn [compute_monthly_average]. unfold monthly_average.
      destruct (for_each average_day (values m) avg_init) as [st|e] eqn:Hl;
        cbn [bind]; [|eauto].
      specialize (Hline st eq_refl). rewrite averages_of_lines.
      destruct Hf as [<-|[<-|[<-|[]]]].
      * rewrite Hline. cbn [bind]. eauto.
      * destruct (average_line "Max TemperatureC" st); cbn [bind]; [|eauto].
        rewrite Hline. cbn [bind]. eauto.
      * destruct (average_line "Max TemperatureC" st); cbn [bind]; [|eauto].
        destruct (average_line "Min TemperatureC" st); cbn [bind]; [|eauto].
        rewrite Hline. cbn [bind]. eauto.
    + intros st Hl. split; [apply Hline; exact Hl|]. intros Hbefore.
      specialize (Hline st Hl).
      cbn [compute_monthly_average]. unfold monthly_average. rewrite Hl; cbn [bind].
      rewrite averages_of_lines.
      destruct Hf as [<-|[<-|[<-|[]]]].
      * rewrite Hline. reflexivity.
      * destruct (Hbefore "Max TemperatureC" (or_introl eq_refl)) as [E|(n & E)];
          rewrite E; cbn [bind]; [reflexivity|].
        rewrite Hline. reflexivity.
      * destruct (Hbefore "Max TemperatureC" (or_introl eq_refl)) as [E|(n & E)];
          rewrite E; cbn [bind]; [reflexivity|].
        destruct (Hbefore "Min TemperatureC" (or_intror (or_introl eq_refl)))
          as [E'|(n' & E')]; rewrite E'; cbn [bind]; [reflexivity|].
        rewrite Hline. reflexivity.
Qed.

Ltac no_value_consts :=
  repeat (constructor;
          [intros v Hv; vm_compute in Hv; inversion Hv; reflexivity|]);
  constructor.

Lemma empty_range_fails_witness :
  compute Demo.W (Yearly Demo.year_dry) = Err (ValueError EmptySequence) /\
  compute_monthly_average (Monthly Demo.month) = Err ZeroDivisionError.
Proof.
  split.
  - destruct (proj1 (empty_range_fails Demo.W) Demo.year_dry "Max Humidity")
      as [_ Hst].
    + right; right; left; reflexivity.
    + simpl. no_value_consts.
    + eapply Hst. vm_compute. reflexivity.
  - destruct (proj2 (empty_range_fails Demo.W) Demo.month "Mean Humidity")
      as [_ Hst].
    + right; right; left; reflexivity.
    + simpl. no_value_consts.
    + eapply Hst; [vm_compute; reflexivity|].
      intros f Hf. simpl in Hf. destruct Hf as [<-|[<-|[]]]; right; eexists;
        vm_compute; reflexivity.
Defined.

(** The monthly-average reduction returns a Summary for a month without
    any 'Max Humidity' value: that field is not required there. *)
Lemma monthly_average_without_max_humidity :
  In "Max Humidity"
     ["Max TemperatureC"; "Min TemperatureC"; "Max Humidity"; "Mean Humidity"] /\
  no_value "Max Humidity" (values Demo.month_24_25) /\
  compute_monthly_average (Monthly Demo.month_24_25) =
    Ok (SAverages {| max_temp_avg := 24; min_temp_avg := 12;
                     mean_humidity_avg := 50 |}) /\
  ~ (exists e, compute_monthly_average (Monthly Demo.month_24_25) = Err e /\
               empty_range_error e).
Proof.
  split; [right; right; left; reflexivity|].
  split; [simpl; no_value_consts|].
  assert (Hc : compute_monthly_average (Monthly Demo.month_24_25) =
               Ok (SAverages {| max_temp_avg := 24; min_temp_avg := 12;
                                mean_humidity_avg := 50 |}))
    by (vm_compute; reflexivity).
  split; [exact Hc|]. intros (e & He & _). rewrite Hc in He. discriminate.
Qed.

(* ===================================================================== *)
(** * The bar reports *)
(* ===================================================================== *)

Lemma io_for_each_print (l : list string) (out : list string) :
  io_for_each print l out = (Ok tt, (out ++ l)%list).
Proof.
  revert out. induction l as [|x l IH]; intros out.
  - simpl. unfold io_ret. rewrite app_nil_r. reflexivity.
  - cbn [io_for_each]. unfold io_bind, print at 1. rewrite IH.
    rewrite <- app_assoc. reflexivity.
Qed.


Section BarReports.
Variable W : world.


End BarReports.














(* ===================================================================== *)
(** * The pipeline driver *)
(* ===================================================================== *)

Section DriverLemmas.
Variable W : world.
Variable path : string.
Variable st : strategies.
Variable yearly : bool.

Lemma each_date_length (dates : list string) (n : Z) (out out' : list string)
    (rs : list report) :
  each_date W path st yearly dates n out rs out' ->
  List.length rs = List.length dates.
Proof. induction 1; simpl; congruence. Qed.

Lemma process_dates_ok (dates : list string) :
  forall n acc out reports out',
    process_dates W dates n path st yearly acc out = (Ok reports, out') ->
    exists rs, reports = (acc ++ rs)%list /\
               each_date W path st yearly dates n out rs out'.
Proof.
  induction dates as [|date dates IH]; intros n acc out reports out' Hp.
  - simpl in Hp. unfold io_ret in Hp. inversion Hp; subst.
    exists []. rewrite app_nil_r. split; [reflexivity | constructor].
  - cbn [process_dates] in Hp. unfold io_bind in Hp.
    destruct (process_date W date n path st yearly out) as [[r|e] out1] eqn:Hd;
      [|discriminate].
    apply IH in Hp. destruct Hp as (rs & -> & Hrs).
    exists (r :: rs). rewrite <- app_assoc. split; [reflexivity|].
    econstructor; eassumption.
Qed.

Lemma process_dates_each (dates : list string) (n : Z) (out out' : list string)
    (rs : list report) :
  each_date W path st yearly dates n out rs out' ->
  forall acc,
    process_dates W dates n path st yearly acc out = (Ok (acc ++ rs)%list, out').
Proof.
  induction 1 as [n out|date dates n out out1 out2 r rs Hd Hrest IH]; intros acc.
  - simpl. unfold io_ret. rewrite app_nil_r. reflexivity.
  - cbn [process_dates]. unfold io_bind. rewrite Hd. rewrite IH.
    rewrite <- app_assoc. reflexivity.
Qed.

(** A date that fails ends the batch with its exception, whatever dates
    follow. *)
Lemma process_dates_abort (pre : list string) (n : Z) (out out1 : list string)
    (rs : list report) :
  each_date W path st yearly pre n out rs out1 ->
  forall date post e out2 acc,
    process_date W date (n + Z.of_nat (List.length pre)) path st yearly out1
      = (Err e, out2) ->
    process_dates W (pre ++ date :: post) n path st yearly acc out = (Err e, out2).
Proof.
  induction 1 as [n out|d dates n out o1 o2 r rs Hd Hrest IH];
    intros date post e out2 acc Hfail.
  - simpl in Hfail. rewrite Z.add_0_r in Hfail.
    cbn [app process_dates]. unfold io_bind. rewrite Hfail. reflexivity.
  - cbn [app process_dates]. unfold io_bind. rewrite Hd. apply IH.
    rewrite <- Hfail. f_equal. cbn [List.length]. lia.
Qed.
End DriverLemmas.

(** C2. [process_args] returns one report per date, in the order of the
    dates; and when a date fails after the dates before it returned their
    reports, the batch ends there with the exception of that date: no list
    of reports is returned and nothing is printed for the dates that
    follow, whatever they are. *)
Theorem process_args_batch (W : world) (path : string) (st : strategies)
    (yearly : bool) :
  (forall dates n out reports out',
     process_args W dates n path st yearly out = (Ok reports, out') ->
     each_date W path st yearly dates n out reports out' /\
     List.length reports = List.length dates) /\
  (forall dates n out reports out',
     each_date W path st yearly dates n out reports out' ->
     process_args W dates n path st yearly out = (Ok reports, out')) /\
  (forall pre date post n out rs out1 e out2,
     each_date W path st yearly pre n out rs out1 ->
     process_date W date (n + Z.of_nat (List.length pre)) path st yearly out1
       = (Err e, out2) ->
     process_args W (pre ++ date :: post) n path st yearly out = (Err e, out2)).
Proof.
  split; [|split].
  - intros dates n out reports out' Hp. unfold process_args in Hp.
    apply process_dates_ok in Hp. destruct Hp as (rs & -> & Hrs). simpl.
    split; [exact Hrs | eapply each_date_length; exact Hrs].
  - intros dates n out reports out' He. unfold process_args.
    rewrite (process_dates_each W path st yearly dates n out out' reports He []).
    reflexivity.
  - intros pre date post n out rs out1 e out2 He Hfail. unfold process_args.
    eapply process_dates_abort; eassumption.
Qed.

(** Three dates of which the second has no file: the batch ends with the
    [IndexError] of the missing file after the first report and the heading
    of the second. *)
Lemma process_args_batch_witness :
  process_args Demo.W (["2011/7"] ++ "2011/9" :: ["2011/8"]) 1 "weatherfiles"
    Demo.average_strategies false [] =
  (Err IndexError,
   [ newline ++ "Report # 1"; "Highest Average: 40C"; "Lowest Average: 19C";
     "Average Mean Humidity: 60%"; newline ++ "Report # 2" ]).
Proof.
  eapply (proj2 (proj2 (process_args_batch Demo.W "weatherfiles"
                          Demo.average_strategies false))).
  - eapply each_cons; [vm_compute; reflexivity | apply each_nil].
  - vm_compute. reflexivity.
Defined.

(* ===================================================================== *)
(** * Files without rows *)
(* ===================================================================== *)

Lemma split_on_nonempty (sep : ascii) (s : string) : split_on sep s <> [].
Proof.
  destruct s as [|c s]; simpl; [discriminate|].
  destruct (Ascii.eqb c sep); [discriminate|].
  destruct (split_on sep s); discriminate.
Qed.

Lemma DictReader_blank (W : world) (lines header : list string) :
  Forall (fun l => csv_fields W l = []) lines -> DictReader W lines header = [].
Proof.
  unfold DictReader. induction 1 as [|l lines Hl Hrest IH]; [reflexivity|].
  cbn [flat_map]. rewrite Hl, IH. reflexivity.
Qed.

(** A file whose lines after the first hold no field has no row. *)
Lemma read_csv_no_rows (W : world) (file_path : string) (lines : list string) :
  file_lines W file_path = Ok lines ->
  Forall (fun l => csv_fields W l = []) (tl lines) ->
  read_csv W file_path = Ok [].
Proof.
  intros Hl Hblank. unfold read_csv. rewrite Hl; cbn [bind].
  destruct (map strip (split_on "," match lines with [] => "" | l :: _ => l end))
    as [|h hs] eqn:Eh.
  - apply map_eq_nil in Eh. exfalso. eapply split_on_nonempty; exact Eh.
  - cbn [set_first bind]. rewrite DictReader_blank by exact Hblank. reflexivity.
Qed.

(** C10. [get_yearly_readings] needs a row in every file the year fragment
    matches: a matched file whose lines after the header hold no row is read
    as an empty list, whose first item the lookup asks for; so the lookup
    returns no Yearly Readings, and when the files listed before that one
    were read it raises [IndexError], the error of indexing an empty list,
    though files do match. *)
Theorem get_yearly_readings_needs_rows (W : world) (self : DataReader)
    (pre post : list string) (file_name : string) (lines : list string) :
  _get_files W self (report_date self) = Ok (pre ++ file_name :: post)%list ->
  file_lines W file_name = Ok lines ->
  Forall (fun l => csv_fields W l = []) (tl lines) ->
  read_csv W file_name = Ok [] /\
  (exists e, get_yearly_readings W self = Err e) /\
  (forall y, for_each (yearly_file W self) pre [] = Ok y ->
     get_yearly_readings W self = Err IndexError).
Proof.
  intros Hfiles Hl Hblank.
  assert (Hcsv := read_csv_no_rows W file_name lines Hl Hblank).
  assert (Hfile : forall y, yearly_file W self y file_name = Err IndexError).
  { intros y. unfold yearly_file. rewrite Hcsv. reflexivity. }
  assert (Hy : forall y, for_each (yearly_file W self) pre [] = Ok y ->
                 get_yearly_readings W self = Err IndexError).
  { intros y Hpre. unfold get_yearly_readings. rewrite Hfiles; cbn [bind].
    rewrite for_each_app, Hpre; cbn [bind for_each]. rewrite Hfile. reflexivity. }
  split; [exact Hcsv|]. split; [|exact Hy].
  destruct (for_each (yearly_file W self) pre []) as [y|e] eqn:Hpre.
  - exists IndexError. apply (Hy y). reflexivity.
  - exists e. unfold get_yearly_readings. rewrite Hfiles; cbn [bind].
    rewrite for_each_app, Hpre. reflexivity.
Qed.

(** The year 2012 of the small world: the file of January has a header and
    no row, that of February has a row. *)
Lemma get_yearly_readings_needs_rows_witness :
  read_csv Demo.W "weatherfiles/Murree_weather_2012_Jan.txt" = Ok [] /\
  (exists e, get_yearly_readings Demo.W (DataReader_init "weatherfiles" "2012") = Err e) /\
  (forall y,
     for_each (yearly_file Demo.W (DataReader_init "weatherfiles" "2012")) [] [] = Ok y ->
     get_yearly_readings Demo.W (DataReader_init "weatherfiles" "2012") = Err IndexError).
Proof.
  apply (get_yearly_readings_needs_rows Demo.W (DataReader_init "weatherfiles" "2012")
           [] ["weatherfiles/Murree_weather_2012_Feb.txt"]
           "weatherfiles/Murree_weather_2012_Jan.txt" [Demo.header_line]).
  - vm_compute. reflexivity.
  - vm_compute. reflexivity.
  - constructor.
Defined.

(* ===================================================================== *)
(** * The readings of the Data Reader are mappings *)
(* ===================================================================== *)

Section SetLemmas.
Context {K V : Type} `{EqKey K}.

Lemma dict_set_keys (d : dict K V) (k : K) (v : V) :
  keys (dict_set d k v) = keys d \/
  (~ In k (keys d) /\ keys (dict_set d k v) = (keys d ++ [k])%list).
Proof.
  induction d as [|[k' v'] d IH]; simpl.
  - right. split; [tauto | reflexivity].
  - destruct (key_eqb k' k) eqn:E; simpl; [left; reflexivity|].
    destruct IH as [IH|[Hn IH]].
    + left. unfold keys in *. rewrite IH. reflexivity.
    + right. split.
      * intros [Hk|Hk]; [subst; rewrite key_eqb_refl in E; discriminate | tauto].
      * unfold keys in *. rewrite IH. reflexivity.
Qed.

Lemma dict_set_wf (d : dict K V) (k : K) (v : V) :
  dict_wf d -> dict_wf (dict_set d k v).
Proof.
  unfold dict_wf. intros Hd. destruct (dict_set_keys d k v) as [E|[Hn E]]; rewrite E.
  - exact Hd.
  - apply NoDup_app; [exact Hd | constructor; [tauto | constructor] |].
    intros x Hx [Hk|[]]. subst. contradiction.
Qed.

Lemma dict_set_forall (P : K * V -> Prop) (d : dict K V) (k : K) (v : V) :
  Forall P d -> (forall k', P (k', v)) -> Forall P (dict_set d k v).
Proof.
  intros Hd Hv. induction d as [|[k' v'] d IH]; simpl.
  - constructor; [apply Hv | constructor].
  - inversion Hd; subst. destruct (key_eqb k' k).
    + constructor; [apply Hv | assumption].
    + constructor; [assumption | apply IH; assumption].
Qed.
End SetLemmas.

Lemma monthly_rows_wf (W : world) (self : DataReader) (rows : list raw_row) :
  forall acc m,
    dict_wf acc -> for_each (monthly_row W self) rows acc = Ok m -> dict_wf m.
Proof.
  induction rows as [|row rows IH]; intros acc m Hacc Hm.
  - simpl in Hm. inversion Hm; subst; exact Hacc.
  - cbn [for_each] in Hm. bind_in Hm as acc1 H1. unfold monthly_row in H1.
    bind_in H1 as d Hd. bind_in H1 as r Hr. inversion H1; subst acc1.
    eapply IH; [|exact Hm]. apply dict_set_wf; exact Hacc.
Qed.

(** The Yearly Readings the Data Reader returns hold each month once and,
    within a month, each day once. *)
Lemma get_yearly_readings_wf (W : world) (self : DataReader) (y : yearly) :
  get_yearly_readings W self = Ok y -> wf_yearly y.
Proof.
  unfold get_yearly_readings. intros Hy. bind_in Hy as file_list Hfiles.
  assert (Hinv : forall files acc r,
             wf_yearly acc -> for_each (yearly_file W self) files acc = Ok r ->
             wf_yearly r).
  { induction files as [|f files IH]; intros acc r Hacc Hr.
    - simpl in Hr. inversion Hr; subst; exact Hacc.
    - cbn [for_each] in Hr. bind_in Hr as acc1 H1. unfold yearly_file in H1.
      bind_in H1 as rows Hrows. bind_in H1 as first Hfirst. bind_in H1 as d Hd.
      bind_in H1 as m Hm. inversion H1; subst acc1; clear H1.
      eapply IH; [|exact Hr]. destruct Hacc as [Hk Hms]. split.
      + apply dict_set_wf; exact Hk.
      + apply dict_set_forall; [exact Hms|]. intros k'. cbn [snd].
        unfold get_monthly_readings in Hm. cbn [bind] in Hm.
        eapply monthly_rows_wf; [|exact Hm]. constructor. }
  eapply Hinv; [|exact Hy]. split; constructor.
Qed.

(** The Monthly Readings the Data Reader returns hold each day once. *)
Lemma get_monthly_readings_wf (W : world) (self : DataReader) (independent : bool)
    (monthly_data : option (list raw_row)) (m : monthly) :
  get_monthly_readings W self independent monthly_data = Ok m -> dict_wf m.
Proof.
  unfold get_monthly_readings. intros Hm. bind_in Hm as data Hdata.
  destruct data as [rows|]; [|discriminate].
  eapply monthly_rows_wf; [|exact Hm]. constructor.
Qed.

(** A mean of exactly 25.5 is rounded to 26, one of 24.5 to 24. *)
Example mean_25_5_rounds_to_26 :
  compute_monthly_average (Monthly Demo.month_25_26) =
    Ok (SAverages {| max_temp_avg := 26; min_temp_avg := 12; mean_humidity_avg := 50 |}) /\
  compute_monthly_average (Monthly Demo.month_24_25) =
    Ok (SAverages {| max_temp_avg := 24; min_temp_avg := 12; mean_humidity_avg := 50 |}).
Proof. split; vm_compute; reflexivity. Qed.

(** [int] truncates: 29.75 gives 29 and -0.75 gives 0; a day without
    minimum is left out. *)
Example min_max_truncates :
  compute_min_max Demo.W (Monthly Demo.month) =
    Ok (SMinMax [ (1, {| day_max_temp := 29; day_min_temp := 17 |});
                  (3, {| day_max_temp := 1; day_min_temp := 0 |}) ]).
Proof. vm_compute. reflexivity. Qed.

(* ===================================================================== *)
(** * Finding the files of a date *)
(* ===================================================================== *)

Lemma prefix_app (a s : string) : prefix a s = true <-> exists b, s = a ++ b.
Proof.
  revert s. induction a as [|c a IH]; intros [|c' s]; simpl.
  - split; [intros _; exists ""; reflexivity | reflexivity].
  - split; [intros _; exists (String c' s); reflexivity | reflexivity].
  - split; [discriminate | intros (b & Hb); discriminate].
  - destruct (Ascii.ascii_dec c c') as [->|Hc].
    + rewrite IH. split; intros (b & Hb); exists b; [subst; reflexivity|].
      inversion Hb; reflexivity.
    + split; [discriminate | intros (b & Hb); inversion Hb; congruence].
Qed.

(** [sub in s] holds exactly when [s] is some text, [sub], some text. *)
Lemma contains_app (sub s : string) :
  contains sub s = true <-> exists a b, s = a ++ sub ++ b.
Proof.
  induction s as [|c s IH]; cbn [contains]; rewrite orb_true_iff, prefix_app.
  - split.
    + intros [(b & Hb)|Hf]; [exists "", b; exact Hb | discriminate].
    + intros (a & b & Hab). left. destruct a; [exists b; exact Hab|discriminate].
  - rewrite IH. split.
    + intros [(b & Hb)|(a & b & Hab)].
      * exists "", b; exact Hb.
      * exists (String c a), b. simpl. rewrite Hab; reflexivity.
    + intros (a & b & Hab). destruct a as [|c' a].
      * left; exists b; exact Hab.
      * right. inversion Hab. exists a, b; reflexivity.
Qed.

Lemma length_app_string (a b : string) :
  String.length (a ++ b) = (String.length a + String.length b)%nat.
Proof. induction a as [|c a IH]; simpl; [reflexivity | rewrite IH; reflexivity]. Qed.

Lemma substring_whole (b : string) : substring 0 (String.length b) b = b.
Proof. induction b as [|c b IH]; simpl; [reflexivity | rewrite IH; reflexivity]. Qed.

Lemma substring_after (a b : string) :
  substring (String.length a) (String.length b) (a ++ b) = b.
Proof. induction a as [|c a IH]; simpl; [apply substring_whole | exact IH]. Qed.

Lemma substring_split (n m : nat) (s : string) :
  (n + m = String.length s)%nat -> s = substring 0 n s ++ substring n m s.
Proof.
  revert s. induction n as [|n IH]; intros s Hl.
  - simpl in Hl. subst m. rewrite substring_whole.
    destruct s; reflexivity.
  - destruct s as [|c s]; [discriminate|]. simpl in Hl. simpl.
    rewrite <- IH by lia. reflexivity.
Qed.

(** [s.endswith(suf)] holds exactly when [s] is some text followed by [suf]. *)
Lemma endswith_app (s suf : string) :
  endswith s suf = true <-> exists a, s = a ++ suf.
Proof.
  unfold endswith. rewrite andb_true_iff, Nat.leb_le, String.eqb_eq. split.
  - intros [Hl Hs].
    exists (substring 0 (String.length s - String.length suf) s).
    assert (E := substring_split (String.length s - String.length suf)
                   (String.length suf) s ltac:(lia)).
    rewrite Hs in E. exact E.
  - intros (a & ->). rewrite length_app_string. split; [lia|].
    replace (String.length a + String.length suf - String.length suf)%nat
      with (String.length a) by lia.
    apply substring_after.
Qed.

(** X1. [_get_files] returns, in the order of the directory listing, the
    path [files_dir/name] of exactly those names that contain the query as a
    piece of text and end in [.txt]; when the listing fails it fails the
    same way. *)
Theorem get_files_exact (W : world) (self : DataReader) (query_date : string) :
  (forall names, listdir W (files_dir self) = Ok names ->
     exists keep : string -> bool,
       (forall f, keep f = true <->
                  (exists a b, f = a ++ query_date ++ b) /\ (exists c, f = c ++ ".txt")) /\
       _get_files W self query_date =
         Ok (map (fun f => files_dir self ++ "/" ++ f) (filter keep names))) /\
  (forall e, listdir W (files_dir self) = Err e ->
     _get_files W self query_date = Err e).
Proof.
  split.
  - intros names Hl.
    exists (fun f => contains query_date f && endswith f ".txt"). split.
    + intros f. rewrite andb_true_iff, contains_app, endswith_app. reflexivity.
    + unfold _get_files. rewrite Hl. reflexivity.
  - intros e Hl. unfold _get_files. rewrite Hl. reflexivity.
Qed.

Lemma get_files_exact_witness :
  exists keep : string -> bool,
    (forall f, keep f = true <->
               (exists a b, f = a ++ "2011_Jul" ++ b) /\ (exists c, f = c ++ ".txt")) /\
    _get_files Demo.W (DataReader_init "weatherfiles" "2011/7") "2011_Jul" =
      Ok (map (fun f => "weatherfiles" ++ "/" ++ f)
              (filter keep (map (fun kv => substring 13 100 (fst kv)) Demo.files))).
Proof.
  apply (proj1 (get_files_exact Demo.W (DataReader_init "weatherfiles" "2011/7")
                  "2011_Jul")).
  reflexivity.
Defined.

(* ===================================================================== *)
(** * Setting and getting *)
(* ===================================================================== *)

Section GetSet.
Context {K V : Type} `{EqKey K}.

(** [d[k] = v] then [d.get(k')]. *)
Lemma dict_get_set (d : dict K V) (k k' : K) (v : V) :
  dict_get (dict_set d k v) k' = if key_eqb k k' then Some v else dict_get d k'.
Proof.
  induction d as [|[k0 v0] d IH]; simpl.
  - destruct (key_eqb k k'); reflexivity.
  - destruct (key_eqb k0 k) eqn:E0; simpl.
    + apply key_eqb_eq in E0; subst k0.
      destruct (key_eqb k k'); reflexivity.
    + destruct (key_eqb k0 k') eqn:E1; [|exact IH].
      apply key_eqb_eq in E1; subst k0.
      rewrite key_eqb_neq; [reflexivity|].
      intros Hk; subst k'. rewrite key_eqb_refl in E0. discriminate.
Qed.

Lemma dict_set_in_keys (d : dict K V) (k k' : K) (v : V) :
  In k' (keys (dict_set d k v)) <-> k' = k \/ In k' (keys d).
Proof.
  destruct (dict_set_keys d k v) as [E|[Hn E]]; rewrite E.
  - split; [tauto|]. intros [->|Hk]; [|exact Hk].
    destruct (dict_get d k) eqn:Eg.
    + apply dict_get_in in Eg. change k with (fst (k, v0)). apply in_map; exact Eg.
    + exfalso. apply dict_get_none in Eg.
      assert (Hs : dict_get (dict_set d k v) k = Some v)
        by (rewrite dict_get_set, key_eqb_refl; reflexivity).
      apply dict_get_in in Hs.
      apply Eg. rewrite <- E. change k with (fst (k, v)). apply in_map; exact Hs.
  - rewrite in_app_iff. simpl. intuition.
Qed.

Lemma dict_set_nonempty (d : dict K V) (k : K) (v : V) : dict_set d k v <> [].
Proof.
  destruct d as [|[k0 v0] d]; simpl; [discriminate|].
  destruct (key_eqb k0 k); discriminate.
Qed.

Lemma dict_set_length (d : dict K V) (k : K) (v : V) :
  (List.length (dict_set d k v) <= S (List.length d))%nat.
Proof.
  induction d as [|[k0 v0] d IH]; simpl; [lia|].
  destruct (key_eqb k0 k); simpl; lia.
Qed.
End GetSet.

(** A loop that sets, for each item, the key the item gives to the value it
    gives. *)
Section KeyedLoop.
Context {K V A : Type} `{EqKey K}.
Variable f : A -> result (K * V).
Variable body : dict K V -> A -> result (dict K V).
Hypothesis body_sets :
  forall acc x, body acc x = bind (f x) (fun kv => Ok (dict_set acc (fst kv) (snd kv))).

Lemma keyed_loop_items (xs : list A) :
  forall acc m, for_each body xs acc = Ok m ->
    forall x, In x xs -> exists kv, f x = Ok kv.
Proof.
  induction xs as [|x0 xs IH]; intros acc m Hm x Hx; [contradiction|].
  cbn [for_each] in Hm. bind_in Hm as acc1 H1. rewrite body_sets in H1.
  bind_in H1 as kv Hkv. destruct Hx as [<-|Hx]; [eauto|].
  eapply IH; eassumption.
Qed.

Lemma keyed_loop_keys (xs : list A) :
  forall acc m, for_each body xs acc = Ok m ->
    forall k, In k (keys m) <->
              In k (keys acc) \/ exists x v, In x xs /\ f x = Ok (k, v).
Proof.
  induction xs as [|x0 xs IH]; intros acc m Hm k.
  - simpl in Hm. inversion Hm; subst. split; [tauto|].
    intros [Hk|(x & v & [] & _)]. exact Hk.
  - cbn [for_each] in Hm. bind_in Hm as acc1 H1. rewrite body_sets in H1.
    bind_in H1 as kv Hkv. inversion H1; subst acc1; clear H1.
    rewrite (IH _ _ Hm k), dict_set_in_keys. destruct kv as [k0 v0]. cbn [fst snd].
    split.
    + intros [[->|Hk]|(x & v & Hx & Hf)].
      * right. exists x0, v0. split; [left; reflexivity | exact Hkv].
      * left; exact Hk.
      * right. exists x, v. split; [right; exact Hx | exact Hf].
    + intros [Hk|(x & v & [<-|Hx] & Hf)].
      * left; right; exact Hk.
      * rewrite Hkv in Hf. inversion Hf; subst. left; left; reflexivity.
      * right. exists x, v. split; assumption.
Qed.

Lemma keyed_loop_untouched (xs : list A) :
  forall acc m k, for_each body xs acc = Ok m ->
    (forall x k' v', In x xs -> f x = Ok (k', v') -> k' <> k) ->
    dict_get m k = dict_get acc k.
Proof.
  induction xs as [|x0 xs IH]; intros acc m k Hm Hno.
  - simpl in Hm. inversion Hm; reflexivity.
  - cbn [for_each] in Hm. bind_in Hm as acc1 H1. rewrite body_sets in H1.
    bind_in H1 as kv Hkv. inversion H1; subst acc1; clear H1.
    destruct kv as [k0 v0]. cbn [fst snd] in Hm.
    rewrite (IH _ _ k Hm).
    + rewrite dict_get_set. rewrite key_eqb_neq; [reflexivity|].
      apply (Hno x0 k0 v0); [left; reflexivity | exact Hkv].
    + intros x k' v' Hx. apply Hno. right; exact Hx.
Qed.

(** The last item that gives a key decides its value. *)
Lemma keyed_loop_last (x1 x2 : list A) (x : A) (k : K) (v : V) :
  forall acc m, for_each body (x1 ++ x :: x2) acc = Ok m ->
    f x = Ok (k, v) ->
    (forall x' k' v', In x' x2 -> f x' = Ok (k', v') -> k' <> k) ->
    dict_get m k = Some v.
Proof.
  intros acc m Hm Hf Hno. rewrite for_each_app in Hm. bind_in Hm as acc1 H1.
  cbn [for_each] in Hm. bind_in Hm as acc2 H2. rewrite body_sets, Hf in H2.
  cbn [bind fst snd] in H2. inversion H2; subst acc2; clear H2.
  rewrite (keyed_loop_untouched x2 _ m k Hm Hno).
  rewrite dict_get_set, key_eqb_refl. reflexivity.
Qed.

Lemma keyed_loop_length (xs : list A) :
  forall acc m, for_each body xs acc = Ok m ->
    (List.length m <= List.length acc + List.length xs)%nat.
Proof.
  induction xs as [|x0 xs IH]; intros acc m Hm.
  - simpl in Hm. inversion Hm; subst. lia.
  - cbn [for_each] in Hm. bind_in Hm as acc1 H1. rewrite body_sets in H1.
    bind_in H1 as kv Hkv. inversion H1; subst acc1; clear H1.
    apply IH in Hm. pose proof (dict_set_length acc (fst kv) (snd kv)).
    cbn [List.length]. lia.
Qed.
End KeyedLoop.

(* ===================================================================== *)
(** * The rows of a month and the files of a year *)
(* ===================================================================== *)

Lemma monthly_row_sets (W : world) (self : DataReader) (acc : monthly) (row : raw_row) :
  monthly_row W self acc row =
  bind (row_entry W self row) (fun kv => Ok (dict_set acc (fst kv) (snd kv))).
Proof.
  unfold monthly_row, row_entry.
  destruct (row_date W row); cbn [bind]; [|reflexivity].
  destruct (_get_daily_readings W self row); reflexivity.
Qed.

Lemma row_entry_ok (W : world) (self : DataReader) (row : raw_row) (k : Z) (r : daily) :
  row_entry W self row = Ok (k, r) <->
  exists d, row_date W row = Ok d /\ _get_daily_readings W self row = Ok r /\ day d = k.
Proof.
  unfold row_entry. split.
  - intros He. bind_in He as d Hd. bind_in He as r' Hr. inversion He; subst.
    exists d. auto.
  - intros (d & Hd & Hr & <-). rewrite Hd, Hr. reflexivity.
Qed.

(** X2. The Monthly Readings built from the rows of a file hold each day
    once and no more days than there are rows; their days are exactly the
    days of the rows; and when several rows carry the same day, the reading
    of the last of them is the one kept. *)
Theorem monthly_readings_last_row_wins (W : world) (self : DataReader)
    (rows : list raw_row) (m : monthly) :
  get_monthly_readings W self false (Some rows) = Ok m ->
  dict_wf m /\
  (List.length m <= List.length rows)%nat /\
  (forall k, In k (keys m) <->
             exists row d, In row rows /\ row_date W row = Ok d /\ day d = k) /\
  (forall before row after d r,
     rows = (before ++ row :: after)%list ->
     row_date W row = Ok d -> _get_daily_readings W self row = Ok r ->
     (forall row' d', In row' after -> row_date W row' = Ok d' -> day d' <> day d) ->
     dict_get m (day d) = Some r).
Proof.
  intros Hm. assert (Hwf := get_monthly_readings_wf _ _ _ _ _ Hm).
  unfold get_monthly_readings in Hm. cbn [bind] in Hm.
  split; [exact Hwf|]. split; [|split].
  - apply (keyed_loop_length (row_entry W self) (monthly_row W self)
             (monthly_row_sets W self) rows [] m Hm).
  - intros k.
    rewrite (keyed_loop_keys (row_entry W self) (monthly_row W self)
               (monthly_row_sets W self) rows [] m Hm k).
    split.
    + intros [[]|(row & r & Hin & He)]. apply row_entry_ok in He.
      destruct He as (d & Hd & _ & Hk). eauto.
    + intros (row & d & Hin & Hd & Hk). right.
      destruct (keyed_loop_items (row_entry W self) (monthly_row W self)
                  (monthly_row_sets W self) rows [] m Hm row Hin) as ([k' r] & He).
      exists row, r. split; [exact Hin|].
      assert (He' := He). apply row_entry_ok in He'.
      destruct He' as (d' & Hd' & _ & Hk'). rewrite Hd in Hd'. inversion Hd'; subst d'.
      rewrite <- Hk, Hk'. exact He.
  - intros before row after d r -> Hd Hr Hlater.
    apply (keyed_loop_last (row_entry W self) (monthly_row W self)
             (monthly_row_sets W self) before after row (day d) r [] m Hm).
    + apply row_entry_ok. eauto.
    + intros row' k' r' Hin He. apply row_entry_ok in He.
      destruct He as (d' & Hd' & _ & <-). eapply Hlater; eassumption.
Qed.

Lemma monthly_readings_last_row_wins_witness :
  exists m r,
    get_monthly_readings Demo.W (DataReader_init "weatherfiles" "2011/7") false
      (Some Demo2.rows_twice) = Ok m /\
    dict_get r "Events" = Some (VStr "Fog") /\
    dict_get m 1 = Some r.
Proof.
  eexists. eexists. split; [vm_compute; reflexivity|]. split; [|
    apply (proj2 (proj2 (proj2 (monthly_readings_last_row_wins Demo.W
             (DataReader_init "weatherfiles" "2011/7") Demo2.rows_twice _
             ltac:(vm_compute; reflexivity))))
           [dict_row Demo2.header (Demo.line_fields "2011-7-1,45,20,80,60,Rain");
            dict_row Demo2.header (Demo.line_fields "2011-7-2,44,18,90,70,")]
           (dict_row Demo2.header (Demo.line_fields "2011-7-1,30,17,85,65,Fog"))
           [] {| year := 2011; month := July; day := 1 |});
    [reflexivity | vm_compute; reflexivity | vm_compute; reflexivity
     | intros row' d' []]].
  vm_compute. reflexivity.
Defined.

Lemma filter_none {A : Type} (p : A -> bool) (l : list A) :
  (forall x, In x l -> p x = false) -> filter p l = [].
Proof.
  induction l as [|x l IH]; intros Hp; [reflexivity|].
  simpl. rewrite (Hp x (or_introl eq_refl)). apply IH.
  intros y Hy; apply Hp; right; exact Hy.
Qed.

(** X3. The monthly lookup asks for the files whose name holds
    [<year>_<Mon>]: when no name of the directory holds it and ends in
    [.txt], the lookup raises [IndexError]; otherwise it reads the first such
    file only and builds its readings from the rows of that file, whatever
    other files match and whatever rows were passed to it. *)
Theorem monthly_lookup_first_file (W : world) (self : DataReader) (d : datetime)
    (monthly_data : option (list raw_row)) :
  parse_date W (report_date self) "%Y/%m" = Ok d ->
  let query := str_of_Z (year d) ++ "_" ++ month_abbr (month d) in
  (forall names,
     listdir W (files_dir self) = Ok names ->
     (forall f, In f names ->
        ~ ((exists a b, f = a ++ query ++ b) /\ (exists c, f = c ++ ".txt"))) ->
     get_monthly_readings W self true monthly_data = Err IndexError) /\
  (forall file_name others rows,
     _get_files W self query = Ok (file_name :: others) ->
     read_csv W file_name = Ok rows ->
     get_monthly_readings W self true monthly_data =
     get_monthly_readings W self false (Some rows)) /\
  (forall file_name others e,
     _get_files W self query = Ok (file_name :: others) ->
     read_csv W file_name = Err e ->
     get_monthly_readings W self true monthly_data = Err e).
Proof.
  intros Hd query. split; [|split].
  - intros names Hl Hnone. unfold get_monthly_readings. rewrite Hd; cbn [bind].
    fold query. unfold _get_files. rewrite Hl; cbn [bind].
    rewrite filter_none; [reflexivity|].
    intros f Hf. destruct (contains query f && endswith f ".txt") eqn:E; [|reflexivity].
    exfalso. apply (Hnone f Hf). apply andb_true_iff in E. destruct E as [E1 E2].
    split; [apply contains_app; exact E1 | apply endswith_app; exact E2].
  - intros file_name others rows Hf Hr. unfold get_monthly_readings.
    rewrite Hd; cbn [bind]. fold query. rewrite Hf; cbn [bind item0].
    rewrite Hr. reflexivity.
  - intros file_name others e Hf Hr. unfold get_monthly_readings.
    rewrite Hd; cbn [bind]. fold query. rewrite Hf; cbn [bind item0].
    rewrite Hr. reflexivity.
Qed.

(** Of the two files of July 2011 in the directory, the first listed is the
    one read; for September 2011 there is none. *)
Lemma monthly_lookup_first_file_witness :
  get_monthly_readings Demo2.W (DataReader_init "data" "2011/7") true None =
  get_monthly_readings Demo2.W (DataReader_init "data" "2011/7") false
    (Some (DictReader Demo2.W ["2011-7-1,40,30,50,45,"] Demo2.header)).
Proof.
  apply (proj1 (proj2 (monthly_lookup_first_file Demo2.W
                         (DataReader_init "data" "2011/7")
                         {| year := 2011; month := July; day := 1 |} None
                         ltac:(vm_compute; reflexivity)))
           "data/lahore_2011_Jul.txt" ["data/murree_2011_Jul.txt"]).
  - vm_compute. reflexivity.
  - vm_compute. reflexivity.
Defined.

Lemma yearly_file_sets (W : world) (self : DataReader) (acc : yearly) (f : string) :
  yearly_file W self acc f =
  bind (file_entry W self f) (fun kv => Ok (dict_set acc (fst kv) (snd kv))).
Proof.
  unfold yearly_file, file_entry.
  destruct (read_csv W f) as [rows|]; cbn [bind]; [|reflexivity].
  destruct (item0 rows) as [first|]; cbn [bind]; [|reflexivity].
  destruct (row_date W first); cbn [bind]; [|reflexivity].
  destruct (get_monthly_readings W self false (Some rows)); reflexivity.
Qed.

Lemma file_entry_ok (W : world) (self : DataReader) (f : string) (k : string)
    (m : monthly) :
  file_entry W self f = Ok (k, m) <->
  exists rows first rest d,
    read_csv W f = Ok rows /\ rows = first :: rest /\ row_date W first = Ok d /\
    get_monthly_readings W self false (Some rows) = Ok m /\
    k = month_name (month d).
Proof.
  unfold file_entry. split.
  - intros He. bind_in He as rows Hrows. bind_in He as first Hfirst.
    bind_in He as d Hd. bind_in He as m' Hm. inversion He; subst.
    destruct rows as [|first' rest]; [discriminate|].
    simpl in Hfirst. inversion Hfirst; subst first'.
    exists (first :: rest), first, rest, d. auto.
  - intros (rows & first & rest & d & Hrows & -> & Hd & Hm & ->).
    rewrite Hrows; cbn [bind item0]. rewrite Hd; cbn [bind]. rewrite Hm. reflexivity.
Qed.

(** X4. The Yearly Readings hold no more months than files match the year.
    Their keys are the month names of the date of the first row of the
    files, whatever the files are called; and when the first rows of several
    files fall in the same month, the readings of the last of these files are
    the ones kept. Without any matching file the mapping is empty and
    nothing is raised. *)
Theorem yearly_readings_months (W : world) (self : DataReader)
    (file_list : list string) :
  _get_files W self (report_date self) = Ok file_list ->
  (file_list = [] -> get_yearly_readings W self = Ok []) /\
  (forall y, get_yearly_readings W self = Ok y ->
     wf_yearly y /\
     (List.length y <= List.length file_list)%nat /\
     (forall k, In k (keys y) <->
        exists f first rest d,
          In f file_list /\ read_csv W f = Ok (first :: rest) /\
          row_date W first = Ok d /\ k = month_name (month d)) /\
     (forall before f after first rest d m,
        file_list = (before ++ f :: after)%list ->
        read_csv W f = Ok (first :: rest) -> row_date W first = Ok d ->
        get_monthly_readings W self false (Some (first :: rest)) = Ok m ->
        (forall f' first' rest' d',
           In f' after -> read_csv W f' = Ok (first' :: rest') ->
           row_date W first' = Ok d' -> month d' <> month d) ->
        dict_get y (month_name (month d)) = Some m)).
Proof.
  intros Hfiles. split.
  - intros ->. unfold get_yearly_readings. rewrite Hfiles. reflexivity.
  - intros y Hy. assert (Hwf := get_yearly_readings_wf W self y Hy).
    unfold get_yearly_readings in Hy. rewrite Hfiles in Hy. cbn [bind] in Hy.
    split; [exact Hwf|]. split; [|split].
    + apply (keyed_loop_length (file_entry W self) (yearly_file W self)
               (yearly_file_sets W self) file_list [] y Hy).
    + intros k.
      rewrite (keyed_loop_keys (file_entry W self) (yearly_file W self)
                 (yearly_file_sets W self) file_list [] y Hy k).
      split.
      * intros [[]|(f & m & Hin & He)]. apply file_entry_ok in He.
        destruct He as (rows & first & rest & d & Hr & -> & Hd & _ & Hk).
        exists f, first, rest, d. auto.
      * intros (f & first & rest & d & Hin & Hr & Hd & Hk). right.
        destruct (keyed_loop_items (file_entry W self) (yearly_file W self)
                    (yearly_file_sets W self) file_list [] y Hy f Hin)
          as ([k' m] & He).
        exists f, m. split; [exact Hin|].
        assert (He' := He). apply file_entry_ok in He'.
        destruct He' as (rows & first' & rest' & d' & Hr' & -> & Hd' & _ & Hk').
        rewrite Hr in Hr'. inversion Hr'; subst first' rest'.
        rewrite Hd in Hd'. inversion Hd'; subst d'.
        rewrite Hk, <- Hk'. exact He.
    + intros before f after first rest d m -> Hr Hd Hm Hlater.
      apply (keyed_loop_last (file_entry W self) (yearly_file W self)
               (yearly_file_sets W self) before after f _ m [] y Hy).
      * apply file_entry_ok. exists (first :: rest), first, rest, d. auto.
      * intros f' k' m' Hin He. apply file_entry_ok in He.
        destruct He as (rows & first' & rest' & d' & Hr' & -> & Hd' & _ & ->).
        intros Heq. apply (Hlater f' first' rest' d' Hin Hr' Hd').
        destruct (month d'), (month d); simpl in Heq; congruence.
Qed.

(** The two files of July 2011: one month, with the readings of the file
    listed last. *)
Lemma yearly_readings_months_witness :
  exists y,
    get_yearly_readings Demo2.W (DataReader_init "data" "2011") = Ok y /\
    (List.length y <= 2)%nat.
Proof.
  eexists. split; [vm_compute; reflexivity|].
  apply (proj2 (yearly_readings_months Demo2.W (DataReader_init "data" "2011")
                  ["data/lahore_2011_Jul.txt"; "data/murree_2011_Jul.txt"]
                  ltac:(vm_compute; reflexivity))).
  vm_compute. reflexivity.
Defined.

(* ===================================================================== *)
(** * Reading a file *)
(* ===================================================================== *)













(* ===================================================================== *)
(** * Rows that are not rectangular *)
(* ===================================================================== *)

Lemma for_each_fails {A S : Type} (body : S -> A -> result S) (x : A) (l : list A) :
  In x l -> (forall s, exists e, body s x = Err e) ->
  forall s, exists e, for_each body l s = Err e.
Proof.
  intros Hin Hx. induction l as [|y l IH]; intros s; [contradiction|].
  cbn [for_each]. destruct Hin as [->|Hin].
  - destruct (Hx s) as (e & He). rewrite He. cbn [bind]. eauto.
  - destruct (body s y) as [s'|e]; cbn [bind]; [apply IH; exact Hin | eauto].
Qed.

Lemma daily_field_errors (W : world) (self : DataReader) (acc : daily)
    (item : string * option string) (e : exn) :
  daily_field W self acc item = Err e -> e = TypeError \/ e = ValueError NotAFloat.
Proof.
  destruct item as [header cell]. unfold daily_field.
  destruct (negb (str_in header (str_headers self)) && cell_ne_empty cell);
    [|discriminate].
  destruct cell as [s|]; simpl.
  - destruct (float_of_str W s); simpl; [discriminate|].
    intros He; inversion He; auto.
  - intros He; inversion He; auto.
Qed.

Lemma daily_fields_errors (W : world) (self : DataReader)
    (items : list (string * option string)) :
  forall acc e, for_each (daily_field W self) items acc = Err e ->
    e = TypeError \/ e = ValueError NotAFloat.
Proof.
  induction items as [|item items IH]; intros acc e He; [discriminate|].
  cbn [for_each] in He. destruct (daily_field W self acc item) as [acc'|e'] eqn:E;
    cbn [bind] in He.
  - eapply IH; exact He.
  - inversion He; subst. eapply daily_field_errors; exact E.
Qed.

(** X7. [_get_daily_readings] raises nothing but the [ValueError] of
    [float] on a text that is no number and [TypeError]. It never returns a
    reading for a row with more fields than the header, nor for a row too
    short to hold a field other than 'PKT' and 'Events'; a short row that
    lacks only such a field is returned with [None] in its place. *)
Theorem get_daily_readings_ragged (W : world) (self : DataReader) (row : raw_row) :
  (forall e, _get_daily_readings W self row = Err e ->
     e = TypeError \/ e = ValueError NotAFloat) /\
  (restkey row <> None -> exists e, _get_daily_readings W self row = Err e) /\
  (forall header, In (header, None) (fields row) ->
     str_in header (str_headers self) = false ->
     exists e, _get_daily_readings W self row = Err e) /\
  (forall header r, dict_wf (fields row) ->
     _get_daily_readings W self row = Ok r ->
     dict_get (fields row) header = Some None ->
     str_in header (str_headers self) = true /\ dict_get r header = Some VNone).
Proof.
  split; [|split; [|split]].
  - intros e He. unfold _get_daily_readings in He.
    destruct (for_each (daily_field W self) (fields row) []) as [r|e'] eqn:E;
      cbn [bind] in He.
    + destruct (restkey row); inversion He; auto.
    + inversion He; subst. eapply daily_fields_errors; exact E.
  - intros Hrest. unfold _get_daily_readings.
    destruct (for_each (daily_field W self) (fields row) []); cbn [bind]; [|eauto].
    destruct (restkey row); [eauto | congruence].
  - intros header Hin Hstr. unfold _get_daily_readings.
    destruct (for_each_fails (daily_field W self) (header, None) (fields row) Hin)
      with (s := @nil (string * value)) as (e & He).
    + intros s. unfold daily_field. rewrite Hstr. simpl. eauto.
    + rewrite He. cbn [bind]. eauto.
  - intros header r Hwf Hr Hget. unfold _get_daily_readings in Hr.
    bind_in Hr as r' Hloop. destruct (restkey row); [discriminate|].
    inversion Hr; subst r'; clear Hr.
    apply dict_get_in in Hget. apply in_split in Hget.
    destruct Hget as (l1 & l2 & Hf). rewrite Hf in Hloop, Hwf.
    rewrite for_each_app in Hloop. bind_in Hloop as acc1 H1.
    cbn [for_each] in Hloop. bind_in Hloop as acc2 H2.
    unfold daily_field in H2.
    destruct (str_in header (str_headers self)) eqn:Hstr; simpl in H2; [|discriminate].
    split; [reflexivity|]. inversion H2; subst acc2; clear H2.
    assert (Hleft : forall items acc r0,
               for_each (daily_field W self) items acc = Ok r0 ->
               ~ In header (keys items) ->
               dict_get r0 header = dict_get acc header).
    { induction items as [|[h c] items IH]; intros acc r0 Hl Hn.
      - simpl in Hl. inversion Hl; reflexivity.
      - cbn [for_each] in Hl. bind_in Hl as acc' Hs.
        rewrite (IH _ _ Hl) by (intros Hin; apply Hn; right; exact Hin).
        unfold daily_field in Hs.
        assert (Hh : h <> header) by (intros ->; apply Hn; left; reflexivity).
        destruct (negb (str_in h (str_headers self)) && cell_ne_empty c).
        + bind_in Hs as f Hf'. inversion Hs; subst.
          rewrite dict_get_set. simpl.
          destruct (String.eqb_spec h header); [contradiction | reflexivity].
        + inversion Hs; subst. rewrite dict_get_set. simpl.
          destruct (String.eqb_spec h header); [contradiction | reflexivity]. }
    rewrite (Hleft _ _ _ Hloop).
    + rewrite dict_get_set. simpl. rewrite String.eqb_refl. reflexivity.
    + unfold dict_wf, keys in Hwf. rewrite map_app in Hwf. simpl in Hwf.
      apply NoDup_remove_2 in Hwf. intros Hin. apply Hwf.
      apply in_or_app; right; exact Hin.
Qed.

(** A row with a field too many, and a row without its last field,
    'Events'. *)
Lemma get_daily_readings_ragged_witness :
  (exists e, _get_daily_readings Demo.W (DataReader_init "weatherfiles" "2011/7")
               (dict_row Demo2.header
                  (Demo.line_fields "2011-7-1,45,20,80,60,Rain,more")) = Err e) /\
  (exists r, _get_daily_readings Demo.W (DataReader_init "weatherfiles" "2011/7")
               (dict_row Demo2.header (Demo.line_fields "2011-7-1,45,20,80,60"))
             = Ok r /\ dict_get r "Events" = Some VNone).
Proof.
  split.
  - apply (proj1 (proj2 (get_daily_readings_ragged Demo.W
                           (DataReader_init "weatherfiles" "2011/7") _))).
    vm_compute. discriminate.
  - eexists. split; [vm_compute; reflexivity|].
    apply (proj2 (proj2 (proj2 (get_daily_readings_ragged Demo.W
                                  (DataReader_init "weatherfiles" "2011/7")
                                  (dict_row Demo2.header
                                     (Demo.line_fields "2011-7-1,45,20,80,60")))))
             "Events").
    + vm_compute. nodup_consts.
    + vm_compute. reflexivity.
    + vm_compute. reflexivity.
Defined.

(* ===================================================================== *)
(** * When the yearly-extremes reduction returns *)
(* ===================================================================== *)

Section ExtremesReturn.
Variable W : world.

Lemma note_reading_total (field : string) (d : daily) (k : string)
    (acc : dict string Z) :
  reading_ok W field d -> exists acc', note_reading W field d k acc = Ok acc'.
Proof.
  intros (v & Hv & Hc). unfold note_reading, getitem. rewrite Hv; cbn [bind].
  destruct (ne_empty v); [|eauto].
  destruct (Hc eq_refl) as (n & Hn). rewrite Hn; cbn [bind]. eauto.
Qed.

Lemma note_reading_readable (field : string) (d : daily) (k : string)
    (acc acc' : dict string Z) :
  note_reading W field d k acc = Ok acc' -> reading_ok W field d.
Proof.
  unfold note_reading. intros Hn. bind_in Hn as v Hv. apply getitem_ok in Hv.
  exists v. split; [exact Hv|]. intros Hne. rewrite Hne in Hn.
  bind_in Hn as n En. eauto.
Qed.

Lemma extremes_entries_total (es : list (string * daily)) :
  (forall k d field, In (k, d) es -> In field extremes_fields -> reading_ok W field d) ->
  forall st, exists st', for_each (extremes_entry W) es st = Ok st'.
Proof.
  induction es as [|[k d] es IH]; intros Hall st; [simpl; eauto|].
  cbn [for_each]. destruct st as [[a b] c]. unfold extremes_entry at 1. cbn [fst snd].
  destruct (note_reading_total "Max TemperatureC" d k a) as (a' & Ha).
  { apply (Hall k d); [left; reflexivity | left; reflexivity]. }
  destruct (note_reading_total "Min TemperatureC" d k b) as (b' & Hb).
  { apply (Hall k d); [left; reflexivity | right; left; reflexivity]. }
  destruct (note_reading_total "Max Humidity" d k c) as (c' & Hc).
  { apply (Hall k d); [left; reflexivity | right; right; left; reflexivity]. }
  rewrite Ha, Hb, Hc; cbn [bind]. apply IH.
  intros k' d' field Hin. apply (Hall k' d' field). right; exact Hin.
Qed.

Lemma note_entries_readable (field : string) (es : list (string * daily)) :
  forall acc r, for_each (note_entry W field) es acc = Ok r ->
    forall k d, In (k, d) es -> reading_ok W field d.
Proof.
  induction es as [|[k0 d0] es IH]; intros acc r Hr k d Hin; [contradiction|].
  cbn [for_each] in Hr. bind_in Hr as acc1 H1. unfold note_entry in H1.
  cbn [fst snd] in H1. destruct Hin as [Heq|Hin].
  - inversion Heq; subst. eapply note_reading_readable; exact H1.
  - eapply IH; eassumption.
Qed.

(** The mapping of a field is empty exactly when no day has a value. *)
Lemma note_entries_empty (field : string) (es : list (string * daily)) :
  forall acc r, for_each (note_entry W field) es acc = Ok r ->
    (r = [] <-> acc = [] /\ forall k d, In (k, d) es -> field_int W field d = None).
Proof.
  induction es as [|[k0 d0] es IH]; intros acc r Hr.
  - simpl in Hr. inversion Hr; subst. split; [intros ->; split; [reflexivity|]|tauto].
    intros k d [].
  - cbn [for_each] in Hr. bind_in Hr as acc1 H1. unfold note_entry in H1.
    cbn [fst snd] in H1. apply note_reading_ok in H1.
    rewrite (IH _ _ Hr). split.
    + intros [Hacc1 Hrest]. destruct (field_int W field d0) as [n|] eqn:En.
      * subst acc1. exfalso. exact (dict_set_nonempty acc k0 n Hacc1).
      * subst acc1. split; [exact Hacc1|].
        intros k d [Heq|Hin]; [inversion Heq; subst; exact En | eapply Hrest; exact Hin].
    + intros [-> Hall]. rewrite (Hall k0 d0 (or_introl eq_refl)) in H1. subst acc1.
      split; [reflexivity|]. intros k d Hin. apply (Hall k d). right; exact Hin.
Qed.

Lemma scan_extreme_in {K : Type} (better : Z -> Z -> bool) (key : K -> result Z)
    (rest : list K) :
  forall best bv k, scan_extreme better key best bv rest = Ok k ->
    k = best \/ In k rest.
Proof.
  induction rest as [|x rest IH]; intros best bv k Hs.
  - simpl in Hs. inversion Hs; auto.
  - cbn [scan_extreme] in Hs. bind_in Hs as v Hv.
    destruct (better v bv); apply IH in Hs; simpl; destruct Hs as [->|Hs]; auto.
Qed.

Lemma extreme_by_in {K : Type} (better : Z -> Z -> bool) (key : K -> result Z)
    (items : list K) (k : K) :
  extreme_by better items key = Ok k -> In k items.
Proof.
  destruct items as [|x rest]; [discriminate|]. unfold extreme_by. intros Hs.
  bind_in Hs as v Hv. apply scan_extreme_in in Hs. simpl.
  destruct Hs as [->|Hs]; auto.
Qed.

Lemma getitem_key (d : dict string Z) (k : string) :
  In k (keys d) -> exists n, getitem d k = Ok n.
Proof.
  intros Hk. unfold getitem. destruct (dict_get d k) eqn:E; [eauto|].
  apply dict_get_none in E. contradiction.
Qed.

Lemma field_int_dec (field : string) (es : list (string * daily)) :
  (forall k d, In (k, d) es -> field_int W field d = None) \/
  (exists k d n, In (k, d) es /\ field_int W field d = Some n).
Proof.
  induction es as [|[k d] es [IH|(k' & d' & n & Hin & Hn)]].
  - left. intros k d [].
  - destruct (field_int W field d) as [n|] eqn:En.
    + right. exists k, d, n. split; [left; reflexivity | exact En].
    + left. intros k' d' [Heq|Hin]; [inversion Heq; subst; exact En | eapply IH; exact Hin].
  - right. exists k', d', n. split; [right; exact Hin | exact Hn].
Qed.

Lemma compute_extremes_returns_iff (y : yearly) :
  (exists e, compute_extremes W y = Ok e) <->
  (forall k d field, In (k, d) (entries y) -> In field extremes_fields ->
     reading_ok W field d) /\
  (forall field, In field extremes_fields ->
     exists k d n, In (k, d) (entries y) /\ field_int W field d = Some n).
Proof.
  split.
  - intros (e & He). unfold compute_extremes in He. bind_in He as st Hst.
    destruct st as [[a b] c]. assert (Hloop := Hst).
    rewrite extremes_months_entries in Hst.
    apply extremes_entries_fields in Hst. destruct Hst as (Ha & Hb & Hc).
    split.
    + intros k d field Hin [<-|[<-|[<-|[]]]].
      * eapply note_entries_readable; eassumption.
      * eapply note_entries_readable; eassumption.
      * eapply note_entries_readable; eassumption.
    + assert (Hne : a <> [] /\ b <> [] /\ c <> []).
      { destruct a as [|xa a]; [|destruct b as [|xb b]; [|destruct c as [|xc c]]];
          try (repeat split; discriminate);
          assert (Hf := compute_extremes_empty W y _ _ _ Hloop);
          unfold compute_extremes in Hf; rewrite Hloop in Hf; cbn [bind] in Hf;
          match type of He with ?x = Ok e => assert (Hx : x = Err (ValueError EmptySequence))
                                                by (apply Hf; auto) end;
          rewrite Hx in He; discriminate. }
      destruct Hne as (Na & Nb & Nc).
      intros field [<-|[<-|[<-|[]]]].
      * destruct (field_int_dec "Max TemperatureC" (entries y)) as [Hn|Hs]; [|exact Hs].
        exfalso. apply Na. apply (note_entries_empty _ _ _ _ Ha). auto.
      * destruct (field_int_dec "Min TemperatureC" (entries y)) as [Hn|Hs]; [|exact Hs].
        exfalso. apply Nb. apply (note_entries_empty _ _ _ _ Hb). auto.
      * destruct (field_int_dec "Max Humidity" (entries y)) as [Hn|Hs]; [|exact Hs].
        exfalso. apply Nc. apply (note_entries_empty _ _ _ _ Hc). auto.
  - intros [Hread Hval].
    destruct (extremes_entries_total (entries y) Hread ([], [], [])) as ([[a b] c] & Hst).
    assert (Hfields := extremes_entries_fields W _ _ _ _ _ _ _ Hst).
    destruct Hfields as (Ha & Hb & Hc).
    assert (Na : a <> []).
    { intros E. apply (note_entries_empty _ _ _ _ Ha) in E. destruct E as [_ E].
      destruct (Hval "Max TemperatureC" (or_introl eq_refl)) as (k & d & n & Hin & Hn).
      rewrite (E k d Hin) in Hn. discriminate. }
    assert (Nb : b <> []).
    { intros E. apply (note_entries_empty _ _ _ _ Hb) in E. destruct E as [_ E].
      destruct (Hval "Min TemperatureC" (or_intror (or_introl eq_refl)))
        as (k & d & n & Hin & Hn).
      rewrite (E k d Hin) in Hn. discriminate. }
    assert (Nc : c <> []).
    { intros E. apply (note_entries_empty _ _ _ _ Hc) in E. destruct E as [_ E].
      destruct (Hval "Max Humidity" (or_intror (or_intror (or_introl eq_refl))))
        as (k & d & n & Hin & Hn).
      rewrite (E k d Hin) in Hn. discriminate. }
    unfold compute_extremes. rewrite extremes_months_entries, Hst; cbn [bind].
    destruct (extreme_by_dict_total Z.gtb a Na) as (k1 & K1).
    destruct (extreme_by_dict_total Z.ltb b Nb) as (k2 & K2).
    destruct (extreme_by_dict_total Z.gtb c Nc) as (k3 & K3).
    unfold py_max, py_min. rewrite K1, K2, K3; cbn [bind].
    destruct (getitem_key a k1 (extreme_by_in _ _ _ _ K1)) as (n1 & G1).
    destruct (getitem_key b k2 (extreme_by_in _ _ _ _ K2)) as (n2 & G2).
    destruct (getitem_key c k3 (extreme_by_in _ _ _ _ K3)) as (n3 & G3).
    rewrite G1, G2, G3; cbn [bind]. eauto.
Qed.
End ExtremesReturn.

(** X8. The yearly-extremes reduction returns a Summary exactly when every
    day of the year holds 'Max TemperatureC', 'Min TemperatureC' and
    'Max Humidity', each empty or convertible by [int], and each of the three
    fields has a value on some day. *)
Theorem compute_returns_iff (W : world) (y : yearly) :
  (exists e, compute W (Yearly y) = Ok (SExtremes e)) <->
  (forall k d field, In (k, d) (entries y) -> In field extremes_fields ->
     reading_ok W field d) /\
  (forall field, In field extremes_fields ->
     exists k d n, In (k, d) (entries y) /\ field_int W field d = Some n).
Proof.
  rewrite <- compute_extremes_returns_iff. cbn [compute]. split.
  - intros (e & He). bind_in He as e' He'. eauto.
  - intros (e & He). exists e. rewrite He. reflexivity.
Qed.

Lemma compute_returns_iff_witness :
  exists e, compute Demo.W (Yearly Demo.year_trunc) = Ok (SExtremes e).
Proof.
  apply (proj2 (compute_returns_iff Demo.W Demo.year_trunc)). split.
  - intros k d field Hin Hf. cbn in Hin.
    destruct Hin as [Heq|[Heq|[]]]; inversion Heq; subst;
      destruct Hf as [<-|[<-|[<-|[]]]];
      (eexists; split; [reflexivity|]; intros _; eexists; reflexivity).
  - intros field [<-|[<-|[<-|[]]]];
      do 3 eexists; (split; [left; reflexivity | reflexivity]).
Defined.

(* ===================================================================== *)
(** * The extremes and the averages reports *)
(* ===================================================================== *)

Lemma string_app_inv_tail (a b c : string) : a ++ c = b ++ c -> a = b.
Proof.
  revert b. induction a as [|x a IH]; intros [|y b] Heq; simpl in Heq.
  - reflexivity.
  - exfalso. assert (Hl := f_equal String.length Heq). simpl in Hl.
    rewrite length_app_string in Hl. lia.
  - exfalso. assert (Hl := f_equal String.length Heq). simpl in Hl.
    rewrite length_app_string in Hl. lia.
  - inversion Heq; subst. rewrite (IH b H1). reflexivity.
Qed.

Lemma value_text_inj (unit : string) (a b : Z) :
  str_of_Z a ++ unit = str_of_Z b ++ unit -> a = b.
Proof. intros Heq. apply str_of_Z_inj. eapply string_app_inv_tail; exact Heq. Qed.

(** X9. The extremes render prints three lines after what was printed
    before, and returns the date with each value followed by its unit and
    each label as it is; the report tells the Summary: two Summaries that
    render to the same report are the same, and so are the dates. A Summary
    of another shape raises [KeyError] before anything is printed. *)
Theorem generate_report_faithful :
  (forall r date out,
     generate_report (SExtremes r) date out =
     (Ok (ExtremesReport date
            (str_of_Z (max_temp r) ++ "C") (max_date r)
            (str_of_Z (min_temp r) ++ "C") (min_date r)
            (str_of_Z (max_humidity r) ++ "%") (humidity_date r)),
      (out ++ [ ("Highest: " ++ str_of_Z (max_temp r) ++ "C on " ++ max_date r)%string;
                ("Lowest: " ++ str_of_Z (min_temp r) ++ "C on " ++ min_date r)%string;
                ("Humidity: " ++ str_of_Z (max_humidity r) ++ "% on "
                   ++ humidity_date r)%string ])%list)) /\
  (forall r r' date date' out out',
     fst (generate_report (SExtremes r) date out) =
     fst (generate_report (SExtremes r') date' out') ->
     r = r' /\ date = date') /\
  (forall s date out,
     (forall r, s <> SExtremes r) ->
     generate_report s date out = (Err (KeyError "max_temp"), out)).
Proof.
  split; [|split].
  - intros r date out. unfold generate_report, io_bind, print, io_ret. cbn.
    rewrite <- !app_assoc. reflexivity.
  - intros r r' date date' out out' Heq.
    unfold generate_report, io_bind, print, io_ret in Heq. cbn in Heq.
    inversion Heq as [[Hd H1 H2 H3 H4 H5 H6]].
    apply value_text_inj in H1, H3, H5.
    destruct r, r'; cbn in *; subst. auto.
  - intros s date out Hs. destruct s as [r| |]; [|reflexivity|reflexivity].
    exfalso. apply (Hs r). reflexivity.
Qed.

(** X10. The averages render prints three lines after what was printed
    before and returns the date with each average followed by its unit; two
    Summaries that render to the same report are the same. A Summary of
    another shape raises [KeyError] before anything is printed. *)
Theorem generate_average_report_faithful :
  (forall r date out,
     generate_average_report (SAverages r) date out =
     (Ok (AveragesReport date
            (str_of_Z (max_temp_avg r) ++ "C")
            (str_of_Z (min_temp_avg r) ++ "C")
            (str_of_Z (mean_humidity_avg r) ++ "%")),
      (out ++ [ ("Highest Average: " ++ str_of_Z (max_temp_avg r) ++ "C")%string;
                ("Lowest Average: " ++ str_of_Z (min_temp_avg r) ++ "C")%string;
                ("Average Mean Humidity: " ++ str_of_Z (mean_humidity_avg r)
                   ++ "%")%string ])%list)) /\
  (forall r r' date date' out out',
     fst (generate_average_report (SAverages r) date out) =
     fst (generate_average_report (SAverages r') date' out') ->
     r = r' /\ date = date') /\
  (forall s date out,
     (forall r, s <> SAverages r) ->
     generate_average_report s date out = (Err (KeyError "max_temp_avg"), out)).
Proof.
  split; [|split].
  - intros r date out. unfold generate_average_report, io_bind, print, io_ret. cbn.
    rewrite <- !app_assoc. reflexivity.
  - intros r r' date date' out out' Heq.
    unfold generate_average_report, io_bind, print, io_ret in Heq. cbn in Heq.
    inversion Heq as [[Hd H1 H2 H3]].
    apply value_text_inj in H1, H2, H3.
    destruct r, r'; cbn in *; subst. auto.
  - intros s date out Hs. destruct s as [|r|]; [reflexivity| |reflexivity].
    exfalso. apply (Hs r). reflexivity.
Qed.


(* ===================================================================== *)
(** * What a batch returns and prints *)
(* ===================================================================== *)

Section BatchReports.
Variable W : world.
Variable path : string.
Variable yearly : bool.

Lemma process_date_report (st : strategies) (date : string) (n : Z)
    (out out' : list string) (r : report) :
  process_date W date n path st yearly out = (Ok r, out') ->
  exists s out1, ReportGenerator_generate s date (report_strategy st) out1 = (Ok r, out').
Proof.
  unfold process_date, io_bind, lift, print. intros Hp.
  destruct (if yearly then _ else _) as [rd|e]; [|discriminate].
  destruct (Calculator_compute W rd (calc_strategy st)) as [s|e]; [|discriminate].
  eauto.
Qed.

Lemma each_date_reports (st : strategies) (P : string -> report -> Prop) :
  (forall s date out1 r out',
     ReportGenerator_generate s date (report_strategy st) out1 = (Ok r, out') ->
     P date r) ->
  forall dates n out reports out',
    each_date W path st yearly dates n out reports out' ->
    Forall2 P dates reports.
Proof.
  intros HP. induction 1 as [|date dates n out out1 out2 r rs Hd Hrest IH];
    constructor; [|exact IH].
  apply process_date_report in Hd. destruct Hd as (s & o & Hg).
  eapply HP; exact Hg.
Qed.
End BatchReports.

(** X12. The reports a batch returns tell their date: with the extremes or
    the averages render, the report of each date holds that date, in the
    order of the dates; with a bar render every report is empty. *)
Theorem process_args_report_dates (W : world) (path : string) (yearly : bool)
    (calc : option (readings -> result summary)) (dates : list string) (n : Z)
    (out out' : list string) (reports : list report) :
  (process_args W dates n path
     {| calc_strategy := calc; report_strategy := None |} yearly out
     = (Ok reports, out') ->
   map report_date_of reports = map Some dates) /\
  (process_args W dates n path
     {| calc_strategy := calc; report_strategy := Some generate_average_report |}
     yearly out = (Ok reports, out') ->
   map report_date_of reports = map Some dates) /\
  (process_args W dates n path
     {| calc_strategy := calc;
        report_strategy := Some (generate_multiple_bar_report W) |}
     yearly out = (Ok reports, out') ->
   reports = repeat EmptyReport (List.length dates)) /\
  (process_args W dates n path
     {| calc_strategy := calc;
        report_strategy := Some (generate_single_bar_report W) |}
     yearly out = (Ok reports, out') ->
   reports = repeat EmptyReport (List.length dates)).
Proof.
  assert (Hdates : forall ds rs,
             Forall2 (fun d r => report_date_of r = Some d) ds rs ->
             map report_date_of rs = map Some ds).
  { induction 1; simpl; congruence. }
  assert (Hempty : forall ds rs,
             Forall2 (fun (_ : string) r => r = EmptyReport) ds rs ->
             rs = repeat EmptyReport (List.length ds)).
  { induction 1; simpl; congruence. }
  split; [|split; [|split]]; intros Hp; unfold process_args in Hp;
    apply process_dates_ok in Hp; destruct Hp as (rs & -> & He); simpl.
  - apply Hdates. eapply each_date_reports; [|exact He].
    intros s date o r o' Hg. cbn in Hg. destruct s; cbn in Hg;
      unfold io_bind, print, io_ret, lift in Hg; inversion Hg; reflexivity.
  - apply Hdates. eapply each_date_reports; [|exact He].
    intros s date o r o' Hg. cbn in Hg. destruct s; cbn in Hg;
      unfold io_bind, print, io_ret, lift in Hg; inversion Hg; reflexivity.
  - apply Hempty. eapply each_date_reports; [|exact He].
    intros s date o r o' Hg. cbn [ReportGenerator_generate report_strategy] in Hg.
    unfold generate_multiple_bar_report, io_bind, lift, print, io_ret in Hg.
    destruct (report_header W date); [|discriminate].
    destruct (bar_lines _ s _) as [[u|e] o2]; inversion Hg; reflexivity.
  - apply Hempty. eapply each_date_reports; [|exact He].
    intros s date o r o' Hg. cbn [ReportGenerator_generate report_strategy] in Hg.
    unfold generate_single_bar_report, io_bind, lift, print, io_ret in Hg.
    destruct (report_header W date); [|discriminate].
    destruct (bar_lines _ s _) as [[u|e] o2]; inversion Hg; reflexivity.
Qed.

Lemma process_args_report_dates_witness :
  map report_date_of [AveragesReport "2011/7" "40C" "19C" "60%"]
  = map Some ["2011/7"].
Proof.
  apply (proj1 (proj2 (process_args_report_dates Demo.W "weatherfiles" false
                         (Some compute_monthly_average) ["2011/7"] 1 []
                         [ newline ++ "Report # 1"; "Highest Average: 40C";
                           "Lowest Average: 19C"; "Average Mean Humidity: 60%" ]
                         [AveragesReport "2011/7" "40C" "19C" "60%"]))).
  vm_compute. reflexivity.
Defined.

(* ===================================================================== *)
(** * What a batch prints *)
(* ===================================================================== *)

Lemma io_for_each_appends {A : Type} (body : A -> io unit) (l : list A) :
  (forall x out, exists more, snd (body x out) = (out ++ more)%list) ->
  forall out, exists more, snd (io_for_each body l out) = (out ++ more)%list.
Proof.
  intros Hbody. induction l as [|x l IH]; intros out.
  - exists []. simpl. rewrite app_nil_r. reflexivity.
  - cbn [io_for_each]. unfold io_bind.
    destruct (Hbody x out) as (m1 & H1).
    destruct (body x out) as [[u|e] out1]; simpl in H1; subst out1.
    + destruct (IH (out ++ m1)%list) as (m2 & H2). exists (m1 ++ m2)%list.
      rewrite H2, app_assoc. reflexivity.
    + exists m1. reflexivity.
Qed.

Lemma bar_lines_appends (lines : Z -> day_pair -> list string) (s : summary)
    (out : list string) :
  exists more, snd (bar_lines lines s out) = (out ++ more)%list.
Proof.
  destruct s as [r|r|d]; cbn [bar_lines].
  - exists []. unfold lift. simpl. rewrite app_nil_r. reflexivity.
  - exists []. unfold lift. simpl. rewrite app_nil_r. reflexivity.
  - apply io_for_each_appends. intros item o.
    rewrite io_for_each_print. eexists. reflexivity.
Qed.

Lemma source_renders_append (W : world)
    (render : option (summary -> string -> io report)) :
  In render (source_renders W) -> appending render.
Proof.
  intros Hin s date out. unfold source_renders in Hin. simpl in Hin.
  destruct Hin as [<-|[<-|[<-|[<-|[]]]]]; cbn [ReportGenerator_generate].
  - destruct s; cbn [generate_report]; unfold io_bind, print, io_ret, lift; simpl.
    + rewrite <- !app_assoc. eexists. reflexivity.
    + exists []. rewrite app_nil_r. reflexivity.
    + exists []. rewrite app_nil_r. reflexivity.
  - destruct s; cbn [generate_average_report];
      unfold io_bind, print, io_ret, lift; simpl.
    + exists []. rewrite app_nil_r. reflexivity.
    + rewrite <- !app_assoc. eexists. reflexivity.
    + exists []. rewrite app_nil_r. reflexivity.
  - unfold generate_multiple_bar_report, io_bind, lift, print, io_ret.
    destruct (report_header W date) as [h|e].
    + destruct (bar_lines_appends
                  (fun day readings =>
                     [max_bar_line day readings; min_bar_line day readings])
                  s (out ++ [h])%list) as (m & Hm).
      destruct (bar_lines _ s _) as [[u|e] o]; simpl in Hm; subst o; simpl;
        exists (h :: m); rewrite <- app_assoc; reflexivity.
    + exists []. simpl. rewrite app_nil_r. reflexivity.
  - unfold generate_single_bar_report, io_bind, lift, print, io_ret.
    destruct (report_header W date) as [h|e].
    + destruct (bar_lines_appends
                  (fun day readings => [single_bar_line day readings])
                  s (out ++ [h])%list) as (m & Hm).
      destruct (bar_lines _ s _) as [[u|e] o]; simpl in Hm; subst o; simpl;
        exists (h :: m); rewrite <- app_assoc; reflexivity.
    + exists []. simpl. rewrite app_nil_r. reflexivity.
Qed.

Section BatchOutput.
Variable W : world.
Variable path : string.
Variable st : strategies.
Variable yearly : bool.
Hypothesis Happ : appending (report_strategy st).

Lemma process_date_prints (date : string) (n : Z) (out : list string) :
  exists more,
    snd (process_date W date n path st yearly out) = (out ++ heading n :: more)%list.
Proof.
  unfold process_date, io_bind, lift, print.
  change (newline ++ "Report # " ++ str_of_Z n) with (heading n).
  destruct (if yearly then _ else _) as [rd|e].
  - destruct (Calculator_compute W rd (calc_strategy st)) as [s|e].
    + destruct (Happ s date (out ++ [heading n])%list) as (m & Hm).
      exists m. rewrite Hm, <- app_assoc. reflexivity.
    + exists []. simpl. reflexivity.
  - exists []. simpl. reflexivity.
Qed.

Lemma process_dates_prints (dates : list string) :
  forall n acc out,
  exists texts,
    snd (process_dates W dates n path st yearly acc out)
      = (out ++ numbered n texts)%list /\
    match fst (process_dates W dates n path st yearly acc out) with
    | Ok _ => List.length texts = List.length dates
    | Err _ => (0 < List.length texts <= List.length dates)%nat
    end.
Proof.
  induction dates as [|d dates IH]; intros n acc out.
  - exists []. simpl. rewrite app_nil_r. split; reflexivity.
  - cbn [process_dates]. unfold io_bind.
    destruct (process_date_prints d n out) as (m & Hm).
    destruct (process_date W d n path st yearly out) as [[r|e] out1];
      simpl in Hm; subst out1.
    + destruct (IH (n + 1) (acc ++ [r])%list (out ++ heading n :: m)%list)
        as (texts & Hout & Hres).
      exists (m :: texts). split.
      * rewrite Hout. cbn [numbered]. rewrite <- !app_assoc. reflexivity.
      * destruct (fst (process_dates W dates (n + 1) path st yearly _ _));
          cbn [List.length]; lia.
    + exists [m]. split.
      * cbn [numbered snd]. rewrite app_nil_r. reflexivity.
      * cbn [fst List.length]. lia.
Qed.
End BatchOutput.

(** X13. With any of the four renders of the program, a batch only adds
    to what was printed before it, and what it adds is, for each date it
    reached, the heading [Report # k] and then the text of that date, with
    [k] counting up by one from the number the batch was given: one heading
    for every date when the batch returns, and at least the heading of the
    date that failed when it raises. *)
Theorem process_args_prints (W : world) (path : string) (yearly : bool)
    (calc : option (readings -> result summary))
    (render : option (summary -> string -> io report))
    (dates : list string) (n : Z) (out : list string) :
  In render (source_renders W) ->
  exists texts,
    snd (process_args W dates n path
           {| calc_strategy := calc; report_strategy := render |} yearly out)
      = (out ++ numbered n texts)%list /\
    match fst (process_args W dates n path
                 {| calc_strategy := calc; report_strategy := render |} yearly out)
    with
    | Ok _ => List.length texts = List.length dates
    | Err _ => (0 < List.length texts <= List.length dates)%nat
    end.
Proof.
  intros Hin. unfold process_args. apply process_dates_prints.
  cbn [report_strategy]. apply (source_renders_append W). exact Hin.
Qed.

Lemma process_args_prints_witness :
  In (Some generate_average_report) (source_renders Demo.W) /\
  exists texts,
    snd (process_args Demo.W ["2011/7"; "2011/9"; "2011/8"] 1 "weatherfiles"
           {| calc_strategy := Some compute_monthly_average;
              report_strategy := Some generate_average_report |} false [])
      = ([] ++ numbered 1 texts)%list /\
    match fst (process_args Demo.W ["2011/7"; "2011/9"; "2011/8"] 1 "weatherfiles"
                 {| calc_strategy := Some compute_monthly_average;
                    report_strategy := Some generate_average_report |} false [])
    with
    | Ok _ => List.length texts = List.length ["2011/7"; "2011/9"; "2011/8"]
    | Err _ =>
        (0 < List.length texts <= List.length ["2011/7"; "2011/9"; "2011/8"])%nat
    end.
Proof.
  assert (Hin : In (Some generate_average_report) (source_renders Demo.W)).
  { right. left. reflexivity. }
  split; [exact Hin|].
  apply (process_args_prints Demo.W "weatherfiles" false
           (Some compute_monthly_average) (Some generate_average_report)
           ["2011/7"; "2011/9"; "2011/8"] 1 [] Hin).
Defined.

(* ===================================================================== *)
(** * Dates without a file *)
(* ===================================================================== *)

Lemma get_files_none (W : world) (path date query : string) (names : list string) :
  listdir W path = Ok names ->
  (forall f, In f names ->
     ~ ((exists a b, f = a ++ query ++ b) /\ (exists c, f = c ++ ".txt"))) ->
  _get_files W (DataReader_init path date) query = Ok [].
Proof.
  intros Hl Hnone. unfold _get_files. cbn [files_dir DataReader_init].
  rewrite Hl; cbn [bind]. rewrite filter_none; [reflexivity|].
  intros f Hf. destruct (contains query f && endswith f ".txt") eqn:E; [|reflexivity].
  exfalso. apply (Hnone f Hf). apply andb_true_iff in E. destruct E as [E1 E2].
  split; [apply contains_app; exact E1 | apply endswith_app; exact E2].
Qed.

(** X14. A date for which the directory holds no file fails after its
    heading and nothing else was printed. A yearly request finds an empty
    year, which the reader returns, and the default reduction raises the
    [ValueError] of [max()] of an empty mapping; a monthly request, whatever
    its strategies, raises the [IndexError] of the first of no files. *)
Theorem process_date_without_files (W : world) (path date : string) (n : Z)
    (out names : list string) :
  listdir W path = Ok names ->
  ((forall f, In f names ->
      ~ ((exists a b, f = a ++ date ++ b) /\ (exists c, f = c ++ ".txt"))) ->
   get_yearly_readings W (DataReader_init path date) = Ok [] /\
   process_date W date n path
     {| calc_strategy := None; report_strategy := None |} true out
   = (Err (ValueError EmptySequence), (out ++ [heading n])%list)) /\
  (forall d st,
     parse_date W date "%Y/%m" = Ok d ->
     (forall f, In f names ->
        ~ ((exists a b,
              f = a ++ (str_of_Z (year d) ++ "_" ++ month_abbr (month d)) ++ b) /\
           (exists c, f = c ++ ".txt"))) ->
     process_date W date n path st false out
     = (Err IndexError, (out ++ [heading n])%list)).
Proof.
  intros Hl. split.
  - intros Hnone.
    assert (Hy : get_yearly_readings W (DataReader_init path date) = Ok []).
    { unfold get_yearly_readings. cbn [report_date DataReader_init].
      rewrite (get_files_none W path date date names Hl Hnone). reflexivity. }
    split; [exact Hy|].
    unfold process_date, io_bind, lift, print. rewrite Hy. reflexivity.
  - intros d st Hd Hnone.
    unfold process_date, io_bind, lift, print, get_monthly_readings.
    cbn [report_date DataReader_init]. rewrite Hd; cbn [bind].
    rewrite (get_files_none W path date _ names Hl Hnone). reflexivity.
Qed.

Lemma process_date_without_files_witness :
  get_yearly_readings Demo.W (DataReader_init "weatherfiles" "2019") = Ok [] /\
  process_date Demo.W "2019" 3 "weatherfiles"
    {| calc_strategy := None; report_strategy := None |} true []
  = (Err (ValueError EmptySequence), ([] ++ [heading 3])%list).
Proof.
  refine (proj1 (process_date_without_files Demo.W "weatherfiles" "2019" 3 [] _ _) _).
  - vm_compute. reflexivity.
  - intros f Hf [Hc _]. apply contains_app in Hc. revert Hc.
    simpl in Hf. repeat (destruct Hf as [<-|Hf]; [vm_compute; discriminate|]).
    destruct Hf.
Defined.

(* ===================================================================== *)
(** * The flags of a run *)
(* ===================================================================== *)

Section MainLemmas.
Variable W : world.
Variable str_of_reports : list report -> string.

Lemma given_dates (dates : option (list string)) :
  given dates = true -> exists d ds, dates = Some (d :: ds).
Proof.
  destruct dates as [[|d ds]|]; simpl; intros H; try discriminate. eauto.
Qed.

Lemma flag_group_skip (dates : option (list string)) (st : strategies)
    (yearly : bool) (path : string) (c : counter) (out : list string) :
  given dates = false ->
  flag_group W str_of_reports dates st yearly path c out = (Ok c, out).
Proof.
  destruct dates as [[|d ds]|]; simpl; intros H; try discriminate; reflexivity.
Qed.

(** The first flag that was given runs its batch from the number. *)
Lemma flag_group_num (dates : option (list string)) (st : strategies)
    (yearly : bool) (path : string) (n : Z) (out : list string) :
  given dates = true ->
  flag_group W str_of_reports dates st yearly path (CNum n) out =
  match process_args W (dates_of dates) n path st yearly out with
  | (Ok reports, out') => (Ok (CReports reports), out')
  | (Err e, out') => (Err e, out')
  end.
Proof.
  intros H. apply given_dates in H. destruct H as (d & ds & ->).
  cbn [flag_group dates_of process_args_counter]. unfold io_bind, io_ret.
  destruct (process_args W (d :: ds) n path st yearly out) as [[rs|e] o]; reflexivity.
Qed.

(** A flag that is given once [report_num] holds a list fails, and its
    heading shows the list. *)
Lemma flag_group_reports (dates : option (list string)) (st : strategies)
    (yearly : bool) (path : string) (l : list report) (out : list string) :
  given dates = true -> appending (report_strategy st) ->
  exists e more,
    flag_group W str_of_reports dates st yearly path (CReports l) out =
    (Err e, (out ++ (newline ++ "Report # " ++ str_of_reports l)%string :: more)%list).
Proof.
  intros H Happ. apply given_dates in H. destruct H as (d & ds & ->).
  cbn [flag_group process_args_counter]. unfold io_bind, io_ret, lift, print.
  destruct (if yearly then _ else _) as [rd|e].
  - destruct (Calculator_compute W rd (calc_strategy st)) as [s|e].
    + destruct (Happ s d (out ++ [(newline ++ "Report # " ++ str_of_reports l)%string])%list)
        as (m & Hm).
      destruct (ReportGenerator_generate s d (report_strategy st) _) as [[r|e] o];
        simpl in Hm; subst o; rewrite <- app_assoc; simpl; eauto.
    + exists e, []. reflexivity.
  - exists e, []. reflexivity.
Qed.
End MainLemmas.

(** X15. [main] runs one batch and no second one. Without a flag it
    prints nothing and returns; with one flag it ends as the batch of that
    flag numbered from 1 ends. With two flags or more it never returns:
    when the batch of the first flag fails, it ends there, and when it
    returns its reports, [report_num] holds that list, the next flag prints
    a heading that shows the list in place of a number, and the run raises
    before a second batch is through. *)
Theorem main_runs_one_batch (W : world) (str_of_reports : list report -> string)
    (args : arguments) (out : list string) :
  (groups_given args = 0%nat -> main W str_of_reports args out = (Ok tt, out)) /\
  (forall dates st yearly,
     groups_given args = 1%nat ->
     first_group W args = Some (dates, st, yearly) ->
     main W str_of_reports args out
     = ends_as (process_args W dates 1 (arg_path args) st yearly out)) /\
  (forall dates st yearly,
     (2 <= groups_given args)%nat ->
     first_group W args = Some (dates, st, yearly) ->
     (exists e, fst (main W str_of_reports args out) = Err e) /\
     (forall e out1,
        process_args W dates 1 (arg_path args) st yearly out = (Err e, out1) ->
        main W str_of_reports args out = (Err e, out1)) /\
     (forall reports out1,
        process_args W dates 1 (arg_path args) st yearly out = (Ok reports, out1) ->
        exists e more,
          main W str_of_reports args out =
          (Err e,
           (out1 ++ (newline ++ "Report # " ++ str_of_reports reports)%string
                 :: more)%list))).
Proof.
  assert (Ha1 : appending (Some generate_average_report))
    by (apply (source_renders_append W); right; left; reflexivity).
  assert (Ha2 : appending (Some (generate_multiple_bar_report W)))
    by (apply (source_renders_append W); right; right; left; reflexivity).
  assert (Ha3 : appending (Some (generate_single_bar_report W)))
    by (apply (source_renders_append W); right; right; right; left; reflexivity).
  remember (main W str_of_reports args out) as R eqn:HR.
  unfold main, io_bind in HR. cbv beta in HR.
  unfold groups_given, first_group.
  destruct (given (arg_e args)) eqn:Ge, (given (arg_a args)) eqn:Ga,
           (given (arg_c args)) eqn:Gc, (given (arg_b args)) eqn:Gb;
    (split; [intros H0; try (exfalso; simpl in H0; lia) | split]);
    try (intros dates st yearly H1 Hf; try (exfalso; simpl in H1; lia);
         try discriminate Hf; injection Hf as <- <- <-).
  all: repeat
    match type of HR with
    | context [flag_group ?W0 ?s0 ?d ?s ?y ?p ?c ?o] =>
        match goal with
        | G : given d = false |- _ =>
            rewrite (flag_group_skip W0 s0 d s y p c o G) in HR; cbv beta iota in HR
        end
    end.
  all: try (subst R; reflexivity).
  all: match type of HR with
       | context [flag_group ?W0 ?s0 ?d ?s ?y ?p (CNum ?n) ?o] =>
           match goal with
           | G : given d = true |- _ =>
               rewrite (flag_group_num W0 s0 d s y p n o G) in HR
           end
       end.
  all: unfold ends_as.
  all: destruct (process_args W _ 1 (arg_path args) _ _ out) as [[rs|e] o1] eqn:Hp.
  all: cbv beta iota in HR; cbn [fst snd].
  all: repeat
    match type of HR with
    | context [flag_group ?W0 ?s0 ?d ?s ?y ?p ?c ?o] =>
        match goal with
        | G : given d = false |- _ =>
            rewrite (flag_group_skip W0 s0 d s y p c o G) in HR; cbv beta iota in HR
        end
    end.
  all: try (subst R; reflexivity).
  all: try (subst R; split; [eexists; reflexivity
                   | split; [intros e' o' He; congruence
                            | intros rs' o' He; discriminate He]]).
  all: match type of HR with
       | context [flag_group ?W0 ?s0 ?d ?s ?y ?p (CReports ?l) ?o] =>
           match goal with
           | G : given d = true |- _ =>
               let e := fresh "e" in
               let more := fresh "more" in
               let Hg := fresh "Hg" in
               destruct (flag_group_reports W0 s0 d s y p l o G)
                 as (e & more & Hg); [assumption|];
               rewrite Hg in HR; cbv beta iota in HR
           end
       end.
  all: subst R; split; [eexists; reflexivity
              | split; [intros e' o' He; discriminate He
                       | intros rs' o' He; injection He as <- <-; eauto]].
Qed.

(** The average of July 2011 and then its single bars: the second flag
    ends the run. *)
Lemma main_runs_one_batch_witness :
  exists e,
    fst (main Demo.W (fun _ => "reports")
           {| arg_e := None; arg_a := Some ["2011/7"]; arg_c := None;
              arg_b := Some ["2011/7"]; arg_path := "weatherfiles" |} [])
    = Err e.
Proof.
  refine (proj1 (proj2 (proj2 (main_runs_one_batch Demo.W (fun _ => "reports")
                                 {| arg_e := None; arg_a := Some ["2011/7"];
                                    arg_c := None; arg_b := Some ["2011/7"];
                                    arg_path := "weatherfiles" |} []))
                   ["2011/7"] Demo.average_strategies false _ _)).
  - unfold groups_given. simpl. lia.
  - reflexivity.
Defined.

(* ===================================================================== *)
(** * The routes *)
(* ===================================================================== *)



